(** * Virtual Book Club: the search / description / analysis pipeline

    A shallow embedding of [VirtualBookClub] from [virtual-book-club.py]:
    [_rate_limit], [check_ollama_availability], [search_books_by_genre],
    [get_book_description] and [analyze_book_with_ollama], together with the
    properties stated about them.

    Python text is a sequence of Unicode code points, HTTP is an oracle that
    answers the n-th request of the process, and the mutable attributes of the
    object ([last_request_time]), the wall clock and the list of requests
    issued so far are threaded through a small state-and-exception monad. *)

From Stdlib Require Import List String Ascii ZArith NArith QArith Bool Lia Lqa.
From Stdlib Require Import DecimalString DecimalPos.
Import ListNotations.

Set Implicit Arguments.

(** ** Text *)

(** A Python [str]: a list of code points. *)
Definition char := N.
Definition str := list char.

(** ASCII literals of the source. *)
Fixpoint py (s : string) : str :=
  match s with
  | EmptyString => []
  | String a r => N_of_ascii a :: py r
  end.

Definition str_eqb (a b : str) : bool :=
  if list_eq_dec N.eq_dec a b then true else false.

(** [needle in hay] for text. *)
Definition substr (needle hay : str) : Prop :=
  exists pre post, hay = pre ++ needle ++ post.

(** Decimal rendering of an integer, as [str(n)] and [f"{n}"] give it. *)
Definition str_of_Z (z : Z) : str := py (NilZero.string_of_int (Z.to_int z)).

(** [Py_UNICODE_ISSPACE]: what [\s] (on [str] patterns), [str.strip] and
    [str.isspace] call whitespace. *)
Definition is_space (c : char) : bool :=
  ((9 <=? c) && (c <=? 13) || (28 <=? c) && (c <=? 32)
   || (c =? 133) || (c =? 160) || (c =? 5760)
   || (8192 <=? c) && (c <=? 8202)
   || (c =? 8232) || (c =? 8233) || (c =? 8239) || (c =? 8287)
   || (c =? 12288))%N.

Definition LT : char := 60%N.
Definition GT : char := 62%N.
Definition SP : char := 32%N.

Fixpoint drop_while (p : char -> bool) (s : str) : str :=
  match s with
  | [] => []
  | c :: r => if p c then drop_while p r else s
  end.

(** [s.strip()] *)
Definition strip (s : str) : str :=
  rev (drop_while is_space (rev (drop_while is_space s))).

(** [bool(s)] for text. *)
Definition truthy_str (s : str) : bool :=
  match s with [] => false | _ => true end.

(** *** [re.sub(r'<[^>]+>', '', s)] *)

(** Length of the greedy run [[^>]*] at the head of [s], when a [>] ends it. *)
Fixpoint run_to_gt (s : str) : option nat :=
  match s with
  | [] => None
  | c :: r =>
      if (c =? GT)%N then Some 0%nat
      else match run_to_gt r with
           | Some n => Some (S n)
           | None => None
           end
  end.

(** Length of the match of [<[^>]+>] anchored at the head of [s]. *)
Definition tag_match (s : str) : option nat :=
  match s with
  | c :: r =>
      if (c =? LT)%N then
        match run_to_gt r with
        | Some (S n) => Some (S (S (S n)))
        | _ => None
        end
      else None
  | [] => None
  end.

(** The scan of [re.sub]: at each position either a match starts, and its
    characters are skipped, or the character is copied. [skip] counts the
    characters of the current match still to be passed. *)
Fixpoint sub_tags (skip : nat) (s : str) : str :=
  match s with
  | [] => []
  | c :: r =>
      match skip with
      | S k => sub_tags k r
      | O =>
          match tag_match s with
          | Some (S k) => sub_tags k r
          | _ => c :: sub_tags 0 r
          end
      end
  end.

Definition strip_tags (s : str) : str := sub_tags 0 s.

(** *** [re.sub(r'\s+', ' ', s)] *)

(** [in_run] tells that the previous character belonged to the run of
    whitespace being replaced. *)
Fixpoint sub_spaces (in_run : bool) (s : str) : str :=
  match s with
  | [] => []
  | c :: r =>
      if is_space c then
        if in_run then sub_spaces true r else SP :: sub_spaces true r
      else c :: sub_spaces false r
  end.

Definition collapse_spaces (s : str) : str := sub_spaces false s.

(** Lines 225-226 of [get_book_description]. *)
Definition sanitize (s : str) : str :=
  strip (collapse_spaces (strip_tags s)).

(** Lines 227-228: [description[:500] + "..."] when longer than 500. *)
Definition truncate500 (s : str) : str :=
  if (500 <? List.length s)%nat then firstn 500 s ++ py "..." else s.

(** ** Upstream data *)

(** A value that is either present or replaced by a textual marker such as
    ["Unknown"]. *)
Inductive or_marker (A : Type) : Type :=
| Known (a : A)
| Marker (m : str).
Arguments Marker {A} m.

Definition from_option {A} (o : option A) (d : A) : A :=
  match o with Some a => a | None => d end.

(** One record of [docs] in the answer of [/search.json], with the fields the
    program reads, typed as the Open Library search schema types them; [None]
    is an absent key. *)
Module Doc.
Record t := mk {
  title : option str;
  author_name : option (list str);
  first_publish_year : option Z;
  key : option str;
  subject : option (list str);
  language : option (list str);
  number_of_pages_median : option Z;
  cover_i : option Z;
  isbn : option (list str);
  publisher : option (list str);
  ratings_average : option Q
}.
End Doc.

(** The [description] key of a work record: absent, plain text, an object
    (without [value], with a textual [value], or with a [value] that is no
    text, of which [truthy] is the truth value), or anything else. *)
Inductive description_field :=
| DescAbsent
| DescText (s : str)
| DescValue (value : option str)
| DescValueOther (truthy : bool)
| DescOther.

(** The keys that the program reads from a decoded JSON object. *)
Record json_object := {
  j_docs : option (list Doc.t);
  j_description : description_field;
  j_response : option str
}.

(** A JSON document that is no object: an array, of which the elements that
    are text are kept ([None] stands for any other element), a text, a
    number, a boolean or [null]. *)
Inductive json_value :=
| JList (items : list (option str))
| JStr (s : str)
| JInt
| JFloat
| JBool
| JNone.

(** [response.json()]: an object, the exception of an undecodable text with
    its message, or a value that is no object. *)
Inductive body :=
| Json (o : json_object)
| NotJson (msg : str)
| JsonValue (v : json_value).

(** ** HTTP *)

Inductive pval := PStr (s : str) | PInt (n : Z).

Record gen_options := {
  temperature : Q;
  top_p : Q;
  num_predict : Z;
  num_ctx : Z
}.

Record post_json := {
  pj_model : str;
  pj_prompt : str;
  pj_stream : bool;
  pj_options : option gen_options;
  pj_keep_alive : option str
}.

Inductive request :=
| GET (url : str) (params : list (str * pval)) (timeout : Z)
| POST (url : str) (json : post_json) (timeout : Z).

(** The exception classes the handlers tell apart. [ConnectTimeout] derives
    from both [ConnectionError] and [Timeout]. *)
Inductive exn_class := ConnectionError | ReadTimeout | ConnectTimeout | OtherException.

Record exn := { exn_is : exn_class; exn_str : str }.

Definition is_Timeout (e : exn) : bool :=
  match exn_is e with ReadTimeout | ConnectTimeout => true | _ => false end.

Definition is_ConnectionError (e : exn) : bool :=
  match exn_is e with ConnectionError | ConnectTimeout => true | _ => false end.

Record response := {
  status_code : Z;
  resp_url : str;
  resp_body : body
}.

Inductive outcome :=
| Responds (r : response)
| Fails (e : exn).

(** The environment of the process: what the network answers to the n-th
    request issued and how long that takes (seconds), the local calendar
    rendering ['%Y-%m-%d %H:%M'] of an instant, and the configuration read
    from the environment variables. *)
Record world := {
  net : nat -> request -> outcome;
  latency : nat -> request -> Q;
  strftime : Q -> str;
  ollama_url : str;
  model : str
}.

(** ** Process state and the monad of effects *)

Record state := {
  last_request_time : option Q;   (* [self.last_request_time] *)
  clock : Q;                      (* what [time.time()] reads *)
  log : list (Q * request)        (* requests issued so far, oldest first *)
}.

Inductive result (A : Type) : Type :=
| Ok (a : A)
| Raise (e : exn).
Arguments Raise {A} e.

Definition M (A : Type) : Type := state -> result A * state.

Definition ret {A} (a : A) : M A := fun s => (Ok a, s).

Definition bind {A B} (c : M A) (k : A -> M B) : M B :=
  fun s =>
    match c s with
    | (Ok a, s') => k a s'
    | (Raise e, s') => (Raise e, s')
    end.

Definition raise {A} (e : exn) : M A := fun s => (Raise e, s).

(** [try: c  except ...: h e] *)
Definition try_except {A} (c : M A) (h : exn -> M A) : M A :=
  fun s =>
    match c s with
    | (Ok a, s') => (Ok a, s')
    | (Raise e, s') => h e s'
    end.

Declare Scope py_scope.
Delimit Scope py_scope with py_scope.
Notation "x <- c ;; k" := (bind c (fun x => k))
  (at level 61, c at next level, right associativity) : py_scope.
Notation "c ;; k" := (bind c (fun _ => k))
  (at level 61, right associativity) : py_scope.
Local Open Scope py_scope.

Definition time_time : M Q := fun s => (Ok (clock s), s).

Definition time_sleep (d : Q) : M unit :=
  fun s => (Ok tt, {| last_request_time := last_request_time s;
                      clock := clock s + d;
                      log := log s |}).

Definition set_last_request_time (t : Q) : M unit :=
  fun s => (Ok tt, {| last_request_time := Some t;
                      clock := clock s;
                      log := log s |}).

Definition get_last_request_time : M (option Q) :=
  fun s => (Ok (last_request_time s), s).

(** The request is logged with the instant at which it is issued; the clock
    then advances by the time the network takes to answer or to fail. *)
Definition sent (w : world) (r : request) (s : state) : state :=
  {| last_request_time := last_request_time s;
     clock := clock s + latency w (List.length (log s)) r;
     log := log s ++ [(clock s, r)] |}.

Definition send (w : world) (r : request) : M response :=
  fun s =>
    match net w (List.length (log s)) r with
    | Responds resp => (Ok resp, sent w r s)
    | Fails e => (Raise e, sent w r s)
    end.

(** [type(v).__name__] *)
Definition type_name (v : json_value) : str :=
  match v with
  | JList _ => py "list"
  | JStr _ => py "str"
  | JInt => py "int"
  | JFloat => py "float"
  | JBool => py "bool"
  | JNone => py "NoneType"
  end.

(** The [AttributeError] of [v.get] on a value that is no object. *)
Definition attribute_error (v : json_value) : exn :=
  {| exn_is := OtherException;
     exn_str := py "'" ++ type_name v ++ py "' object has no attribute 'get'" |}.

(** The [TypeError] of [x in v] on a number, a boolean or [None]. *)
Definition not_iterable (v : json_value) : exn :=
  {| exn_is := OtherException;
     exn_str := py "argument of type '" ++ type_name v ++ py "' is not iterable" |}.

(** The [TypeError] of [re.sub] on a value that is no text. *)
Definition type_error : exn :=
  {| exn_is := OtherException;
     exn_str := py "expected string or bytes-like object" |}.

(** [response.json()] followed by the first [.get] on what it returns, which
    raises [AttributeError] on a value that is no object. *)
Definition response_json (r : response) : M json_object :=
  match resp_body r with
  | Json o => ret o
  | NotJson msg => raise {| exn_is := OtherException; exn_str := msg |}
  | JsonValue v => raise (attribute_error v)
  end.

Fixpoint starts_with (prefix s : str) : bool :=
  match prefix, s with
  | [], _ => true
  | a :: prefix', b :: s' => (a =? b)%N && starts_with prefix' s'
  | _ :: _, [] => false
  end.

(** [needle in hay] for text, as a test. *)
Fixpoint contains (needle hay : str) : bool :=
  starts_with needle hay
  || match hay with
     | [] => false
     | _ :: r => contains needle r
     end.

(** [k in items] for a list: some element is the text [k]. *)
Definition is_element (k : str) (items : list (option str)) : bool :=
  existsb (fun i => match i with Some t => str_eqb t k | None => false end)
          items.

(** [response.json()] followed by ["response" in result] (lines 56-57): the
    key of an object, an element of an array, a part of a text; [in] raises
    [TypeError] on the other values. *)
Definition response_in (r : response) : M bool :=
  match resp_body r with
  | Json o => ret (match j_response o with Some _ => true | None => false end)
  | NotJson msg => raise {| exn_is := OtherException; exn_str := msg |}
  | JsonValue (JList items) => ret (is_element (py "response") items)
  | JsonValue (JStr t) => ret (contains (py "response") t)
  | JsonValue v => raise (not_iterable v)
  end.

(** ** Literals of the source *)

Definition NL : str := [10%N].
Definition QUOTE : str := [34%N].
Definition CROSS : str := [0x274C%N].            (* the cross mark of the error texts *)
Definition OPEN_BOOK : str := [0x1F4D6%N].
Definition BUST : str := [0x1F464%N].
Definition MASKS : str := [0x1F3AD%N].
Definition WRITING_HAND : str := [0x270D%N; 0xFE0F%N].
Definition GLOBE : str := [0x1F30D%N].
Definition CALENDAR : str := [0x1F4C5%N].
Definition MEMO : str := [0x1F4DD%N].
Definition BOOKS_EMOJI : str := [0x1F4DA%N].
Definition BUSTS : str := [0x1F465%N].
Definition BULB : str := [0x1F4A1%N].
Definition TARGET : str := [0x1F3AF%N].

Definition open_library_base : str := py "https://openlibrary.org".
Definition min_request_interval : Q := 1.
Definition OLLAMA_TIMEOUT : Z := 30.
Definition API_TIMEOUT : Z := 10.
Definition DESCRIPTION_TIMEOUT : Z := 6.
Definition ANALYSIS_TIMEOUT : Z := 120.

Definition no_description : str := py "No description available.".
Definition description_not_available : str := py "Description not available.".

(** [s.lower()], on the ASCII letters (and the Kelvin sign, the one other code
    point whose lower case is an ASCII letter); other code points are kept. *)
Definition lower_char (c : char) : char :=
  if ((65 <=? c) && (c <=? 90))%N then (c + 32)%N
  else if (c =? 0x212A)%N then 107%N
  else c.

Definition lower (s : str) : str := map lower_char s.

(** [s.split(' ', 1)[1]], for [s] that contains a space. *)
Fixpoint after_first_space (s : str) : str :=
  match s with
  | [] => []
  | c :: r => if (c =? SP)%N then r else after_first_space r
  end.

Definition has_space (s : str) : bool := existsb (fun c => (c =? SP)%N) s.

(** Lines 84-89. *)
Definition normalize_genre (genre : str) : str :=
  let genre := strip genre in
  if has_space genre then lower (after_first_space genre) else lower genre.

(** The dict [alternative_genres] (lines 151-157), in source order. *)
Definition alternative_genres_table : list (str * str) :=
  [ (py "psychology", py "psychology");
    (py "fantasy", py "fantasy fiction");
    (py "self-help", py "self help");
    (py "science fiction", py "science fiction");
    (py "sci-fi", py "science fiction") ].

Fixpoint lookup (k : str) (d : list (str * str)) : option str :=
  match d with
  | [] => None
  | (k', v) :: r => if str_eqb k k' then Some v else lookup k r
  end.

Definition alternative_genres (genre : str) : option str :=
  lookup genre alternative_genres_table.

(** ** Book records *)

Record book_info := {
  title : str;
  authors : list str;
  first_publish_year : or_marker Z;
  subjects : list str;
  language : list str;
  page_count : or_marker Z;
  key : str;
  cover_id : option Z;
  isbn : list str;
  publisher : list str;
  rating : or_marker Q;
  description : str;
  source_url : str;
  search_api_url : str
}.

Definition set_description (b : book_info) (d : str) : book_info :=
  {| title := title b; authors := authors b;
     first_publish_year := first_publish_year b; subjects := subjects b;
     language := language b; page_count := page_count b; key := key b;
     cover_id := cover_id b; isbn := isbn b; publisher := publisher b;
     rating := rating b; description := d; source_url := source_url b;
     search_api_url := search_api_url b |}.

(** [bool(l)] for a list. *)
Definition truthy_list {A} (l : list A) : bool :=
  match l with [] => false | _ => true end.

(** Truth value of [book.get(k)] for the three fields of the filter. *)
Definition truthy_opt_str (o : option str) : bool :=
  match o with Some (_ :: _) => true | _ => false end.

Definition truthy_opt_list {A} (o : option (list A)) : bool :=
  match o with Some (_ :: _) => true | _ => false end.

Definition truthy_opt_int (o : option Z) : bool :=
  match o with Some n => negb (n =? 0)%Z | None => false end.

(** The condition of lines 114-116 and 167-169. *)
Definition accepted (book : Doc.t) : bool :=
  truthy_opt_str (Doc.title book)
  && truthy_opt_list (Doc.author_name book)
  && truthy_opt_int (Doc.first_publish_year book).

Definition or_unknown {A} (o : option A) (m : str) : or_marker A :=
  match o with Some a => Known a | None => Marker m end.

(** The dict literal of lines 122-137 ([fallback = false]) and of lines
    174-189 ([fallback = true]); the two differ in ["subjects"] only. *)
Definition make_book_info (fallback : bool) (genre url : str) (book : Doc.t)
  : book_info :=
  let book_key := from_option (Doc.key book) [] in
  let book_url :=
    if truthy_str book_key then open_library_base ++ book_key
    else py "Not available" in
  {| title := from_option (Doc.title book) (py "Unknown Title");
     authors := from_option (Doc.author_name book) [py "Unknown Author"];
     first_publish_year := or_unknown (Doc.first_publish_year book) (py "Unknown");
     subjects :=
       if fallback then [genre]
       else if truthy_opt_list (Doc.subject book)
            then from_option (Doc.subject book) [genre] else [genre];
     language := from_option (Doc.language book) [py "English"];
     page_count := or_unknown (Doc.number_of_pages_median book) (py "Unknown");
     key := book_key;
     cover_id := Doc.cover_i book;
     isbn := from_option (Doc.isbn book) [];
     publisher := firstn 3 (from_option (Doc.publisher book) [py "Unknown Publisher"]);
     rating := or_unknown (Doc.ratings_average book) (py "No rating available");
     description := py "Description will be fetched separately";
     source_url := book_url;
     search_api_url := url |}.

(** What [search_books_by_genre] returns: a list of records or a text. *)
Inductive search_result :=
| Books (books : list book_info)
| Message (m : str).

(** ** The methods of [VirtualBookClub] *)

Section VirtualBookClub.

Variable w : world.

(** [bool(self.last_request_time)]: [None] and [0.0] are false. *)
Definition truthy_time (o : option Q) : bool :=
  match o with Some t => negb (Qeq_bool t 0) | None => false end.

(** Lines 33-39. *)
Definition _rate_limit : M unit :=
  last <- get_last_request_time ;;
  (if truthy_time last then
     now <- time_time ;;
     let elapsed := now - from_option last 0 in
     if Qlt_le_dec elapsed min_request_interval
     then time_sleep (min_request_interval - elapsed)
     else ret tt
   else ret tt) ;;
  now <- time_time ;;
  set_last_request_time now.

Definition probe_request : request :=
  POST (ollama_url w)
       {| pj_model := model w; pj_prompt := py "Hello"; pj_stream := false;
          pj_options := None; pj_keep_alive := None |}
       OLLAMA_TIMEOUT.

(** Lines 41-75. The handlers are tried in source order: [ConnectionError]
    before [Timeout]. The [print] calls are left out: standard output is
    taken to accept what is written to it. *)
Definition check_ollama_availability : M (bool * str) :=
  try_except
    (response <- send w probe_request ;;
     if (status_code response =? 200)%Z then
       found <- response_in response ;;
       if found then ret (true, py "Ollama is available and responding")
       else ret (false, py "Ollama responded but format unexpected")
     else
       ret (false, py "Ollama returned status " ++ str_of_Z (status_code response)))
    (fun e =>
       if is_ConnectionError e then
         ret (false, py "Ollama server not running (connection refused)")
       else if is_Timeout e then
         ret (false, py "Ollama server timeout after " ++ str_of_Z OLLAMA_TIMEOUT
                     ++ py " seconds")
       else ret (false, py "Ollama error: " ++ exn_str e)).

Definition description_request (book_key : str) : request :=
  GET (open_library_base ++ book_key ++ py ".json") [] DESCRIPTION_TIMEOUT.

(** What the variable [description] holds: text, or a value that is no
    text, of which [get_book_description] uses the truth value only. *)
Inductive py_value :=
| Text (s : str)
| NotText (truthy : bool).

(** [bool(v)] *)
Definition truthy_value (v : py_value) : bool :=
  match v with
  | Text s => truthy_str s
  | NotText truthy => truthy
  end.

(** Lines 218-222. *)
Definition description_text (f : description_field) : py_value :=
  match f with
  | DescValue value => Text (from_option value [])
  | DescValueOther truthy => NotText truthy
  | DescText s => Text s
  | _ => Text []
  end.

(** Lines 225-228; [re.sub] raises [TypeError] on what is no text. *)
Definition clean (description : py_value) : M str :=
  match description with
  | Text s => ret (truncate500 (sanitize s))
  | NotText _ => raise type_error
  end.

(** Lines 206-235. *)
Definition get_book_description (book_key : str) : M str :=
  try_except
    (if negb (truthy_str book_key) then ret no_description
     else
       response <- send w (description_request book_key) ;;
       if (status_code response =? 200)%Z then
         book_data <- response_json response ;;
         let description := description_text (j_description book_data) in
         if truthy_value description then
           description <- clean description ;;
           ret (if truthy_str description then description else no_description)
         else ret no_description
       else ret description_not_available)
    (fun _ => ret description_not_available).

(** The loops of lines 112-145 and 166-197. *)
Fixpoint collect (fallback : bool) (genre url : str) (limit : Z)
         (docs : list Doc.t) (books : list book_info) : M (list book_info) :=
  match docs with
  | [] => ret books
  | book :: rest =>
      if accepted book then
        let book_info := make_book_info fallback genre url book in
        description <- get_book_description (key book_info) ;;
        let books := books ++ [set_description book_info description] in
        if (limit <=? Z.of_nat (List.length books))%Z then ret books
        else collect fallback genre url limit rest books
      else collect fallback genre url limit rest books
  end.

Definition search_params (subject : str) (limit : Z) : list (str * pval) :=
  [ (py "subject", PStr subject);
    (py "limit", PInt (Z.min (limit * 2) 40));
    (py "has_fulltext", PStr (py "true"));
    (py "language", PStr (py "eng")) ].

Definition search_request (subject : str) (limit : Z) : request :=
  GET (open_library_base ++ py "/search.json") (search_params subject limit)
      API_TIMEOUT.

Definition enter_genre_msg : str := CROSS ++ py " Please enter a valid genre".

Definition timeout_msg : str :=
  CROSS ++ py " Error: Request timed out. Please try again.".

Definition no_books_msg (genre : str) : str :=
  py "No books found for genre '" ++ genre
  ++ py "'. Try: fiction, mystery, romance, biography, history, philosophy, or literature.".

(** Lines 77-204; [genre] is the text given by the caller. *)
Definition search_books_by_genre (genre : str) (limit : Z) : M search_result :=
  if negb (truthy_str genre) || negb (truthy_str (strip genre)) then
    ret (Message enter_genre_msg)
  else
    let genre := normalize_genre genre in
    try_except
      (_rate_limit ;;
       response <- send w (search_request genre limit) ;;
       if negb (status_code response =? 200)%Z then
         ret (Message (CROSS ++ py " Open Library API Error: Status code "
                             ++ str_of_Z (status_code response)))
       else
         data <- response_json response ;;
         books <- collect false genre (resp_url response) limit
                          (from_option (j_docs data) []) [] ;;
         if truthy_list books then ret (Books books)
         else
           books <-
             match alternative_genres genre with
             | Some alternative =>
                 response <- send w (search_request alternative limit) ;;
                 if (status_code response =? 200)%Z then
                   data <- response_json response ;;
                   collect true genre (resp_url response) limit
                           (from_option (j_docs data) []) books
                 else ret books
             | None => ret books
             end ;;
           ret (if truthy_list books then Books books
                else Message (no_books_msg genre)))
      (fun e =>
         if is_Timeout e then ret (Message timeout_msg)
         else
           ret (Message (CROSS ++ py " Error searching books: " ++ exn_str e))).

Definition no_book_msg : str := CROSS ++ py " No book selected for analysis.".

Definition remediation_msg (status : str) : str :=
  CROSS ++ py " Ollama Error: " ++ status ++ NL ++ NL ++ py "To fix:" ++ NL
  ++ py "1. Open new terminal" ++ NL ++ py "2. Run: ollama serve" ++ NL
  ++ py "3. Try again".

Definition empty_response_msg : str :=
  CROSS ++ py " Error: Empty response generated. Please try again.".

Definition index_error : exn :=
  {| exn_is := OtherException; exn_str := py "list index out of range" |}.

(** [book['authors'][0]] *)
Definition first_author (book : book_info) : M str :=
  match authors book with
  | a :: _ => ret a
  | [] => raise index_error
  end.

(** The four templates of lines 309-333. The opening line of the
    ["summary"] entry is written twice in the source; the template is taken
    once, as the other three are written. *)
Definition summary_prompt (t a : str) : str :=
  py "Analyze the book " ++ QUOTE ++ t ++ QUOTE ++ py " by " ++ a
  ++ py ". Give me:" ++ NL
  ++ OPEN_BOOK ++ py " **PLOT**: (2-3 sentences about the main story)" ++ NL
  ++ BUST ++ py " **CHARACTERS**: (main character and their motivation)" ++ NL
  ++ MASKS ++ py " **THEMES**: (key themes explored)" ++ NL
  ++ WRITING_HAND ++ py " **STYLE**: (writing style and significance)".

Definition discussion_prompt (t a : str) : str :=
  py "Create discussion questions for " ++ QUOTE ++ t ++ QUOTE ++ py " by " ++ a
  ++ py ". Give me:" ++ NL
  ++ BUST ++ py " **CHARACTER QUESTION**: (about the main character)" ++ NL
  ++ MASKS ++ py " **THEME QUESTION**: (about the main themes)" ++ NL
  ++ OPEN_BOOK ++ py " **PLOT QUESTION**: (about the central conflict)" ++ NL
  ++ GLOBE ++ py " **MODERN RELEVANCE**: (how it relates to today)".

Definition reading_guide_prompt (t a : str) : str :=
  py "Create a reading guide for " ++ QUOTE ++ t ++ QUOTE ++ py " by " ++ a
  ++ py ". Give me:" ++ NL
  ++ CALENDAR ++ py " **BEFORE READING**: (what to expect)" ++ NL
  ++ OPEN_BOOK ++ py " **WHILE READING**: (what to watch for)" ++ NL
  ++ MEMO ++ py " **AFTER READING**: (key takeaways)" ++ NL
  ++ BOOKS_EMOJI ++ py " **SIMILAR BOOKS**: (recommendations)".

Definition recommendation_prompt (t a : str) : str :=
  py "Write a recommendation for " ++ QUOTE ++ t ++ QUOTE ++ py " by " ++ a
  ++ py ". Give me:" ++ NL
  ++ BUSTS ++ py " **WHO SHOULD READ**: (target audience)" ++ NL
  ++ BULB ++ py " **WHY READ**: (what makes it special)" ++ NL
  ++ TARGET ++ py " **WHAT YOU'LL GAIN**: (benefits of reading)" ++ NL
  ++ BOOKS_EMOJI ++ py " **SIMILAR BOOKS**: (if you like this, try...)".

(** Lines 308-338: the dict literal evaluates [book['title']] and
    [book['authors'][0]] for every entry, then [prompts.get] selects one,
    ["summary"] being the default. *)
Definition build_prompt (book : book_info) (analysis_type : str) : M str :=
  a <- first_author book ;;
  let prompts :=
    [ (py "summary", summary_prompt (title book) a);
      (py "discussion", discussion_prompt (title book) a);
      (py "reading_guide", reading_guide_prompt (title book) a);
      (py "recommendation", recommendation_prompt (title book) a) ] in
  ret (from_option (lookup analysis_type prompts)
                   (summary_prompt (title book) a)).

Definition generation_request (prompt : str) : request :=
  POST (ollama_url w)
       {| pj_model := model w; pj_prompt := prompt; pj_stream := false;
          pj_options := Some {| temperature := 6 # 10; top_p := 9 # 10;
                                num_predict := 400; num_ctx := 2048 |};
          pj_keep_alive := Some (py "10m") |}
       ANALYSIS_TIMEOUT.

(** Line 370. *)
Definition footer (stamp : str) (book : book_info) : str :=
  NL ++ NL ++ py "---" ++ NL ++ py "*Generated by " ++ model w ++ py " on "
  ++ stamp ++ py "*" ++ NL ++ py "*Book source: " ++ source_url book ++ py "*".

Definition datetime_now_strftime : M str :=
  fun s => (Ok (strftime w (clock s)), s).

(** Lines 295-383; [None] is an absent book. The handlers are tried in
    source order: [Timeout] before [ConnectionError]. The [print] calls are
    left out: standard output is taken to accept what is written to it. *)
Definition analyze_book_with_ollama (book : option book_info)
           (analysis_type : str) : M str :=
  match book with
  | None => ret no_book_msg
  | Some book =>
      probe <- check_ollama_availability ;;
      let '(available, status) := probe in
      if negb available then ret (remediation_msg status)
      else
        prompt <- build_prompt book analysis_type ;;
        try_except
          (response <- send w (generation_request prompt) ;;
           if (status_code response =? 200)%Z then
             result <- response_json response ;;
             let analysis :=
               from_option (j_response result) (py "No analysis generated") in
             if truthy_str analysis
                && (10 <? List.length (strip analysis))%nat then
               stamp <- datetime_now_strftime ;;
               ret (analysis ++ footer stamp book)
             else ret empty_response_msg
           else
             ret (CROSS ++ py " Error: Ollama returned status code "
                        ++ str_of_Z (status_code response)))
          (fun e =>
             if is_Timeout e then
               ret (CROSS ++ py " Error: Analysis timed out after "
                          ++ str_of_Z ANALYSIS_TIMEOUT
                          ++ py " seconds. Please try again.")
             else if is_ConnectionError e then
               ret (CROSS ++ py " Error: Cannot connect to Ollama. Please ensure Ollama is running.")
             else ret (CROSS ++ py " Error during analysis: " ++ exn_str e))
  end.

End VirtualBookClub.


(** ** The functions of the interface *)

Definition CHECK_MARK : str := [0x2705%N].
Definition DOT : char := 46%N.
Definition UNDERSCORE : char := 95%N.
Definition MINUS : char := 45%N.
Definition PLUS : char := 43%N.

(** [sep.join(l)] *)
Fixpoint join (sep : str) (l : list str) : str :=
  match l with
  | [] => []
  | a :: r =>
      match r with
      | [] => a
      | _ :: _ => a ++ sep ++ join sep r
      end
  end.

(** [f"{v}"] for a value that is an integer or a marker text. *)
Definition show_int (v : or_marker Z) : str :=
  match v with
  | Known n => str_of_Z n
  | Marker m => m
  end.

(** [v != m] for a value that is a number or a marker text. *)
Definition differs {A} (v : or_marker A) (m : str) : bool :=
  match v with
  | Known _ => true
  | Marker m' => negb (str_eqb m' m)
  end.

(** [s.split('.')[0]] *)
Fixpoint before_dot (s : str) : str :=
  match s with
  | [] => []
  | c :: r => if (c =? DOT)%N then [] else c :: before_dot r
  end.

Definition is_digit (c : char) : bool := ((48 <=? c) && (c <=? 57))%N.

(** The digits of an [int] literal: decimal digits, with single underscores
    between digits. [after_digit] tells that the previous character is a
    digit; [acc] is the value read so far. *)
Fixpoint parse_digits (after_digit : bool) (acc : Z) (s : str) : option Z :=
  match s with
  | [] => if after_digit then Some acc else None
  | c :: r =>
      if is_digit c then parse_digits true (acc * 10 + Z.of_N (c - 48)) r
      else if (c =? UNDERSCORE)%N && after_digit then parse_digits false acc r
      else None
  end.

(** The whitespace that [int] skips around a number: that of [str.strip]
    without the four separators U+001C to U+001F. *)
Definition int_space (c : char) : bool :=
  (is_space c && negb ((28 <=? c) && (c <=? 31)))%N.

Definition int_strip (s : str) : str :=
  rev (drop_while int_space (rev (drop_while int_space s))).

(** Text made of ASCII characters. *)
Definition is_ascii (s : str) : bool := forallb (fun c => (c <? 128)%N) s.

(** The number of characters up to which CPython (from 3.11 on) converts a
    decimal text whatever its content. *)
Definition int_max_str_digits : nat := 4300.

(** [int(s)] for text, [None] standing for [ValueError]: surrounding
    whitespace, one optional sign, digits. This is [int] on ASCII text of
    at most [int_max_str_digits] characters: the decimal digits of other
    scripts, which [int] also reads, and the [ValueError] of CPython for
    longer numbers are not modelled. *)
Definition py_int (s : str) : option Z :=
  match int_strip s with
  | [] => None
  | c :: r =>
      if (c =? MINUS)%N then option_map Z.opp (parse_digits false 0 r)
      else if (c =? PLUS)%N then parse_digits false 0 r
      else parse_digits false 0 (c :: r)
  end.

(** What [search_and_update] returns to the five outputs of the search
    button; of the rebuilt dropdown only the choices are kept. *)
Record interface_update := {
  books_display : str;
  book_selector : list str;
  books_state : list book_info;
  selected_book_state : option book_info;
  status_display : str
}.

Section Interface.

Variable w : world.

(** [s.title()] and the float format [f"{x:.1f}"] belong to the Python
    library; they are parameters of the model. *)
Variable str_title : str -> str.
Variable format_1f : Q -> str.

(** Lines 252-254. *)
Definition authors_line (book : book_info) : str :=
  let line := join (py ", ") (firstn 3 (authors book)) in
  if (3 <? List.length (authors book))%nat then
    line ++ py " and "
         ++ str_of_Z (Z.of_nat (List.length (authors book)) - 3) ++ py " others"
  else line.

(** The body of the loop of lines 248-291: [output] with the block of one
    book appended. [book['publisher'][0]] raises on an empty list. *)
Definition format_book (output : str) (i : Z) (book : book_info) : result str :=
  let output := output ++ py "## " ++ str_of_Z i ++ py ". " ++ title book ++ NL in
  let output := output ++ py "**By:** " ++ authors_line book ++ NL ++ NL in
  let output :=
    output ++ py "**Published:** " ++ show_int (first_publish_year book) ++ NL in
  let output :=
    if differs (page_count book) (py "Unknown")
    then output ++ py "**Pages:** " ++ show_int (page_count book) ++ NL
    else output in
  match publisher book with
  | [] => Raise index_error
  | first_publisher :: _ =>
      let output :=
        if negb (str_eqb first_publisher (py "Unknown Publisher"))
        then output ++ py "**Publisher:** " ++ join (py ", ") (publisher book) ++ NL
        else output in
      let output :=
        match rating book with
        | Known r => output ++ py "**Rating:** " ++ format_1f r ++ py "/5" ++ NL
        | Marker _ => output
        end in
      let output :=
        if truthy_str (source_url book)
           && negb (str_eqb (source_url book) (py "Not available"))
        then output ++ py "**" ++ OPEN_BOOK ++ py " View on Open Library:** ["
                    ++ source_url book ++ py "](" ++ source_url book ++ py ")" ++ NL
        else output in
      let output := output ++ NL in
      let output :=
        if truthy_str (description book)
           && negb (str_eqb (description book) no_description)
        then output ++ py "**Description:** " ++ description book ++ NL ++ NL
        else output in
      let output :=
        if truthy_list (subjects book)
        then output ++ py "**Subjects:** " ++ join (py ", ") (subjects book)
                    ++ NL ++ NL
        else output in
      let output :=
        match cover_id book with
        | Some c =>
            if negb (c =? 0)%Z
            then output ++ py "![Book Cover](https://covers.openlibrary.org/b/id/"
                        ++ str_of_Z c ++ py "-M.jpg)" ++ NL ++ NL
            else output
        | None => output
        end in
      Ok (output ++ py "---" ++ NL ++ NL)
  end.

(** [for i, book in enumerate(books, i): ...] *)
Fixpoint format_books (output : str) (i : Z) (books : list book_info)
  : result str :=
  match books with
  | [] => Ok output
  | book :: rest =>
      match format_book output i book with
      | Ok output => format_books output (i + 1) rest
      | Raise e => Raise e
      end
  end.

(** Lines 237-293. *)
Definition format_books_display (books : search_result) (genre : str)
  : result str :=
  match books with
  | Message m => Ok m
  | Books books =>
      if negb (truthy_list books) then
        Ok (py "No books found for genre '" ++ genre ++ py "'.")
      else
        let output :=
          py "# " ++ BOOKS_EMOJI ++ py " " ++ str_title genre ++ py " Books ("
             ++ str_of_Z (Z.of_nat (List.length books)) ++ py " found)"
             ++ NL ++ NL in
        let output :=
          output
            ++ py "**Source**: Open Library API - https://openlibrary.org/search.json?subject="
            ++ genre ++ NL ++ NL in
        format_books output 1 books
  end.

(** Lines 469-471: the text of the choice of the book at index [i]. *)
Definition book_choice (i : nat) (book : book_info) : str :=
  let choice :=
    str_of_Z (Z.of_nat i + 1) ++ py ". " ++ title book ++ py " by "
             ++ join (py ", ") (firstn 2 (authors book)) in
  if (2 <? List.length (authors book))%nat then choice ++ py " et al."
  else choice.

(** [for i, book in enumerate(books): book_choices.append(...)] *)
Fixpoint book_choices (i : nat) (books : list book_info) : list str :=
  match books with
  | [] => []
  | book :: rest => book_choice i book :: book_choices (S i) rest
  end.

Definition lift {A} (r : result A) : M A := fun s => (r, s).

(** Lines 456-486. *)
Definition search_and_update (genre : str) : M interface_update :=
  books <- search_books_by_genre w genre 20 ;;
  match books with
  | Message m =>
      ret {| books_display := m; book_selector := []; books_state := [];
             selected_book_state := None;
             status_display := CROSS ++ py " Search failed: " ++ m |}
  | Books bs =>
      books_display_formatted <- lift (format_books_display books genre) ;;
      ret {| books_display := books_display_formatted;
             book_selector := book_choices 0 bs;
             books_state := bs;
             selected_book_state := None;
             status_display :=
               CHECK_MARK ++ py " Found "
                 ++ str_of_Z (Z.of_nat (List.length bs)) ++ py " books in "
                 ++ genre |}
  end.

Definition search_first_msg : str := py "Please search for books first".
Definition invalid_selection_msg : str := CROSS ++ py " Invalid book selection".
Definition selection_error_msg : str :=
  CROSS ++ py " Error selecting book: Please try again".

(** Lines 488-505; [None] is a dropdown without value. The one exception
    that the body can raise on these types is the [ValueError] of [int]. *)
Definition select_book_from_dropdown (book_choice : option str)
           (books : list book_info) : option book_info * str :=
  match book_choice with
  | None => (None, search_first_msg)
  | Some book_choice =>
      if negb (truthy_str book_choice) || negb (truthy_list books) then
        (None, search_first_msg)
      else
        match py_int (before_dot book_choice) with
        | Some n =>
            let book_index := (n - 1)%Z in
            if (0 <=? book_index)%Z
               && (book_index <? Z.of_nat (List.length books))%Z then
              match nth_error books (Z.to_nat book_index) with
              | Some selected_book =>
                  (Some selected_book,
                   OPEN_BOOK ++ py " Selected: " ++ title selected_book
                     ++ py " by "
                     ++ join (py ", ") (firstn 2 (authors selected_book)))
              | None => (None, selection_error_msg)
              end
            else (None, invalid_selection_msg)
        | None => (None, selection_error_msg)
        end
  end.

Definition select_first_msg : str := CROSS ++ py " Please select a book first".

(** Lines 507-513. *)
Definition perform_analysis (selected_book : option book_info)
           (analysis_type : str) : M str :=
  match selected_book with
  | None => ret select_first_msg
  | Some book => analyze_book_with_ollama w (Some book) analysis_type
  end.

End Interface.

(** ** Sample environments *)

Definition json_of (ds : option (list Doc.t)) (d : description_field)
           (r : option str) : body :=
  Json {| j_docs := ds; j_description := d; j_response := r |}.

Definition sample_doc (t : string) (a : list str) (y : Z) (k : string) : Doc.t :=
  Doc.mk (Some (py t)) (Some a) (Some y) (Some (py k))
         None None None None None None None.

(** Three valid records, one of them without key, and a record without
    title. *)
Definition sample_docs : list Doc.t :=
  [ sample_doc "Dune" [py "Frank Herbert"] 1965 "/works/OL1W";
    Doc.mk None (Some [py "Nobody"]) (Some 1900%Z) (Some (py "/works/OL9W"))
           None None None None None None None;
    sample_doc "Foundation" [py "Isaac Asimov"] 1951 "";
    sample_doc "Neuromancer" [py "William Gibson"] 1984 "/works/OL3W" ].

Definition reply (u : str) (b : body) : outcome :=
  Responds {| status_code := 200; resp_url := u; resp_body := b |}.

Definition refused : exn :=
  {| exn_is := ConnectionError; exn_str := py "connection refused" |}.

(** A metadata service that knows nothing under the subject ["sci-fi"] and
    the records [docs] under ["science fiction"]; every work has the
    description [d]; the model server answers every POST with [gen]. *)
Definition library (docs : list Doc.t) (d : description_field) (gen : outcome)
  : world :=
  {| net := fun _ r =>
       match r with
       | GET u ((_, PStr subject) :: _) _ =>
           if str_eqb subject (py "science fiction")
           then reply u (json_of (Some docs) DescAbsent None)
           else reply u (json_of (Some []) DescAbsent None)
       | GET u _ _ => reply u (json_of None d None)
       | POST _ _ _ => gen
       end;
     latency := fun _ _ => 1 # 100;
     strftime := fun _ => py "2024-05-01 10:30";
     ollama_url := py "http://localhost:11434/api/generate";
     model := py "phi3:mini" |}.

Definition generated (text : string) : outcome :=
  reply (py "http://localhost:11434/api/generate")
        (json_of None DescAbsent (Some (py text))).

Definition sample_world : world :=
  library sample_docs (DescText (py " A <b>classic</b>  novel. ")) (generated "Test successful!").

(** A metadata service and a model server that refuse every connection. *)
Definition offline : world :=
  {| net := fun _ _ => Fails refused;
     latency := fun _ _ => 0;
     strftime := fun _ => py "2024-05-01 10:30";
     ollama_url := py "http://localhost:11434/api/generate";
     model := py "phi3:mini" |}.

Definition start : state :=
  {| last_request_time := None; clock := 1714559400; log := [] |}.

Definition dune : book_info :=
  set_description
    (make_book_info false (py "science fiction")
                    (py "https://openlibrary.org/search.json")
                    (sample_doc "Dune" [py "Frank Herbert"] 1965 "/works/OL1W"))
    (py "A classic novel.").

(** A work whose record has no description at all. *)
(** The library serving, for every work, a description object whose
    [value] is a number other than 0. *)
Definition numbered_world : world :=
  library sample_docs (DescValueOther true) (Fails refused).

Definition bare_world : world := library sample_docs DescAbsent (Fails refused).

(** A description of 600 letters inside markup. *)
Definition long_description : str :=
  py " <p>" ++ repeat 120%N 600 ++ py "</p> ".

Definition long_world : world :=
  library sample_docs (DescValue (Some long_description)) (Fails refused).

(** A model server whose answer is two letters nine spaces apart. *)
Definition spaced_world : world :=
  library sample_docs DescAbsent (generated "a         b").

(** The search of the genre ["sci-fi"] in the sample environment. *)
Definition sample_search : result search_result * state :=
  search_books_by_genre sample_world (py "sci-fi") 20 start.

Definition sample_books : list book_info :=
  match fst sample_search with
  | Ok (Books bs) => bs
  | _ => []
  end.

(** The mock of the example: no record for ["sci-fi"], three valid records
    for ["science fiction"]. *)
Definition three_docs : list Doc.t :=
  [ sample_doc "Dune" [py "Frank Herbert"] 1965 "/works/OL1W";
    sample_doc "Foundation" [py "Isaac Asimov"] 1951 "/works/OL2W";
    sample_doc "Neuromancer" [py "William Gibson"] 1984 "/works/OL3W" ].

Definition mock_world : world := library three_docs DescAbsent (Fails refused).

(** The same search with a limit of 0. *)
Definition zero_limit_search : result search_result * state :=
  search_books_by_genre sample_world (py "sci-fi") 0 start.

Definition zero_limit_books : list book_info :=
  match fst zero_limit_search with
  | Ok (Books bs) => bs
  | _ => []
  end.

(** A model server that answers the first request of the process with
    [first] and fails on every later one with [e]. *)
Definition flaky (first : outcome) (e : exn) : world :=
  {| net := fun n _ => match n with O => first | S _ => Fails e end;
     latency := fun _ _ => 1 # 100;
     strftime := fun _ => py "2024-05-01 10:30";
     ollama_url := py "http://localhost:11434/api/generate";
     model := py "phi3:mini" |}.

Definition connect_timeout : exn :=
  {| exn_is := ConnectTimeout; exn_str := py "connect timeout" |}.

(** A model server whose second answer lacks the [response] key. *)
Definition silent_world : world :=
  {| net := fun n _ =>
       match n with
       | O => generated "Hi"
       | S _ => reply (py "http://localhost:11434/api/generate")
                      (json_of None DescAbsent None)
       end;
     latency := fun _ _ => 1 # 100;
     strftime := fun _ => py "2024-05-01 10:30";
     ollama_url := py "http://localhost:11434/api/generate";
     model := py "phi3:mini" |}.

(** A record without authors, as the interface could hand it over. *)
Definition anonymous : book_info :=
  {| title := py "Beowulf"; authors := [];
     first_publish_year := Known 1000%Z; subjects := [py "poetry"];
     language := [py "English"]; page_count := Marker (py "Unknown");
     key := py "/works/OL5W"; cover_id := None; isbn := [];
     publisher := [py "Unknown Publisher"];
     rating := Marker (py "No rating available");
     description := no_description;
     source_url := py "https://openlibrary.org/works/OL5W";
     search_api_url := py "https://openlibrary.org/search.json" |}.

(** Upstream records of which the second has an empty list of
    publishers. *)
Definition unpublished_docs : list Doc.t :=
  [ sample_doc "Dune" [py "Frank Herbert"] 1965 "/works/OL1W";
    Doc.mk (Some (py "Nightfall")) (Some [py "Isaac Asimov"]) (Some 1941%Z)
           (Some (py "/works/OL7W")) None None None None None (Some []) None ].

Definition unpublished_world : world :=
  library unpublished_docs DescAbsent (Fails refused).

(** A state in which a search was made 0.3 s ago. *)
Definition recent : state :=
  {| last_request_time := Some 1714559400;
     clock := 1714559400 + (3 # 10);
     log := [] |}.

(** The book built from the record without publishers. *)
Definition nightfall : book_info :=
  set_description
    (make_book_info true (py "sci-fi") (py "https://openlibrary.org/search.json")
                    (nth 1 unpublished_docs (sample_doc "" [] 0 "")))
    no_description.

(** Stand-ins for [str.title] and for the float format in the examples. *)
Definition sample_title (s : str) : str := s.
Definition sample_1f (q : Q) : str := py "4.0".

(** The two books that the search finds in [unpublished_world]. *)
Definition dune_of_unpublished : book_info :=
  set_description
    (make_book_info true (py "sci-fi")
                    (py "https://openlibrary.org/search.json")
                    (sample_doc "Dune" [py "Frank Herbert"] 1965 "/works/OL1W"))
    no_description.

(** A server that answers every request to it with the JSON array
    [[1, "response"]]. *)
Definition listing_world : world :=
  library sample_docs DescAbsent
          (Responds {| status_code := 200; resp_url := [];
                       resp_body := JsonValue (JList [None; Some (py "response")]) |}).

(** ** Vocabulary of the properties *)

(** What [get_book_description] makes of the answer to its request. *)
Definition description_of (o : outcome) : str :=
  match o with
  | Fails _ => description_not_available
  | Responds r =>
      if (status_code r =? 200)%Z then
        match resp_body r with
        | Json book_data =>
            match description_text (j_description book_data) with
            | Text d =>
                if truthy_str d then
                  if truthy_str (truncate500 (sanitize d))
                  then truncate500 (sanitize d) else no_description
                else no_description
            | NotText truthy =>
                if truthy then description_not_available else no_description
            end
        | NotJson _ | JsonValue _ => description_not_available
        end
      else description_not_available
  end.

(** What [check_ollama_availability] makes of the answer to its request. *)
Definition probe_of (o : outcome) : bool * str :=
  match o with
  | Responds r =>
      if (status_code r =? 200)%Z then
        let found_or_not (found : bool) :=
          if found then (true, py "Ollama is available and responding")
          else (false, py "Ollama responded but format unexpected") in
        match resp_body r with
        | Json result =>
            found_or_not
              (match j_response result with Some _ => true | None => false end)
        | NotJson msg => (false, py "Ollama error: " ++ msg)
        | JsonValue (JList items) =>
            found_or_not (is_element (py "response") items)
        | JsonValue (JStr t) => found_or_not (contains (py "response") t)
        | JsonValue v => (false, py "Ollama error: " ++ exn_str (not_iterable v))
        end
      else (false, py "Ollama returned status " ++ str_of_Z (status_code r))
  | Fails e =>
      if is_ConnectionError e then
        (false, py "Ollama server not running (connection refused)")
      else if is_Timeout e then
        (false, py "Ollama server timeout after " ++ str_of_Z OLLAMA_TIMEOUT
                   ++ py " seconds")
      else (false, py "Ollama error: " ++ exn_str e)
  end.

(** Every whitespace character of [s] is a space that stands alone;
    [after_space] tells that a whitespace character comes just before [s]. *)
Fixpoint single_spaced (after_space : bool) (s : str) : bool :=
  match s with
  | [] => true
  | c :: r =>
      if is_space c
      then (c =? SP)%N && negb after_space && single_spaced true r
      else single_spaced false r
  end.

(** The number of characters of [s] that are not whitespace. *)
Definition non_space_count (s : str) : nat :=
  List.length (filter (fun c => negb (is_space c)) s).

(** [book_info["key"]] of the record built from [d]. *)
Definition doc_key (d : Doc.t) : str := from_option (Doc.key d) [].

(** [b] is the record built from the upstream record [d], with some
    description. *)
Definition built_from (fallback : bool) (genre url : str)
           (d : Doc.t) (b : book_info) : Prop :=
  exists description,
    b = set_description (make_book_info fallback genre url d) description.

(** The upstream records that one of the two loops turns into books, when
    [n] books are in the list already. *)
Fixpoint taken (limit : Z) (n : nat) (docs : list Doc.t) : list Doc.t :=
  match docs with
  | [] => []
  | d :: rest =>
      if accepted d then
        d :: (if (limit <=? Z.of_nat (S n))%Z then [] else taken limit (S n) rest)
      else taken limit n rest
  end.

(** The description requests that building books from [ds] costs. *)
Definition description_requests (ds : list Doc.t) : list request :=
  map description_request (filter truthy_str (map doc_key ds)).

(** The requests issued between two states. *)
Definition new_requests (s s' : state) : list request :=
  map snd (skipn (List.length (log s)) (log s')).

(** The address and the records of a usable search answer. *)
Definition served (o : outcome) : option (str * list Doc.t) :=
  match o with
  | Responds r =>
      if (status_code r =? 200)%Z then
        match resp_body r with
        | Json data => Some (resp_url r, from_option (j_docs data) [])
        | NotJson _ | JsonValue _ => None
        end
      else None
  | Fails _ => None
  end.

(** States reached from [s] by issuing requests: the log grows at its end. *)
Definition extends (s s' : state) : Prop :=
  exists l, log s' = log s ++ l.

(** The state [_rate_limit] leaves: it sleeps for what is missing to one
    second since the recorded instant, if there is one, and records the
    instant at which it returns. *)
Definition rate_limited (s : state) : state :=
  let wake :=
    if truthy_time (last_request_time s) then
      let elapsed := clock s - from_option (last_request_time s) 0 in
      if Qlt_le_dec elapsed min_request_interval
      then clock s + (min_request_interval - elapsed)
      else clock s
    else clock s in
  {| last_request_time := Some wake; clock := wake; log := log s |}.

(** A run of one of the two loops from an empty list. *)
Definition collected (w : world) (fallback : bool) (genre url : str) (limit : Z)
           (docs : list Doc.t) (s : state) (bs : list book_info) (s' : state)
  : Prop :=
  Forall2 (built_from fallback genre url) (taken limit 0 docs) bs
  /\ extends s s'
  /\ new_requests s s' = description_requests (taken limit 0 docs)
  /\ last_request_time s' = last_request_time s.

(** The three fields of the filter are present in the upstream record. *)
Definition complete (d : Doc.t) : Prop :=
  Doc.title d <> None /\ Doc.author_name d <> None
  /\ Doc.first_publish_year d <> None.

(** No match of [<[^>]+>] starts anywhere in [s]. *)
Fixpoint tag_free (s : str) : bool :=
  match s with
  | [] => true
  | _ :: r =>
      match tag_match s with
      | None => tag_free r
      | Some _ => false
      end
  end.

(** The text of [s] reads the same without its leading and trailing
    whitespace, holds no whitespace but single spaces, and no tag. *)
Definition sanitized (s : str) : Prop :=
  strip s = s /\ single_spaced false s = true /\ tag_free s = true.

(** What holds of every record that the search hands over. *)
Definition well_formed (b : book_info) : Prop :=
  title b <> [] /\ authors b <> []
  /\ (exists year, first_publish_year b = Known year /\ year <> 0%Z)
  /\ subjects b <> []
  /\ (List.length (publisher b) <= 3)%nat
  /\ (1 <= List.length (description b) <= 503)%nat
  /\ source_url b
     = (if truthy_str (key b) then open_library_base ++ key b
        else py "Not available").

(** The prompt for a book whose first author is [a]. *)
Definition prompt_text (book : book_info) (a analysis_type : str) : str :=
  from_option
    (lookup analysis_type
       [ (py "summary", summary_prompt (title book) a);
         (py "discussion", discussion_prompt (title book) a);
         (py "reading_guide", reading_guide_prompt (title book) a);
         (py "recommendation", recommendation_prompt (title book) a) ])
    (summary_prompt (title book) a).

(** What [analyze_book_with_ollama] makes of the answer to its generation
    request, [stamp] being the formatted time of the answer. *)
Definition analysis_of (w : world) (book : book_info) (stamp : str)
           (o : outcome) : str :=
  match o with
  | Responds r =>
      if (status_code r =? 200)%Z then
        match resp_body r with
        | Json result =>
            let analysis :=
              from_option (j_response result) (py "No analysis generated") in
            if truthy_str analysis && (10 <? List.length (strip analysis))%nat
            then analysis ++ footer w stamp book
            else empty_response_msg
        | NotJson msg => CROSS ++ py " Error during analysis: " ++ msg
        | JsonValue v =>
            CROSS ++ py " Error during analysis: " ++ exn_str (attribute_error v)
        end
      else CROSS ++ py " Error: Ollama returned status code "
                 ++ str_of_Z (status_code r)
  | Fails e =>
      if is_Timeout e then
        CROSS ++ py " Error: Analysis timed out after "
              ++ str_of_Z ANALYSIS_TIMEOUT ++ py " seconds. Please try again."
      else if is_ConnectionError e then
        CROSS ++ py " Error: Cannot connect to Ollama. Please ensure Ollama is running."
      else CROSS ++ py " Error during analysis: " ++ exn_str e
  end.

(** Text that a UTF-8 standard output accepts: no surrogate code point. *)
Definition is_surrogate (c : char) : bool :=
  ((0xD800 <=? c) && (c <=? 0xDFFF))%N.

Definition printable (s : str) : bool :=
  forallb (fun c => negb (is_surrogate c)) s.

(** A request of the search: a search query or a description fetch. *)
Definition metadata_request (limit : Z) (r : request) : Prop :=
  (exists subject, r = search_request subject limit)
  \/ (exists k, r = description_request k).

(** ** Properties *)

Lemma str_eqb_eq a b : str_eqb a b = true <-> a = b.
Proof.
  unfold str_eqb. destruct (list_eq_dec N.eq_dec a b); split; congruence.
Qed.

Example sanitize_ex :
  sanitize (py "  <p>A  <b>bold</b>
 tale</p> <> 1 < 2 ") = py "A bold tale <> 1 < 2".
Proof. vm_compute. reflexivity. Qed.

(** *** Sanitising *)

(** After [re.sub(r'\s+', ' ', s)] the only whitespace left is single
    spaces. *)
Lemma sub_spaces_single_spaced s : forall in_run,
  single_spaced in_run (sub_spaces in_run s) = true.
Proof.
  induction s as [| c r IH]; intros in_run; cbn [sub_spaces]; [reflexivity |].
  destruct (is_space c) eqn:Hc.
  - destruct in_run; [apply IH |].
    cbn [single_spaced]. change (is_space SP) with true.
    cbn [negb andb]. rewrite N.eqb_refl. apply IH.
  - cbn [single_spaced]. rewrite Hc. apply IH.
Qed.

Lemma drop_while_head p s c r : drop_while p s = c :: r -> p c = false.
Proof.
  induction s as [| x t IH]; cbn [drop_while]; [discriminate |].
  destruct (p x) eqn:Hx; [exact IH |].
  intros H. injection H as <- _. exact Hx.
Qed.

Lemma drop_while_suffix p s : exists pre, s = pre ++ drop_while p s.
Proof.
  induction s as [| x t [pre IH]]; cbn [drop_while]; [now exists [] |].
  destruct (p x); [| now exists []].
  exists (x :: pre). cbn [app]. now rewrite <- IH.
Qed.

(** [s.strip()] neither starts nor ends with whitespace. *)
Lemma strip_ends s :
  (forall c r, strip s = c :: r -> is_space c = false)
  /\ (forall r c, strip s = r ++ [c] -> is_space c = false).
Proof.
  unfold strip.
  destruct (drop_while_suffix is_space (rev (drop_while is_space s)))
    as [pre Hpre].
  split.
  - intros c r H.
    apply (f_equal (@rev char)) in Hpre.
    rewrite rev_involutive, rev_app_distr, H in Hpre.
    exact (drop_while_head _ _ Hpre).
  - intros r c H.
    apply (f_equal (@rev char)) in H.
    rewrite rev_involutive, rev_app_distr in H. cbn [rev app] in H.
    exact (drop_while_head _ _ H).
Qed.

(** Text without [<] has no tag to strip. *)
Lemma strip_tags_plain s : ~ In LT s -> strip_tags s = s.
Proof.
  unfold strip_tags.
  induction s as [| c r IH]; intros Hno; cbn [sub_tags]; [reflexivity |].
  assert (Hc : (c =? LT)%N = false).
  { apply N.eqb_neq. intros ->. apply Hno. now left. }
  unfold tag_match. rewrite Hc. f_equal. apply IH.
  intros Hin. apply Hno. now right.
Qed.

(** *** The description fetcher *)

Lemma get_book_description_empty w s :
  get_book_description w [] s = (Ok no_description, s).
Proof. reflexivity. Qed.

Lemma get_book_description_run w c k s :
  get_book_description w (c :: k) s =
  (Ok (description_of (net w (List.length (log s)) (description_request (c :: k)))),
   sent w (description_request (c :: k)) s).
Proof.
  unfold get_book_description, try_except, bind, send, description_of; simpl.
  destruct (net w _ _) as [r | e]; [| reflexivity].
  destruct (status_code r =? 200)%Z; [| reflexivity].
  unfold response_json.
  destruct (resp_body r) as [o | msg | v]; [| reflexivity | reflexivity].
  unfold ret; cbv zeta.
  destruct (description_text (j_description o)) as [d | [|]];
    cbn [truthy_value clean]; try reflexivity.
  destruct (truthy_str d); reflexivity.
Qed.

Lemma truncate500_nonempty d : d <> [] -> truthy_str (truncate500 d) = true.
Proof.
  unfold truncate500. intros Hd.
  destruct (500 <? List.length d)%nat.
  - destruct d as [| c d]; [congruence | reflexivity].
  - destruct d; [congruence | reflexivity].
Qed.

Lemma truthy_str_false d : truthy_str d = false <-> d = [].
Proof. destruct d; simpl; split; congruence. Qed.

Lemma get_book_description_result w k s :
  fst (get_book_description w k s) =
  Ok (match k with
      | [] => no_description
      | _ => description_of (net w (List.length (log s)) (description_request k))
      end).
Proof.
  destruct k as [| c k]; [reflexivity |].
  now rewrite get_book_description_run.
Qed.

(** The answer depends on the key and on what the network answers to the
    one request, and on nothing else: not on the clock, the rate-limiter
    timestamp, or the requests made before. *)
Lemma get_book_description_depends_on_answer w w' k s s' :
  net w (List.length (log s)) (description_request k)
  = net w' (List.length (log s')) (description_request k) ->
  fst (get_book_description w k s) = fst (get_book_description w' k s').
Proof.
  intros H. rewrite !get_book_description_result.
  destruct k; [reflexivity | now rewrite H].
Qed.

(** C4, as the code has it. [get_book_description] never raises: for every
    key, environment and state it returns a text. In its failure cases it
    returns one of two fixed texts. ["No description available."] stands for
    an empty key, for a description that is missing, empty, neither text nor
    object, or an object whose [value] is missing, empty or a false value
    that is no text, and for a description that sanitising leaves empty.
    ["Description not available."] stands for a transport failure, a status
    other than 200, a body that is undecodable or no object, and an object
    whose [value] is a true value that is no text (on which [re.sub]
    raises). *)
Theorem get_book_description_never_raises (w : world) (k : str) (s : state) :
  let answer := net w (List.length (log s)) (description_request k) in
  let text := fst (get_book_description w k s) in
  (exists t, text = Ok t)
  /\ (k = [] -> get_book_description w k s = (Ok no_description, s))
  /\ (k <> [] -> forall e, answer = Fails e -> text = Ok description_not_available)
  /\ (k <> [] ->
      forall r, answer = Responds r ->
      (status_code r <> 200%Z -> text = Ok description_not_available)
      /\ (status_code r = 200%Z ->
          (forall msg, resp_body r = NotJson msg ->
             text = Ok description_not_available)
          /\ (forall v, resp_body r = JsonValue v ->
                text = Ok description_not_available)
          /\ (forall data, resp_body r = Json data ->
                (j_description data = DescValueOther true ->
                 text = Ok description_not_available)
                /\ (In (j_description data)
                       [DescAbsent; DescOther; DescValue None;
                        DescValueOther false] ->
                    text = Ok no_description)
                /\ (forall d,
                      j_description data = DescText d
                      \/ j_description data = DescValue (Some d) ->
                      sanitize d = [] ->
                      text = Ok no_description))))
  /\ no_description = py "No description available."
  /\ description_not_available = py "Description not available.".
Proof.
  cbv zeta. rewrite get_book_description_result.
  split; [eexists; reflexivity |].
  split; [intros ->; reflexivity |].
  split; [| split; [| split; reflexivity]].
  - intros Hk e He. destruct k; [congruence |]. now rewrite He.
  - intros Hk r Hr. destruct k; [congruence |]. rewrite Hr.
    unfold description_of. split.
    + intros Hs. apply Z.eqb_neq in Hs. now rewrite Hs.
    + intros Hs. apply Z.eqb_eq in Hs. rewrite Hs.
      split; [intros msg ->; reflexivity |].
      split; [intros v ->; reflexivity |].
      intros data ->. split; [intros ->; reflexivity |]. split.
      * intros [<- | [<- | [<- | [<- | []]]]]; reflexivity.
      * intros d Hd Hsan.
        assert (Ht : description_text (j_description data) = Text d)
          by (destruct Hd as [-> | ->]; reflexivity).
        rewrite Ht. destruct (truthy_str d); [| reflexivity].
        unfold truncate500. rewrite Hsan. reflexivity.
Qed.

Lemma get_book_description_never_raises_witness :
  get_book_description offline [] start = (Ok no_description, start)
  /\ fst (get_book_description offline (py "/works/OL1W") start)
     = Ok description_not_available
  /\ fst (get_book_description bare_world (py "/works/OL1W") start)
     = Ok no_description
  /\ fst (get_book_description numbered_world (py "/works/OL1W") start)
     = Ok description_not_available.
Proof.
  split; [| split; [| split]].
  - apply (proj1 (proj2 (get_book_description_never_raises offline [] start))).
    reflexivity.
  - apply (proj1 (proj2 (proj2
      (get_book_description_never_raises offline (py "/works/OL1W") start)))
      ltac:(discriminate) refused).
    reflexivity.
  - destruct (get_book_description_never_raises bare_world (py "/works/OL1W")
                start) as [_ [_ [_ [H _]]]].
    destruct (H ltac:(discriminate) _ eq_refl) as [_ H'].
    destruct (H' eq_refl) as [_ [_ H'']].
    destruct (H'' _ eq_refl) as [_ [Hnone _]].
    apply Hnone. left. reflexivity.
  - destruct (get_book_description_never_raises numbered_world
                (py "/works/OL1W") start) as [_ [_ [_ [H _]]]].
    destruct (H ltac:(discriminate) _ eq_refl) as [_ H'].
    destruct (H' eq_refl) as [_ [_ H'']].
    destruct (H'' _ eq_refl) as [Hother _].
    apply Hother. reflexivity.
Defined.

(** C4 as stated fails: the failure cases do not share one placeholder. With
    the service refusing connections, the empty key yields
    ["No description available."] and a non-empty key yields
    ["Description not available."]. *)
Lemma one_placeholder_counterexample :
  ~ exists placeholder,
      fst (get_book_description offline [] start) = Ok placeholder
      /\ fst (get_book_description offline (py "/works/OL1W") start)
         = Ok placeholder.
Proof.
  intros [p [H1 H2]]. vm_compute in H1, H2. congruence.
Qed.

(** C9. The text returned depends on the key and on the answer of the
    service to the one request, and on nothing else: two calls with the same
    key, in any two states (whatever the clock, the rate-limiter timestamp
    and the requests issued before) and in any two environments, return the
    same text whenever the service gives both requests the same answer. So
    do, in particular, two calls in a row, the second in the state the first
    leaves. A call leaves the rate-limiter timestamp as it found it. *)
Theorem get_book_description_idempotent
        (w w' : world) (k : str) (s s' : state) :
  net w (List.length (log s)) (description_request k)
  = net w' (List.length (log s')) (description_request k) ->
  (exists text,
     fst (get_book_description w k s) = Ok text
     /\ fst (get_book_description w' k s') = Ok text)
  /\ last_request_time (snd (get_book_description w k s))
     = last_request_time s.
Proof.
  intros H. split.
  - pose proof (get_book_description_result w k s) as Ht.
    eexists. split; [exact Ht |].
    rewrite <- Ht. symmetry.
    now apply get_book_description_depends_on_answer.
  - destruct k as [| c k].
    + now rewrite get_book_description_empty.
    + now rewrite get_book_description_run.
Qed.

Lemma get_book_description_idempotent_witness :
  (exists text,
     fst (get_book_description sample_world (py "/works/OL1W") start) = Ok text
     /\ fst (get_book_description sample_world (py "/works/OL1W")
               (snd (get_book_description sample_world (py "/works/OL1W")
                                          start)))
        = Ok text)
  /\ (exists text,
        fst (get_book_description sample_world (py "/works/OL1W") start)
        = Ok text
        /\ fst (get_book_description sample_world (py "/works/OL1W") recent)
           = Ok text).
Proof.
  split.
  - exact (proj1 (@get_book_description_idempotent
                    sample_world sample_world (py "/works/OL1W") start
                    (snd (get_book_description sample_world (py "/works/OL1W")
                                               start))
                    eq_refl)).
  - exact (proj1 (@get_book_description_idempotent
                    sample_world sample_world (py "/works/OL1W") start recent
                    eq_refl)).
Defined.

(** *** Sanitising and truncating *)

(** C5, as the code has it. For a description served with status 200, as
    plain text or as the [value] of an object: when its sanitised form is
    longer than 500 characters the result is the first 500 characters of the
    sanitised form followed by ["..."] (503 characters); when the sanitised
    form has between 1 and 500 characters the result is the sanitised form
    itself; when the sanitised form is empty the result is
    ["No description available."]. *)
Theorem get_book_description_truncates
        (w : world) (k : str) (s : state) (r : response) (data : json_object)
        (d : str) :
  k <> [] ->
  net w (List.length (log s)) (description_request k) = Responds r ->
  status_code r = 200%Z ->
  resp_body r = Json data ->
  j_description data = DescText d \/ j_description data = DescValue (Some d) ->
  d <> [] ->
  (500 < List.length (sanitize d) ->
   fst (get_book_description w k s) = Ok (firstn 500 (sanitize d) ++ py "...")
   /\ List.length (firstn 500 (sanitize d) ++ py "...") = 503)%nat
  /\ (0 < List.length (sanitize d) <= 500 ->
      fst (get_book_description w k s) = Ok (sanitize d))%nat
  /\ (sanitize d = [] ->
      fst (get_book_description w k s) = Ok no_description).
Proof.
  intros Hk Hnet Hst Hb Hd Hne.
  rewrite get_book_description_result.
  destruct k; [congruence |]. rewrite Hnet. unfold description_of.
  apply Z.eqb_eq in Hst. rewrite Hst, Hb. cbv zeta.
  assert (Ht : description_text (j_description data) = Text d)
    by (destruct Hd as [-> | ->]; reflexivity).
  rewrite Ht.
  assert (Hty : truthy_str d = true) by (destruct d; [congruence | reflexivity]).
  rewrite Hty. unfold truncate500.
  split; [| split].
  - intros Hlen. pose proof Hlen as Hlt. apply Nat.ltb_lt in Hlt. rewrite Hlt.
    split.
    + destruct (sanitize d) as [| x t]; [simpl in Hlen; lia | reflexivity].
    + rewrite length_app, length_firstn. change (List.length (py "...")) with 3%nat. lia.
  - intros [Hpos Hle]. apply Nat.ltb_ge in Hle. rewrite Hle.
    destruct (sanitize d); [simpl in Hpos; lia | reflexivity].
  - intros ->. reflexivity.
Qed.

Lemma get_book_description_truncates_witness :
  fst (get_book_description long_world (py "/works/OL1W") start)
  = Ok (repeat 120%N 500 ++ py "...")
  /\ fst (get_book_description sample_world (py "/works/OL1W") start)
     = Ok (py "A classic novel.").
Proof.
  split.
  - refine (proj1 (proj1 (get_book_description_truncates
      long_world (k := py "/works/OL1W") start (d := long_description)
      _ eq_refl eq_refl eq_refl (or_intror eq_refl) _) _)).
    + discriminate.
    + discriminate.
    + vm_compute. repeat constructor.
  - refine (proj1 (proj2 (get_book_description_truncates
      sample_world (k := py "/works/OL1W") start
      (d := py " A <b>classic</b>  novel. ")
      _ eq_refl eq_refl eq_refl (or_introl eq_refl) _)) _).
    + discriminate.
    + discriminate.
    + vm_compute. split; repeat constructor.
Defined.

(** C5 as stated fails for a description that is markup only: its sanitised
    form is empty, so not longer than 500 characters, and the result is not
    that sanitised form but ["No description available."]. *)
Lemma short_description_counterexample :
  let w := library sample_docs (DescText (py "<br>")) (Fails refused) in
  (List.length (sanitize (py "<br>")) <= 500)%nat
  /\ fst (get_book_description w (py "/works/OL1W") start)
     <> Ok (sanitize (py "<br>")).
Proof.
  split; [vm_compute; repeat constructor | vm_compute; discriminate].
Qed.

(** *** The liveness probe and the analysis requester *)

(** The probe never raises and issues exactly one request. *)
Lemma check_ollama_availability_run w s :
  check_ollama_availability w s =
  (Ok (probe_of (net w (List.length (log s)) (probe_request w))),
   sent w (probe_request w) s).
Proof.
  unfold check_ollama_availability, try_except, bind, send, probe_of.
  destruct (net w _ _) as [r | e].
  - destruct (status_code r =? 200)%Z; [| reflexivity].
    unfold response_in. cbv zeta.
    destruct (resp_body r) as [o | msg | [items | t | | | |]];
      unfold ret, raise; try reflexivity.
    + destruct (j_response o); reflexivity.
    + destruct (is_element _ items); reflexivity.
    + destruct (contains _ t); reflexivity.
  - destruct (is_ConnectionError e); [reflexivity |].
    destruct (is_Timeout e); reflexivity.
Qed.

Lemma probe_is_not_generation w prompt :
  probe_request w <> generation_request w prompt.
Proof. unfold probe_request, generation_request. intros H. inversion H. Qed.

Lemma substr_intro pre needle post : substr needle (pre ++ needle ++ post).
Proof. exists pre, post. reflexivity. Qed.

(** C6. Without a book, [analyze_book_with_ollama] returns the text
    ["No book selected for analysis."] (after the cross mark) and leaves the
    state as it found it: the log of requests is unchanged, so neither the
    probe nor the generation request is issued. *)
Theorem analyze_without_book (w : world) (analysis_type : str) (s : state) :
  analyze_book_with_ollama w None analysis_type s = (Ok no_book_msg, s)
  /\ log (snd (analyze_book_with_ollama w None analysis_type s)) = log s
  /\ substr (py "No book selected") no_book_msg.
Proof.
  repeat split.
  exists (CROSS ++ py " "), (py " for analysis."). reflexivity.
Qed.

(** C7. When the probe reports the model server unavailable, the analysis
    returns the text that tells to run [ollama serve], and the only request
    it has issued is the probe: no generation request is added to the log. *)
Theorem analyze_probe_unavailable
        (w : world) (book : book_info) (analysis_type status : str)
        (s s1 : state) :
  check_ollama_availability w s = (Ok (false, status), s1) ->
  analyze_book_with_ollama w (Some book) analysis_type s
  = (Ok (remediation_msg status), s1)
  /\ log s1 = log s ++ [(clock s, probe_request w)]
  /\ (forall t prompt,
        In (t, generation_request w prompt) (log s1) ->
        In (t, generation_request w prompt) (log s))
  /\ substr (py "Run: ollama serve") (remediation_msg status).
Proof.
  intros H.
  assert (Hlog : log s1 = log s ++ [(clock s, probe_request w)]).
  { rewrite check_ollama_availability_run in H. inversion H. reflexivity. }
  split; [| split; [exact Hlog | split]].
  - unfold analyze_book_with_ollama, bind. rewrite H. reflexivity.
  - intros t prompt Hin. rewrite Hlog in Hin.
    apply in_app_or in Hin. destruct Hin as [Hin | [Heq | []]]; [exact Hin |].
    exfalso. apply (probe_is_not_generation (w := w) (prompt := prompt)).
    congruence.
  - unfold remediation_msg.
    exists (CROSS ++ py " Ollama Error: " ++ status ++ NL ++ NL ++ py "To fix:"
            ++ NL ++ py "1. Open new terminal" ++ NL ++ py "2. "),
           (NL ++ py "3. Try again").
    repeat rewrite <- app_assoc. reflexivity.
Qed.

Lemma analyze_probe_unavailable_witness :
  analyze_book_with_ollama offline (Some dune) (py "summary") start
  = (Ok (remediation_msg (py "Ollama server not running (connection refused)")),
     sent offline (probe_request offline) start).
Proof.
  refine (proj1 (@analyze_probe_unavailable offline dune (py "summary") _
                                            start _ _)).
  reflexivity.
Defined.

(** The prompt is built without an exception as soon as there is a first
    author. *)
Lemma build_prompt_ok book analysis_type a rest s :
  authors book = a :: rest ->
  exists prompt, build_prompt book analysis_type s = (Ok prompt, s).
Proof.
  intros Ha. unfold build_prompt, bind, first_author. rewrite Ha.
  eexists. reflexivity.
Qed.

(** C3, as the code has it. After a successful probe, for a generation reply
    with status 200 whose body carries the response text [text]: when [text]
    with its leading and trailing whitespace removed is longer than 10
    characters (inner whitespace counts), the result is [text] followed by
    the footer, which contains the model name, the timestamp and the source
    URL of the book; otherwise the result is the empty-response error text. *)
Theorem analyze_appends_footer
        (w : world) (book : book_info) (analysis_type status prompt text : str)
        (s s1 : state) (r : response) (result : json_object) :
  check_ollama_availability w s = (Ok (true, status), s1) ->
  build_prompt book analysis_type s1 = (Ok prompt, s1) ->
  net w (List.length (log s1)) (generation_request w prompt) = Responds r ->
  status_code r = 200%Z ->
  resp_body r = Json result ->
  j_response result = Some text ->
  let s2 := sent w (generation_request w prompt) s1 in
  let stamp := strftime w (clock s2) in
  (10 < List.length (strip text) ->
   analyze_book_with_ollama w (Some book) analysis_type s
   = (Ok (text ++ footer w stamp book), s2))%nat
  /\ (List.length (strip text) <= 10 ->
      analyze_book_with_ollama w (Some book) analysis_type s
      = (Ok empty_response_msg, s2))%nat
  /\ substr (model w) (footer w stamp book)
  /\ substr stamp (footer w stamp book)
  /\ substr (source_url book) (footer w stamp book).
Proof.
  intros Hprobe Hprompt Hnet Hst Hbody Hresp s2 stamp.
  assert (Hrun : analyze_book_with_ollama w (Some book) analysis_type s =
                 (if truthy_str text && (10 <? List.length (strip text))%nat
                  then Ok (text ++ footer w stamp book)
                  else Ok empty_response_msg, s2)).
  { unfold analyze_book_with_ollama, bind. rewrite Hprobe. cbn [negb].
    rewrite Hprompt. unfold try_except, bind, send. rewrite Hnet.
    apply Z.eqb_eq in Hst. rewrite Hst.
    unfold response_json. rewrite Hbody. unfold ret. rewrite Hresp.
    cbn [from_option].
    destruct (truthy_str text && (10 <? List.length (strip text))%nat);
      reflexivity. }
  split; [| split; [| split; [| split]]].
  - intros Hlen. rewrite Hrun.
    assert (Ht : truthy_str text = true).
    { destruct text; [simpl in Hlen; lia | reflexivity]. }
    apply Nat.ltb_lt in Hlen. now rewrite Ht, Hlen.
  - intros Hlen. rewrite Hrun.
    apply Nat.ltb_ge in Hlen. rewrite Hlen, andb_false_r. reflexivity.
  - unfold footer.
    exists (NL ++ NL ++ py "---" ++ NL ++ py "*Generated by "),
           (py " on " ++ stamp ++ py "*" ++ NL ++ py "*Book source: "
               ++ source_url book ++ py "*").
    repeat rewrite <- app_assoc. reflexivity.
  - unfold footer.
    exists (NL ++ NL ++ py "---" ++ NL ++ py "*Generated by " ++ model w
               ++ py " on "),
           (py "*" ++ NL ++ py "*Book source: " ++ source_url book ++ py "*").
    repeat rewrite <- app_assoc. reflexivity.
  - unfold footer.
    exists (NL ++ NL ++ py "---" ++ NL ++ py "*Generated by " ++ model w
               ++ py " on " ++ stamp ++ py "*" ++ NL ++ py "*Book source: "),
           (py "*").
    repeat rewrite <- app_assoc. reflexivity.
Qed.

Lemma analyze_appends_footer_witness :
  let stamp := py "2024-05-01 10:30" in
  fst (analyze_book_with_ollama sample_world (Some dune) (py "summary") start)
  = Ok (py "Test successful!" ++ footer sample_world stamp dune)
  /\ substr (py "phi3:mini") (footer sample_world stamp dune).
Proof.
  pose proof (@analyze_appends_footer sample_world dune (py "summary")
                (py "Ollama is available and responding")
                (summary_prompt (py "Dune") (py "Frank Herbert"))
                (py "Test successful!") start
                (sent sample_world (probe_request sample_world) start)
                _ _ eq_refl eq_refl eq_refl eq_refl eq_refl eq_refl) as H.
  cbv zeta in H. destruct H as [Hlong [_ [Hmodel _]]].
  split.
  - rewrite Hlong; [reflexivity | vm_compute; repeat constructor].
  - exact Hmodel.
Defined.

(** C3 as stated fails: the test is on the length of the trimmed text, not on
    the number of characters that are not whitespace. The answer
    ["a         b"] has 2 such characters, and the footer is appended to it
    all the same. *)
Lemma non_space_count_counterexample :
  let text := py "a         b" in
  (non_space_count text <= 10)%nat
  /\ fst (analyze_book_with_ollama spaced_world (Some dune) (py "summary") start)
     = Ok (text ++ footer spaced_world (py "2024-05-01 10:30") dune)
  /\ fst (analyze_book_with_ollama spaced_world (Some dune) (py "summary") start)
     <> Ok empty_response_msg.
Proof.
  split; [vm_compute; repeat constructor |].
  split; [vm_compute; reflexivity | vm_compute; discriminate].
Qed.

(** *** The search aggregator *)

Lemma taken_firstn limit docs : forall n,
  taken limit n docs
  = firstn (Z.to_nat (Z.max 1 (limit - Z.of_nat n))) (filter accepted docs).
Proof.
  induction docs as [| d rest IH]; intros n; cbn [taken filter].
  - now rewrite firstn_nil.
  - destruct (accepted d); [| apply IH].
    destruct (Z.leb_spec limit (Z.of_nat (S n))) as [Hle | Hgt].
    + replace (Z.to_nat (Z.max 1 (limit - Z.of_nat n))) with 1%nat by lia.
      reflexivity.
    + rewrite IH.
      replace (Z.to_nat (Z.max 1 (limit - Z.of_nat n)))
        with (S (Z.to_nat (Z.max 1 (limit - Z.of_nat (S n))))) by lia.
      reflexivity.
Qed.

Lemma taken_accepted limit docs : forall n d,
  In d (taken limit n docs) -> In d docs /\ accepted d = true.
Proof.
  induction docs as [| x rest IH]; intros n d; cbn [taken]; [intros [] |].
  destruct (accepted x) eqn:Hx.
  - intros [-> | H]; [split; [now left | exact Hx] |].
    destruct (limit <=? Z.of_nat (S n))%Z; [destruct H |].
    destruct (IH _ _ H) as [Hin Hacc]. split; [now right | exact Hacc].
  - intros H. destruct (IH _ _ H) as [Hin Hacc]. split; [now right | exact Hacc].
Qed.

(** One description fetch: it returns a text, issues its request when the key
    is not empty, and leaves the rate-limiter timestamp alone. *)
Lemma get_book_description_effect w k s :
  exists text,
    get_book_description w k s
    = (Ok text, if truthy_str k then sent w (description_request k) s else s).
Proof.
  destruct k as [| c k].
  - eexists. apply get_book_description_empty.
  - eexists. apply get_book_description_run.
Qed.

Lemma new_requests_refl s : new_requests s s = [].
Proof. unfold new_requests. now rewrite skipn_all. Qed.

Lemma new_requests_sent w r s : new_requests s (sent w r s) = [r].
Proof.
  unfold new_requests, sent; simpl.
  rewrite skipn_app, skipn_all, Nat.sub_diag. reflexivity.
Qed.

Lemma extends_refl s : extends s s.
Proof. exists []. now rewrite app_nil_r. Qed.

Lemma extends_sent w r s : extends s (sent w r s).
Proof. eexists. reflexivity. Qed.

Lemma extends_trans s1 s2 s3 : extends s1 s2 -> extends s2 s3 -> extends s1 s3.
Proof.
  intros [l1 H1] [l2 H2]. exists (l1 ++ l2). now rewrite H2, H1, app_assoc.
Qed.

Lemma new_requests_app s s' l :
  log s' = log s ++ l -> new_requests s s' = map snd l.
Proof.
  intros H. unfold new_requests. rewrite H.
  rewrite skipn_app, skipn_all, Nat.sub_diag. reflexivity.
Qed.

Lemma new_requests_trans s1 s2 s3 :
  extends s1 s2 -> extends s2 s3 ->
  new_requests s1 s3 = new_requests s1 s2 ++ new_requests s2 s3.
Proof.
  intros [l1 H1] [l2 H2].
  rewrite (@new_requests_app _ _ _ H1), (@new_requests_app _ _ _ H2).
  rewrite <- map_app. apply new_requests_app.
  now rewrite H2, H1, app_assoc.
Qed.

Lemma description_requests_cons d ds :
  description_requests (d :: ds)
  = (if truthy_str (doc_key d) then [description_request (doc_key d)] else [])
      ++ description_requests ds.
Proof.
  unfold description_requests. cbn [map filter].
  destruct (truthy_str (doc_key d)); reflexivity.
Qed.

Lemma fetch_step w k s :
  let s1 := if truthy_str k then sent w (description_request k) s else s in
  extends s s1
  /\ new_requests s s1 = (if truthy_str k then [description_request k] else [])
  /\ last_request_time s1 = last_request_time s.
Proof.
  destruct (truthy_str k); cbv zeta.
  - split; [apply extends_sent | split; [apply new_requests_sent | reflexivity]].
  - split; [apply extends_refl | split; [apply new_requests_refl | reflexivity]].
Qed.

(** The loop, whatever the network does: it ends without an exception, the
    books it appends are built, in order, from the records [taken] says, the
    requests it issues are the description requests for those records and no
    other, and the rate-limiter timestamp is not touched. *)
Lemma collect_spec w fallback genre url limit :
  forall docs books s,
  exists new s',
    collect w fallback genre url limit docs books s = (Ok (books ++ new), s')
    /\ Forall2 (built_from fallback genre url)
               (taken limit (List.length books) docs) new
    /\ extends s s'
    /\ new_requests s s'
       = description_requests (taken limit (List.length books) docs)
    /\ last_request_time s' = last_request_time s.
Proof.
  induction docs as [| d rest IH]; intros books s; cbn [collect taken].
  - exists [], s. rewrite app_nil_r.
    repeat split; [constructor | apply extends_refl | apply new_requests_refl].
  - destruct (accepted d); [| apply IH].
    unfold bind.
    change (key (make_book_info fallback genre url d)) with (doc_key d).
    destruct (get_book_description_effect w (doc_key d) s) as [text Ht].
    rewrite Ht.
    destruct (fetch_step w (doc_key d) s) as [Hext [Hreq Hlast]].
    cbv zeta in Hext, Hreq, Hlast.
    set (s1 := if truthy_str (doc_key d)
               then sent w (description_request (doc_key d)) s else s) in *.
    set (b := set_description (make_book_info fallback genre url d) text).
    assert (Hb : built_from fallback genre url d b) by (exists text; reflexivity).
    assert (Hlen : List.length (books ++ [b]) = S (List.length books))
      by (rewrite length_app; simpl; lia).
    rewrite Hlen, description_requests_cons.
    destruct (limit <=? Z.of_nat (S (List.length books)))%Z.
    + exists [b], s1.
      repeat split; [repeat constructor; exact Hb | exact Hext | | exact Hlast].
      rewrite Hreq. unfold description_requests; simpl. now rewrite app_nil_r.
    + destruct (IH (books ++ [b]) s1) as [new [s' [Hrun [Hall [Hext' [Hreq' Hlast']]]]]].
      rewrite Hlen in Hall, Hreq'.
      exists (b :: new), s'.
      split; [rewrite Hrun, <- app_assoc; reflexivity |].
      split; [constructor; assumption |].
      split; [eapply extends_trans; eassumption |].
      split; [| congruence].
      rewrite (new_requests_trans Hext Hext'), Hreq, Hreq'. reflexivity.
Qed.

Lemma _rate_limit_run s : _rate_limit s = (Ok tt, rate_limited s).
Proof.
  unfold _rate_limit, rate_limited, bind, get_last_request_time, time_time,
    time_sleep, set_last_request_time, ret.
  destruct (truthy_time (last_request_time s)); [| reflexivity].
  cbv zeta.
  destruct (Qlt_le_dec (clock s - from_option (last_request_time s) 0)
                       min_request_interval); reflexivity.
Qed.

(** What the limiter does enforce: when it returns, at least one second has
    passed since the instant it recorded the time before. *)
Lemma _rate_limit_gap s t :
  last_request_time s = Some t -> ~ t == 0 ->
  t + min_request_interval <= clock (rate_limited s).
Proof.
  intros Hl Ht. unfold rate_limited. rewrite Hl. cbn [truthy_time from_option].
  assert (Hb : Qeq_bool t 0 = false).
  { destruct (Qeq_bool t 0) eqn:E; [| reflexivity].
    apply Qeq_bool_iff in E. contradiction. }
  rewrite Hb. cbn [negb clock].
  destruct (Qlt_le_dec (clock s - t) min_request_interval) as [Hlt | Hge].
  - unfold min_request_interval in *. lra.
  - unfold min_request_interval in *. lra.
Qed.

Lemma strip_truthy genre :
  truthy_str (strip genre) = true -> truthy_str genre = true.
Proof. destruct genre; [discriminate | reflexivity]. Qed.

Lemma collect_from_empty w fallback genre url limit docs s :
  exists bs s',
    collect w fallback genre url limit docs [] s = (Ok bs, s')
    /\ collected w fallback genre url limit docs s bs s'.
Proof.
  destruct (collect_spec w fallback genre url limit docs [] s)
    as [new [s' [Hrun H]]].
  exists new, s'. split; [exact Hrun | exact H].
Qed.

(** When no record is accepted the loop changes nothing. *)
Lemma collect_none w fallback genre url limit docs books s :
  taken limit (List.length books) docs = [] ->
  collect w fallback genre url limit docs books s = (Ok books, s).
Proof.
  induction docs as [| d rest IH]; cbn [collect taken]; [reflexivity |].
  destruct (accepted d); [discriminate | exact IH].
Qed.

(** A symbolic run of [search_books_by_genre] on a genre that is not blank:
    one case per path of lines 91-204. *)
Lemma search_run w genre limit s :
  truthy_str (strip genre) = true ->
  let g := normalize_genre genre in
  let q := search_request g limit in
  let s1 := sent w q (rate_limited s) in
  let run := search_books_by_genre w genre limit s in
  match served (net w (List.length (log s)) q) with
  | None => exists m, run = (Ok (Message m), s1)
  | Some (url, docs) =>
      match taken limit 0 docs with
      | _ :: _ =>
          exists bs s',
            run = (Ok (Books bs), s')
            /\ collected w false g url limit docs s1 bs s'
      | [] =>
          match alternative_genres g with
          | None => run = (Ok (Message (no_books_msg g)), s1)
          | Some alternative =>
              let q' := search_request alternative limit in
              let s2 := sent w q' s1 in
              match net w (S (List.length (log s))) q' with
              | Fails e => exists m, run = (Ok (Message m), s2)
              | Responds r =>
                  if (status_code r =? 200)%Z then
                    match resp_body r with
                    | NotJson _ | JsonValue _ =>
                        exists m, run = (Ok (Message m), s2)
                    | Json data =>
                        let docs' := from_option (j_docs data) [] in
                        match taken limit 0 docs' with
                        | [] => run = (Ok (Message (no_books_msg g)), s2)
                        | _ :: _ =>
                            exists bs s',
                              run = (Ok (Books bs), s')
                              /\ collected w true g (resp_url r) limit docs'
                                           s2 bs s'
                        end
                    end
                  else run = (Ok (Message (no_books_msg g)), s2)
              end
          end
      end
  end.
Proof.
  intros Hvalid g q s1 run.
  assert (Hrun : run =
    try_except
      (_rate_limit ;;
       response <- send w q ;;
       if negb (status_code response =? 200)%Z then
         ret (Message (CROSS ++ py " Open Library API Error: Status code "
                             ++ str_of_Z (status_code response)))
       else
         data <- response_json response ;;
         books <- collect w false g (resp_url response) limit
                          (from_option (j_docs data) []) [] ;;
         if truthy_list books then ret (Books books)
         else
           books <-
             match alternative_genres g with
             | Some alternative =>
                 response <- send w (search_request alternative limit) ;;
                 if (status_code response =? 200)%Z then
                   data <- response_json response ;;
                   collect w true g (resp_url response) limit
                           (from_option (j_docs data) []) books
                 else ret books
             | None => ret books
             end ;;
           ret (if truthy_list books then Books books
                else Message (no_books_msg g)))
      (fun e =>
         if is_Timeout e then ret (Message timeout_msg)
         else ret (Message (CROSS ++ py " Error searching books: " ++ exn_str e)))
      s).
  { unfold run, search_books_by_genre.
    rewrite Hvalid, (strip_truthy _ Hvalid). reflexivity. }
  rewrite Hrun. clear Hrun run.
  unfold try_except, bind. rewrite _rate_limit_run.
  unfold send.
  change (List.length (log (rate_limited s))) with (List.length (log s)).
  fold s1.
  unfold served.
  destruct (net w (List.length (log s)) q) as [r | e].
  2:{ destruct (is_Timeout e); eexists; reflexivity. }
  destruct (status_code r =? 200)%Z; cbn [negb].
  2:{ eexists; reflexivity. }
  unfold response_json.
  destruct (resp_body r) as [data | msg | v].
  2:{ unfold raise. cbn [exn_is is_Timeout]. eexists; reflexivity. }
  2:{ unfold raise. cbn [exn_is is_Timeout]. eexists; reflexivity. }
  unfold ret.
  destruct (taken limit 0 (from_option (j_docs data) [])) as [| d ds] eqn:Htk.
  2:{ destruct (collect_from_empty w false g (resp_url r) limit
                  (from_option (j_docs data) []) s1) as [bs [s' [Hc Hcd]]].
      rewrite Hc.
      pose proof Hcd as [Hall _]. rewrite Htk in Hall.
      destruct bs as [| b bs]; [inversion Hall |]. cbn [truthy_list].
      exists (b :: bs), s'. split; [reflexivity | exact Hcd]. }
  rewrite (collect_none w false g (resp_url r) limit _ [] s1 Htk).
  cbn [truthy_list].
  destruct (alternative_genres g) as [alternative |]; [| reflexivity].
  change (List.length (log s1)) with
    (List.length (log s ++ [(clock (rate_limited s), q)])).
  rewrite length_app, Nat.add_1_r. cbn [List.length].
  cbv zeta.
  set (q' := search_request alternative limit).
  set (s2 := sent w q' s1).
  destruct (net w (S (List.length (log s))) q') as [r' | e].
  2:{ destruct (is_Timeout e); eexists; reflexivity. }
  destruct (status_code r' =? 200)%Z; [| reflexivity].
  destruct (resp_body r') as [data' | msg | v].
  2:{ unfold raise. cbn [exn_is is_Timeout]. eexists; reflexivity. }
  2:{ unfold raise. cbn [exn_is is_Timeout]. eexists; reflexivity. }
  destruct (taken limit 0 (from_option (j_docs data') [])) as [| d ds] eqn:Htk'.
  - rewrite (collect_none w true g (resp_url r') limit _ [] s2 Htk').
    reflexivity.
  - destruct (collect_from_empty w true g (resp_url r') limit
                (from_option (j_docs data') []) s2) as [bs [s' [Hc Hcd]]].
    rewrite Hc.
    pose proof Hcd as [Hall _]. rewrite Htk' in Hall.
    destruct bs as [| b bs]; [inversion Hall |]. cbn [truthy_list].
    exists (b :: bs), s'. split; [reflexivity | exact Hcd].
Qed.

Lemma search_blank w genre limit s :
  truthy_str (strip genre) = false ->
  search_books_by_genre w genre limit s = (Ok (Message enter_genre_msg), s).
Proof.
  intros H. unfold search_books_by_genre. rewrite H, orb_true_r. reflexivity.
Qed.

Lemma accepted_complete d : accepted d = true -> complete d.
Proof.
  unfold accepted, complete. intros H.
  apply andb_prop in H. destruct H as [H Hy].
  apply andb_prop in H. destruct H as [Ht Ha].
  destruct (Doc.title d), (Doc.author_name d), (Doc.first_publish_year d);
    try discriminate; repeat split; discriminate.
Qed.

Lemma taken_zero limit docs :
  taken limit 0 docs
  = firstn (Z.to_nat (Z.max 1 limit)) (filter accepted docs).
Proof. rewrite taken_firstn. now rewrite Z.sub_0_r. Qed.

Lemma new_requests_search w q s :
  new_requests s (sent w q (rate_limited s)) = [q]
  /\ extends s (sent w q (rate_limited s)).
Proof.
  split.
  - unfold new_requests, sent, rate_limited; cbn [log].
    rewrite skipn_app, skipn_all, Nat.sub_diag. reflexivity.
  - eexists. reflexivity.
Qed.

(** Where the books of a search come from, and what the search costs. *)
Lemma search_books_origin
      (w : world) (genre : str) (limit : Z) (s s' : state)
      (bs : list book_info) :
  search_books_by_genre w genre limit s = (Ok (Books bs), s') ->
  let g := normalize_genre genre in
  let n := List.length (log s) in
  exists (fallback : bool) (subject url : str) (docs : list Doc.t),
    (if fallback then alternative_genres g = Some subject else subject = g)
    /\ served (net w (if fallback then S n else n) (search_request subject limit))
       = Some (url, docs)
    /\ let ds := firstn (Z.to_nat (Z.max 1 limit)) (filter accepted docs) in
       Forall2 (built_from fallback g url) ds bs
       /\ (forall d, In d ds -> In d docs /\ accepted d = true /\ complete d)
       /\ new_requests s s'
          = (search_request g limit
               :: (if fallback then [search_request subject limit] else []))
              ++ description_requests ds.
Proof.
  intros Hrun g n.
  destruct (truthy_str (strip genre)) eqn:Hvalid.
  2:{ rewrite (search_blank w genre limit s Hvalid) in Hrun. discriminate. }
  pose proof (search_run w genre limit s Hvalid) as H. cbv zeta in H.
  fold g in H.
  assert (Hds : forall docs d,
             In d (taken limit 0 docs) ->
             In d docs /\ accepted d = true /\ complete d).
  { intros docs d Hin. destruct (taken_accepted _ _ _ _ Hin) as [Hd Ha].
    split; [exact Hd | split; [exact Ha | now apply accepted_complete]]. }
  destruct (new_requests_search w (search_request g limit) s) as [Hq Hext].
  set (s1 := sent w (search_request g limit) (rate_limited s)) in *.
  destruct (served (net w (List.length (log s)) (search_request g limit)))
    as [[url docs] |] eqn:Hserved.
  2:{ destruct H as [m H]. rewrite H in Hrun. discriminate. }
  destruct (taken limit 0 docs) as [| d0 ds0] eqn:Htk.
  - destruct (alternative_genres g) as [alternative |] eqn:Halt.
    2:{ rewrite H in Hrun. discriminate. }
    set (q' := search_request alternative limit) in *.
    assert (Hq' : new_requests s1 (sent w q' s1) = [q'])
      by apply new_requests_sent.
    pose proof (extends_sent w q' s1) as Hext1.
    set (s2 := sent w q' s1) in *.
    destruct (net w (S (List.length (log s))) q') as [r | e] eqn:Hnet.
    2:{ destruct H as [m H]. rewrite H in Hrun. discriminate. }
    destruct (status_code r =? 200)%Z eqn:Hst.
    2:{ rewrite H in Hrun. discriminate. }
    destruct (resp_body r) as [data | msg | v] eqn:Hbody.
    2:{ destruct H as [m H]. rewrite H in Hrun. discriminate. }
    2:{ destruct H as [m H]. rewrite H in Hrun. discriminate. }
    destruct (taken limit 0 (from_option (j_docs data) [])) as [| d1 ds1] eqn:Htk'.
    { rewrite H in Hrun. discriminate. }
    destruct H as [bs' [s'' [H [Hall [Hext2 [Hreq _]]]]]].
    rewrite H in Hrun. injection Hrun as <- <-.
    exists true, alternative, (resp_url r), (from_option (j_docs data) []).
    split; [reflexivity |].
    split; [fold q'; unfold n; rewrite Hnet; unfold served;
            now rewrite Hst, Hbody |].
    cbv zeta. rewrite <- taken_zero.
    split; [exact Hall |]. split; [apply Hds |].
    rewrite (new_requests_trans Hext (extends_trans Hext1 Hext2)).
    rewrite (new_requests_trans Hext1 Hext2).
    rewrite Hq, Hq', Hreq. reflexivity.
  - destruct H as [bs' [s'' [H [Hall [Hext2 [Hreq _]]]]]].
    rewrite H in Hrun. injection Hrun as <- <-.
    exists false, g, url, docs.
    split; [reflexivity |]. split; [exact Hserved |].
    cbv zeta. rewrite <- taken_zero.
    split; [exact Hall |]. split; [apply Hds |].
    rewrite (new_requests_trans Hext Hext2), Hq, Hreq. reflexivity.
Qed.

(** C1. Whenever [search_books_by_genre] returns books, they are built, one
    for one and in order, from records of one usable search answer (the
    primary one, or the alias one when [fallback] holds): from the first
    [max 1 limit] of its records that pass the filter. Every such record has
    title, [author_name] and [first_publish_year] present, so a record that
    misses one of them yields no book. The filter comes before any other
    processing of a record: the requests issued during the call are the
    search request (and the alias search request), followed by the
    description requests for the records that passed, and nothing else. *)
Theorem search_keeps_complete_records_only
        (w : world) (genre : str) (limit : Z) (s s' : state)
        (bs : list book_info) :
  search_books_by_genre w genre limit s = (Ok (Books bs), s') ->
  let g := normalize_genre genre in
  let n := List.length (log s) in
  exists (fallback : bool) (subject url : str) (docs : list Doc.t),
    (if fallback then alternative_genres g = Some subject else subject = g)
    /\ served (net w (if fallback then S n else n) (search_request subject limit))
       = Some (url, docs)
    /\ let ds := firstn (Z.to_nat (Z.max 1 limit)) (filter accepted docs) in
       Forall2 (built_from fallback g url) ds bs
       /\ List.length bs = List.length ds
       /\ (forall d, In d ds -> In d docs /\ complete d)
       /\ (forall d, In d docs -> ~ complete d -> ~ In d ds)
       /\ new_requests s s'
          = (search_request g limit
               :: (if fallback then [search_request subject limit] else []))
              ++ description_requests ds.
Proof.
  intros Hrun g n.
  destruct (search_books_origin _ _ _ _ Hrun)
    as [fallback [subject [url [docs [Hsubject [Hserved H]]]]]].
  cbv zeta in H. destruct H as [Hall [Hds Hreq]].
  exists fallback, subject, url, docs.
  split; [exact Hsubject |]. split; [exact Hserved |].
  cbv zeta. split; [exact Hall |].
  split; [symmetry; exact (Forall2_length Hall) |].
  split; [| split; [| exact Hreq]].
  - intros d Hd. destruct (Hds d Hd) as [Hin [_ Hc]]. split; assumption.
  - intros d _ Hnc Hd. destruct (Hds d Hd) as [_ [_ Hc]]. contradiction.
Qed.

Lemma sample_search_books :
  sample_search = (Ok (Books sample_books), snd sample_search).
Proof. vm_compute. reflexivity. Qed.

Lemma search_keeps_complete_records_only_witness :
  exists (fallback : bool) (subject url : str) (docs : list Doc.t),
    (if fallback
     then alternative_genres (normalize_genre (py "sci-fi")) = Some subject
     else subject = normalize_genre (py "sci-fi"))
    /\ served (net sample_world (if fallback then 1 else 0)%nat
                   (search_request subject 20)) = Some (url, docs)
    /\ let ds := firstn (Z.to_nat (Z.max 1 20)) (filter accepted docs) in
       Forall2 (built_from fallback (normalize_genre (py "sci-fi")) url)
               ds sample_books
       /\ List.length sample_books = List.length ds
       /\ (forall d, In d ds -> In d docs /\ complete d)
       /\ (forall d, In d docs -> ~ complete d -> ~ In d ds)
       /\ new_requests start (snd sample_search)
          = (search_request (normalize_genre (py "sci-fi")) 20
               :: (if fallback then [search_request subject 20] else []))
              ++ description_requests ds.
Proof.
  exact (@search_keeps_complete_records_only
           sample_world (py "sci-fi") 20 start (snd sample_search)
           sample_books sample_search_books).
Defined.

Lemma Forall2_In_r {A B} (R : A -> B -> Prop) l1 l2 b :
  Forall2 R l1 l2 -> In b l2 -> exists a, In a l1 /\ R a b.
Proof.
  induction 1 as [| x y l1 l2 Hxy _ IH]; intros Hin; [destruct Hin |].
  destruct Hin as [<- | Hin].
  - exists x. split; [now left | exact Hxy].
  - destruct (IH Hin) as [a [Ha HR]]. exists a. split; [now right | exact HR].
Qed.

Lemma built_from_accepted fallback genre url d b :
  built_from fallback genre url d b -> accepted d = true ->
  title b <> [] /\ authors b <> [].
Proof.
  intros [description ->] Ha. unfold accepted in Ha.
  apply andb_prop in Ha. destruct Ha as [Ha _].
  apply andb_prop in Ha. destruct Ha as [Ht Hn].
  cbn [set_description make_book_info title authors].
  destruct (Doc.title d) as [[| c t] |]; try discriminate.
  destruct (Doc.author_name d) as [[| a l] |]; try discriminate.
  split; discriminate.
Qed.

(** C10. Every book that [search_books_by_genre] returns has a title that
    is present and not empty and at least one author, so building the prompt
    for it, whatever the kind of analysis, ends without an exception. *)
Theorem searched_books_have_prompts
        (w : world) (genre : str) (limit : Z) (s s' : state)
        (bs : list book_info) :
  search_books_by_genre w genre limit s = (Ok (Books bs), s') ->
  forall b, In b bs ->
    title b <> [] /\ authors b <> []
    /\ forall analysis_type st,
         exists prompt, build_prompt b analysis_type st = (Ok prompt, st).
Proof.
  intros Hrun b Hb.
  destruct (search_books_origin _ _ _ _ Hrun)
    as [fallback [subject [url [docs [_ [_ H]]]]]].
  cbv zeta in H. destruct H as [Hall [Hds _]].
  destruct (@Forall2_In_r _ _ _ _ _ _ Hall Hb) as [d [Hd Hbuilt]].
  destruct (Hds d Hd) as [_ [Hacc _]].
  destruct (built_from_accepted Hbuilt Hacc) as [Ht Ha].
  split; [exact Ht | split; [exact Ha |]].
  intros analysis_type st.
  destruct (authors b) as [| a rest] eqn:E; [congruence |].
  exact (build_prompt_ok b analysis_type st E).
Qed.

Lemma searched_books_have_prompts_witness :
  let b := nth 0 sample_books dune in
  title b <> [] /\ authors b <> []
  /\ exists prompt, build_prompt b (py "discussion") start = (Ok prompt, start).
Proof.
  cbv zeta.
  destruct (@searched_books_have_prompts
              sample_world (py "sci-fi") 20 start (snd sample_search)
              sample_books sample_search_books (nth 0 sample_books dune))
    as [Ht [Ha Hp]].
  - vm_compute. left. reflexivity.
  - split; [exact Ht | split; [exact Ha | exact (Hp (py "discussion") start)]].
Defined.

Lemma description_is_not_search k subject limit :
  description_request k <> search_request subject limit.
Proof. unfold description_request, search_request. intros H. inversion H. Qed.

Lemma taken_none limit docs :
  filter accepted docs = [] -> taken limit 0 docs = [].
Proof. intros H. rewrite taken_zero, H. apply firstn_nil. Qed.

Lemma taken_some limit docs :
  filter accepted docs <> [] -> taken limit 0 docs <> [].
Proof.
  intros H. rewrite taken_zero.
  destruct (filter accepted docs) as [| d ds]; [congruence |].
  replace (Z.to_nat (Z.max 1 limit)) with (S (Z.to_nat (Z.max 1 limit) - 1))
    by lia.
  discriminate.
Qed.

(** When the primary answer holds no valid record and the retry under the
    alias raises, the handlers of lines 201-204 make the result. *)
Lemma search_retry_raises
      (w : world) (genre : str) (limit : Z) (s : state)
      (url alternative : str) (docs : list Doc.t) :
  truthy_str (strip genre) = true ->
  let g := normalize_genre genre in
  let q := search_request g limit in
  let q' := search_request alternative limit in
  let retry := net w (S (List.length (log s))) q' in
  let run := search_books_by_genre w genre limit s in
  served (net w (List.length (log s)) q) = Some (url, docs) ->
  filter accepted docs = [] ->
  alternative_genres g = Some alternative ->
  let s2 := sent w q' (sent w q (rate_limited s)) in
  (forall e, retry = Fails e -> is_Timeout e = true ->
     run = (Ok (Message timeout_msg), s2))
  /\ (forall e, retry = Fails e -> is_Timeout e = false ->
        run = (Ok (Message (CROSS ++ py " Error searching books: "
                                   ++ exn_str e)), s2))
  /\ (forall r msg, retry = Responds r -> status_code r = 200%Z ->
        resp_body r = NotJson msg ->
        run = (Ok (Message (CROSS ++ py " Error searching books: " ++ msg)),
               s2))
  /\ (forall r v, retry = Responds r -> status_code r = 200%Z ->
        resp_body r = JsonValue v ->
        run = (Ok (Message (CROSS ++ py " Error searching books: "
                                  ++ exn_str (attribute_error v))), s2))
  /\ new_requests s s2 = [q; q'].
Proof.
  intros Hvalid g q q' retry run Hserved Hnone Halt s2.
  assert (Hrun : run =
    try_except
      (_rate_limit ;;
       response <- send w q ;;
       if negb (status_code response =? 200)%Z then
         ret (Message (CROSS ++ py " Open Library API Error: Status code "
                             ++ str_of_Z (status_code response)))
       else
         data <- response_json response ;;
         books <- collect w false g (resp_url response)
                          limit (from_option (j_docs data) []) [] ;;
         if truthy_list books then ret (Books books)
         else
           books <-
             match alternative_genres g with
             | Some alternative =>
                 response <- send w (search_request alternative limit) ;;
                 if (status_code response =? 200)%Z then
                   data <- response_json response ;;
                   collect w true g (resp_url response)
                           limit (from_option (j_docs data) []) books
                 else ret books
             | None => ret books
             end ;;
           ret (if truthy_list books then Books books
                else Message (no_books_msg g)))
      (fun e =>
         if is_Timeout e then ret (Message timeout_msg)
         else ret (Message (CROSS ++ py " Error searching books: " ++ exn_str e)))
      s).
  { unfold run, search_books_by_genre.
    rewrite Hvalid, (strip_truthy _ Hvalid). reflexivity. }
  unfold served in Hserved.
  destruct (net w (List.length (log s)) q) as [r0 | e0] eqn:Hnet;
    [| discriminate].
  destruct (status_code r0 =? 200)%Z eqn:Hst0; [| discriminate].
  destruct (resp_body r0) as [data0 | msg0 | v] eqn:Hb0; [| discriminate ..].
  injection Hserved as <- <-.
  destruct (new_requests_search w q s) as [Hq Hext].
  set (s1 := sent w q (rate_limited s)) in *.
  assert (Hlen : List.length (log s1) = S (List.length (log s))).
  { unfold s1, sent, rate_limited; cbn [log].
    rewrite length_app. simpl. lia. }
  assert (Hqq : new_requests s (sent w q' s1) = [q; q']).
  { rewrite (new_requests_trans Hext (extends_sent w q' s1)), Hq,
      new_requests_sent. reflexivity. }
  rewrite Hrun. clear Hrun.
  unfold try_except, bind. rewrite _rate_limit_run. unfold send.
  change (List.length (log (rate_limited s))) with (List.length (log s)).
  rewrite Hnet, Hst0. cbn [negb]. unfold response_json. rewrite Hb0.
  unfold ret.
  rewrite (collect_none w false g (resp_url r0) limit _ [] _
             (taken_none limit _ Hnone)).
  cbn [truthy_list]. rewrite Halt. fold s1. rewrite Hlen. fold q' retry.
  fold s2 in Hqq. fold s2.
  split; [| split; [| split; [| split; [| exact Hqq]]]].
  - intros e -> He. now rewrite He.
  - intros e -> He. now rewrite He.
  - intros r msg -> Hst Hb. apply Z.eqb_eq in Hst. rewrite Hst, Hb.
    reflexivity.
  - intros r v -> Hst Hb. apply Z.eqb_eq in Hst. rewrite Hst, Hb.
    reflexivity.
Qed.

(** C2. Let the primary query be answered usably with no record that passes
    the filter. If the normalised genre has no entry in [alternative_genres],
    the result is the text "No books found for genre '...'. Try: fiction,
    mystery, romance, biography, history, philosophy, or literature." and
    the primary search is the only request. If it has the entry
    [alternative], exactly one more search is issued, for [alternative], and
    apart from the description requests for the records it yields nothing
    else is sent; when the retry is answered usably, its first [max 1 limit]
    records that pass the filter become the books returned, as many books as
    records, and when none passes, or when the retry is answered with a
    status other than 200, the result is the same "No books found" text,
    with no further request. When the retry is not answered, or its answer
    cannot be read as an object, the result is the text of that failure
    (timed out, or "Error searching books:" and the message), again with no
    further request. *)
Theorem alias_fallback_once
        (w : world) (genre : str) (limit : Z) (s : state)
        (url : str) (docs : list Doc.t) :
  truthy_str (strip genre) = true ->
  let g := normalize_genre genre in
  let n := List.length (log s) in
  let q := search_request g limit in
  served (net w n q) = Some (url, docs) ->
  filter accepted docs = [] ->
  let run := search_books_by_genre w genre limit s in
  let nothing :=
    Message (py "No books found for genre '" ++ g
             ++ py "'. Try: fiction, mystery, romance, biography, history, philosophy, or literature.") in
  (alternative_genres g = None ->
   fst run = Ok nothing
   /\ new_requests s (snd run) = [q])
  /\ (forall alternative,
        alternative_genres g = Some alternative ->
        let q' := search_request alternative limit in
        (exists ds, new_requests s (snd run) = q :: q' :: description_requests ds)
        /\ (forall k subject, description_request k <> search_request subject limit)
        /\ (forall url' docs',
              served (net w (S n) q') = Some (url', docs') ->
              let ds := firstn (Z.to_nat (Z.max 1 limit)) (filter accepted docs') in
              (filter accepted docs' = [] ->
               fst run = Ok nothing
               /\ new_requests s (snd run) = [q; q'])
              /\ (filter accepted docs' <> [] ->
                  exists bs,
                    fst run = Ok (Books bs)
                    /\ Forall2 (built_from true g url') ds bs
                    /\ List.length bs = List.length ds
                    /\ new_requests s (snd run)
                       = q :: q' :: description_requests ds))
        /\ (forall r,
              net w (S n) q' = Responds r -> status_code r <> 200%Z ->
              fst run = Ok nothing
              /\ new_requests s (snd run) = [q; q'])
        /\ (forall e,
              net w (S n) q' = Fails e ->
              fst run
              = Ok (Message
                      (if is_Timeout e
                       then CROSS ++ py " Error: Request timed out. Please try again."
                       else CROSS ++ py " Error searching books: " ++ exn_str e))
              /\ new_requests s (snd run) = [q; q'])
        /\ (forall r,
              net w (S n) q' = Responds r -> status_code r = 200%Z ->
              (forall msg,
                 resp_body r = NotJson msg ->
                 fst run
                 = Ok (Message (CROSS ++ py " Error searching books: " ++ msg))
                 /\ new_requests s (snd run) = [q; q'])
              /\ (forall v,
                    resp_body r = JsonValue v ->
                    fst run
                    = Ok (Message (CROSS ++ py " Error searching books: "
                                         ++ py "'" ++ type_name v
                                         ++ py "' object has no attribute 'get'"))
                    /\ new_requests s (snd run) = [q; q']))).
Proof.
  intros Hvalid g n q Hserved Hnone run nothing.
  pose proof (search_run w genre limit s Hvalid) as H. cbv zeta in H.
  fold g q run in H. unfold n in Hserved.
  pose proof Hserved as Hprimary. rewrite Hserved in H.
  rewrite (taken_none limit docs Hnone) in H.
  destruct (new_requests_search w q s) as [Hq Hext].
  set (s1 := sent w q (rate_limited s)) in *.
  split.
  - intros Halt. rewrite Halt in H. rewrite H. split; [reflexivity | exact Hq].
  - intros alternative Halt q'.
    pose proof (@search_retry_raises w genre limit s url alternative docs
                  Hvalid Hprimary Hnone Halt) as Hraise.
    cbv zeta in Hraise. fold g q q' run s1 in Hraise.
    destruct Hraise as [Htimeout [Hother [Hundecodable [Hnoobject _]]]].
    rewrite Halt in H. fold q' in H.
    assert (Hq' : new_requests s1 (sent w q' s1) = [q'])
      by apply new_requests_sent.
    pose proof (extends_sent w q' s1) as Hext1.
    set (s2 := sent w q' s1) in *.
    assert (Hqq : new_requests s s2 = [q; q'])
      by (rewrite (new_requests_trans Hext Hext1), Hq, Hq'; reflexivity).
    unfold n.
    split; [| split; [intros k subject; apply description_is_not_search |
                      split; [| split; [| split]]]].
    + destruct (net w (S (List.length (log s))) q') as [r | e].
      2:{ destruct H as [m H]. rewrite H. exists []. exact Hqq. }
      destruct (status_code r =? 200)%Z.
      2:{ rewrite H. exists []. exact Hqq. }
      destruct (resp_body r) as [data | msg | v].
      2:{ destruct H as [m H]. rewrite H. exists []. exact Hqq. }
      2:{ destruct H as [m H]. rewrite H. exists []. exact Hqq. }
      destruct (taken limit 0 (from_option (j_docs data) [])) as [| d ds] eqn:Htk.
      { rewrite H. exists []. exact Hqq. }
      destruct H as [bs [s' [H [_ [Hext2 [Hreq _]]]]]].
      rewrite H. exists (d :: ds). cbn [snd].
      rewrite (new_requests_trans (extends_trans Hext Hext1) Hext2), Hqq, Hreq.
      rewrite Htk. reflexivity.
    + intros url' docs' Hretry. cbv zeta. unfold served in Hretry.
      destruct (net w (S (List.length (log s))) q') as [r | e]; [| discriminate].
      destruct (status_code r =? 200)%Z; [| discriminate].
      destruct (resp_body r) as [data | msg | v]; [| discriminate ..].
      injection Hretry as <- <-.
      split.
      * intros Hnone'. rewrite (taken_none limit _ Hnone') in H.
        rewrite H. split; [reflexivity | exact Hqq].
      * intros Hsome. pose proof (taken_some limit _ Hsome) as Hne.
        destruct (taken limit 0 (from_option (j_docs data) [])) as [| d0 ds0] eqn:Htk;
          [congruence |].
        destruct H as [bs [s' [H [Hall [Hext2 [Hreq _]]]]]].
        rewrite Htk in Hall, Hreq. rewrite <- taken_zero, Htk.
        rewrite H. exists bs. cbn [fst snd].
        split; [reflexivity |]. split; [exact Hall |].
        split; [symmetry; exact (Forall2_length Hall) |].
        rewrite (new_requests_trans (extends_trans Hext Hext1) Hext2), Hqq, Hreq.
        reflexivity.
    + intros r Hnet Hst. rewrite Hnet in H.
      apply Z.eqb_neq in Hst. rewrite Hst in H.
      rewrite H. split; [reflexivity | exact Hqq].
    + intros e Hnet. destruct (is_Timeout e) eqn:He.
      * rewrite (Htimeout e Hnet He). split; [reflexivity | exact Hqq].
      * rewrite (Hother e Hnet He). split; [reflexivity | exact Hqq].
    + intros r Hnet Hst. split.
      * intros msg Hb. rewrite (Hundecodable r msg Hnet Hst Hb).
        split; [reflexivity | exact Hqq].
      * intros v Hb. rewrite (Hnoobject r v Hnet Hst Hb).
        split; [reflexivity | exact Hqq].
Qed.

Lemma alias_fallback_once_witness :
  normalize_genre (py "sci-fi") = py "sci-fi"
  /\ alternative_genres (py "sci-fi") = Some (py "science fiction")
  /\ exists bs,
       fst (search_books_by_genre mock_world (py "sci-fi") 20 start)
       = Ok (Books bs)
       /\ List.length bs = 3%nat
       /\ new_requests start
            (snd (search_books_by_genre mock_world (py "sci-fi") 20 start))
          = [ search_request (py "sci-fi") 20;
              search_request (py "science fiction") 20;
              description_request (py "/works/OL1W");
              description_request (py "/works/OL2W");
              description_request (py "/works/OL3W") ].
Proof.
  split; [reflexivity | split; [reflexivity |]].
  pose proof (@alias_fallback_once mock_world (py "sci-fi") 20 start
                (py "https://openlibrary.org/search.json") []
                eq_refl eq_refl eq_refl) as H.
  cbv zeta in H. destruct H as [_ H].
  specialize (H (py "science fiction") eq_refl).
  destruct H as [_ [_ [H _]]].
  specialize (H (py "https://openlibrary.org/search.json") three_docs eq_refl).
  destruct H as [_ H].
  destruct (H ltac:(discriminate)) as [bs [Hrun [_ [Hlen Hreq]]]].
  exists bs. split; [exact Hrun |]. split; [exact Hlen | exact Hreq].
Defined.

(** *** The rate limiter *)

(** Two description fetches in a row: the second request leaves as soon as
    the first is answered. No sleep separates them, and the rate-limiter
    timestamp is neither read nor written. *)
Lemma description_fetches_back_to_back w c1 k1 c2 k2 s :
  let r1 := description_request (c1 :: k1) in
  let r2 := description_request (c2 :: k2) in
  let s1 := snd (get_book_description w (c1 :: k1) s) in
  let s2 := snd (get_book_description w (c2 :: k2) s1) in
  log s2 = log s ++ [(clock s, r1); (clock s + latency w (List.length (log s)) r1, r2)]
  /\ last_request_time s2 = last_request_time s.
Proof.
  cbv zeta. rewrite !get_book_description_run. cbn [snd sent log clock].
  rewrite <- app_assoc. split; reflexivity.
Qed.

(** C8, on the code. In the mock environment, where every request is
    answered after 0.01 s, the search of ["sci-fi"] issues five requests to
    the metadata service: the primary search, the alias search and three
    description fetches. Each leaves less than [min_request_interval] after
    the one before, and the timestamp of the limiter is that of the primary
    search: [_rate_limit] is called once, before the first of them. *)
Theorem metadata_calls_not_spaced :
  let s' := snd (search_books_by_genre mock_world (py "sci-fi") 20 start) in
  exists t0 t1 t2 t3 t4,
    log s' = [ (t0, search_request (py "sci-fi") 20);
               (t1, search_request (py "science fiction") 20);
               (t2, description_request (py "/works/OL1W"));
               (t3, description_request (py "/works/OL2W"));
               (t4, description_request (py "/works/OL3W")) ]
    /\ t1 - t0 < min_request_interval
    /\ t2 - t1 < min_request_interval
    /\ t3 - t2 < min_request_interval
    /\ t4 - t3 < min_request_interval
    /\ last_request_time s' = Some t0.
Proof.
  cbv zeta. do 5 eexists.
  split; [vm_compute; reflexivity |].
  repeat split; vm_compute; reflexivity.
Qed.

(** *** More on sanitising *)

Lemma run_to_gt_none s : run_to_gt s = None <-> ~ In GT s.
Proof.
  induction s as [| c r IH]; cbn [run_to_gt].
  - split; [intros _ [] | reflexivity].
  - destruct (N.eqb_spec c GT) as [-> | Hc].
    + split; [discriminate | intros H; exfalso; apply H; now left].
    + destruct (run_to_gt r) as [n |].
      * split; [discriminate |].
        intros H. assert (Hr : ~ In GT r) by (intros Hin; apply H; now right).
        apply IH in Hr. discriminate.
      * split; [| reflexivity].
        intros _ [Heq | Hin]; [congruence |].
        now apply (proj1 IH).
Qed.

Lemma run_to_gt_zero s : run_to_gt s = Some 0%nat -> exists r, s = GT :: r.
Proof.
  destruct s as [| c r]; cbn [run_to_gt]; [discriminate |].
  destruct (N.eqb_spec c GT) as [-> | Hc]; [intros _; now exists r |].
  destruct (run_to_gt r); discriminate.
Qed.

(** Where no tag starts: at a character other than [<], or at a [<] that is
    followed at once by [>] or by no [>] at all. *)
Lemma tag_match_none c r :
  tag_match (c :: r) = None
  <-> (c <> LT \/ run_to_gt r = None \/ run_to_gt r = Some 0%nat).
Proof.
  cbn [tag_match]. destruct (N.eqb_spec c LT) as [-> | Hc].
  - destruct (run_to_gt r) as [[| n] |].
    + split; [intros _; right; now right | reflexivity].
    + split; [discriminate |].
      intros [H | [H | H]]; [congruence | discriminate | discriminate].
    + split; [intros _; right; now left | reflexivity].
  - split; [intros _; now left | reflexivity].
Qed.

Lemma tag_match_positive s : tag_match s <> Some 0%nat.
Proof.
  destruct s as [| c r]; cbn [tag_match]; [discriminate |].
  destruct (c =? LT)%N; [| discriminate].
  destruct (run_to_gt r) as [[| n] |]; discriminate.
Qed.

Lemma sub_tags_In x s : forall k, In x (sub_tags k s) -> In x s.
Proof.
  induction s as [| c r IH]; intros k; cbn [sub_tags]; [intros [] |].
  destruct k as [| k]; [| intros H; right; exact (IH _ H)].
  destruct (tag_match (c :: r)) as [[| k] |].
  - intros [-> | H]; [now left | right; exact (IH _ H)].
  - intros H. right. exact (IH _ H).
  - intros [-> | H]; [now left | right; exact (IH _ H)].
Qed.

Lemma tag_free_cons c t :
  tag_match (c :: t) = None -> tag_free t = true -> tag_free (c :: t) = true.
Proof. intros Hm Ht. cbn [tag_free]. now rewrite Hm. Qed.

Lemma tag_free_inv c t :
  tag_free (c :: t) = true -> tag_match (c :: t) = None /\ tag_free t = true.
Proof.
  cbn [tag_free]. destruct (tag_match (c :: t)); [discriminate | now split].
Qed.

(** What [re.sub(r'<[^>]+>', '', s)] returns holds no tag any more. *)
Lemma sub_tags_tag_free s : forall k, tag_free (sub_tags k s) = true.
Proof.
  induction s as [| c r IH]; intros k; cbn [sub_tags]; [reflexivity |].
  destruct k as [| k]; [| apply IH].
  destruct (tag_match (c :: r)) as [[| k] |] eqn:E.
  - exfalso. exact (tag_match_positive _ E).
  - apply IH.
  - apply tag_free_cons; [| apply IH].
    apply tag_match_none. apply tag_match_none in E.
    destruct E as [Hc | [Hn | Hz]]; [now left | |].
    + right. left. apply run_to_gt_none. intros Hin.
      apply (proj1 (run_to_gt_none r) Hn). exact (sub_tags_In _ _ _ Hin).
    + right. right. destruct (run_to_gt_zero _ Hz) as [r' ->].
      cbn [sub_tags tag_match]. change (GT =? LT)%N with false.
      cbn [run_to_gt]. now rewrite N.eqb_refl.
Qed.

Lemma tag_free_sub_tags t : tag_free t = true -> sub_tags 0 t = t.
Proof.
  induction t as [| c r IH]; [reflexivity |].
  intros H. apply tag_free_inv in H. destruct H as [Hm Hr].
  cbn [sub_tags]. rewrite Hm. f_equal. exact (IH Hr).
Qed.

Lemma sub_spaces_In_GT s : forall b, In GT (sub_spaces b s) -> In GT s.
Proof.
  induction s as [| c r IH]; intros b; cbn [sub_spaces]; [intros [] |].
  destruct (is_space c).
  - destruct b.
    + intros H. right. exact (IH _ H).
    + intros [H | H]; [discriminate | right; exact (IH _ H)].
  - intros [-> | H]; [now left | right; exact (IH _ H)].
Qed.

Lemma sub_spaces_tag_free t : forall b,
  tag_free t = true -> tag_free (sub_spaces b t) = true.
Proof.
  induction t as [| c r IH]; intros b H; cbn [sub_spaces]; [reflexivity |].
  apply tag_free_inv in H. destruct H as [Hm Hr].
  destruct (is_space c) eqn:Hc.
  - destruct b; [now apply IH |].
    apply tag_free_cons; [| now apply IH].
    apply tag_match_none. left. discriminate.
  - apply tag_free_cons; [| now apply IH].
    apply tag_match_none. apply tag_match_none in Hm.
    destruct Hm as [Hlt | [Hn | Hz]]; [now left | |].
    + right. left. apply run_to_gt_none. intros Hin.
      apply (proj1 (run_to_gt_none r) Hn). exact (sub_spaces_In_GT _ _ Hin).
    + right. right. destruct (run_to_gt_zero _ Hz) as [r' ->].
      cbn [sub_spaces]. change (is_space GT) with false.
      cbn [run_to_gt]. now rewrite N.eqb_refl.
Qed.

Lemma tag_free_suffix a x : tag_free (a ++ x) = true -> tag_free x = true.
Proof.
  induction a as [| c a IH]; [trivial |].
  cbn [app]. intros H. apply tag_free_inv in H. now apply IH.
Qed.

Lemma tag_free_prefix m b : tag_free (m ++ b) = true -> tag_free m = true.
Proof.
  induction m as [| c m IH]; [reflexivity |].
  cbn [app]. intros H. apply tag_free_inv in H. destruct H as [Hm Hr].
  apply tag_free_cons; [| now apply IH].
  apply tag_match_none. apply tag_match_none in Hm.
  destruct Hm as [Hc | [Hn | Hz]]; [now left | |].
  - right. left. apply run_to_gt_none. intros Hin.
    apply (proj1 (run_to_gt_none _) Hn). apply in_or_app. now left.
  - destruct m as [| x m]; [right; now left |].
    right. right. destruct (run_to_gt_zero _ Hz) as [r' Hr'].
    cbn [app] in Hr'. injection Hr' as -> _.
    cbn [run_to_gt]. now rewrite N.eqb_refl.
Qed.

Lemma strip_infix s : exists a b, s = a ++ strip s ++ b.
Proof.
  unfold strip.
  destruct (drop_while_suffix is_space s) as [a Ha].
  destruct (drop_while_suffix is_space (rev (drop_while is_space s)))
    as [pre Hpre].
  exists a, (rev pre).
  rewrite <- rev_app_distr, <- Hpre, rev_involutive. exact Ha.
Qed.

Lemma single_spaced_weaken f x :
  single_spaced f x = true -> single_spaced false x = true.
Proof.
  destruct x as [| c r]; [trivial |]. cbn [single_spaced].
  destruct (is_space c); [| trivial].
  intros H. apply andb_prop in H. destruct H as [H Hr].
  apply andb_prop in H. destruct H as [Hc _].
  now rewrite Hc, Hr.
Qed.

Lemma single_spaced_suffix a x : forall f,
  single_spaced f (a ++ x) = true -> single_spaced false x = true.
Proof.
  induction a as [| c a IH]; intros f; [apply single_spaced_weaken |].
  cbn [app single_spaced]. destruct (is_space c).
  - intros H. apply andb_prop in H. destruct H as [_ Hr]. exact (IH _ Hr).
  - apply IH.
Qed.

Lemma single_spaced_prefix m b : forall f,
  single_spaced f (m ++ b) = true -> single_spaced f m = true.
Proof.
  induction m as [| c m IH]; intros f; [reflexivity |].
  cbn [app single_spaced]. destruct (is_space c).
  - intros H. apply andb_prop in H. destruct H as [H Hr].
    rewrite H. exact (IH _ Hr).
  - apply IH.
Qed.

Lemma single_spaced_sub_spaces t : forall f,
  single_spaced f t = true -> sub_spaces f t = t.
Proof.
  induction t as [| c r IH]; intros f; [reflexivity |].
  cbn [single_spaced sub_spaces]. destruct (is_space c).
  - intros H. apply andb_prop in H. destruct H as [H Hr].
    apply andb_prop in H. destruct H as [Hc Hf].
    apply N.eqb_eq in Hc. subst c.
    destruct f; [discriminate |]. f_equal. exact (IH _ Hr).
  - intros H. f_equal. exact (IH _ H).
Qed.

Lemma drop_while_keep p c r : p c = false -> drop_while p (c :: r) = c :: r.
Proof. intros H. cbn [drop_while]. now rewrite H. Qed.

(** [strip] changes nothing in a text that neither starts nor ends with
    whitespace. *)
Lemma strip_fixed u :
  (forall c r, u = c :: r -> is_space c = false) ->
  (forall r c, u = r ++ [c] -> is_space c = false) ->
  strip u = u.
Proof.
  intros Hhead Hlast. unfold strip.
  destruct u as [| c r]; [reflexivity |].
  rewrite (@drop_while_keep _ _ _ (Hhead c r eq_refl)).
  destruct (rev (c :: r)) as [| x y] eqn:E.
  - apply (f_equal (@rev char)) in E. rewrite rev_involutive in E. discriminate.
  - assert (Hx : c :: r = rev y ++ [x]).
    { apply (f_equal (@rev char)) in E. now rewrite rev_involutive in E. }
    rewrite (@drop_while_keep _ _ _ (Hlast _ _ Hx)). now rewrite Hx.
Qed.

Lemma sanitize_sanitized d : sanitized (sanitize d).
Proof.
  unfold sanitized, sanitize.
  set (t := collapse_spaces (strip_tags d)).
  destruct (strip_infix t) as [a [b Ht]].
  split; [| split].
  - destruct (strip_ends t) as [Hhead Hlast]. now apply strip_fixed.
  - apply (@single_spaced_prefix _ b).
    apply (@single_spaced_suffix a _ false). rewrite <- Ht.
    apply sub_spaces_single_spaced.
  - apply (@tag_free_prefix _ b). apply (@tag_free_suffix a). rewrite <- Ht.
    apply sub_spaces_tag_free. apply sub_tags_tag_free.
Qed.

Lemma sanitize_fixed t : sanitized t -> sanitize t = t.
Proof.
  intros [Hs [Hw Ht]]. unfold sanitize, strip_tags, collapse_spaces.
  rewrite (tag_free_sub_tags _ Ht), (@single_spaced_sub_spaces _ _ Hw).
  exact Hs.
Qed.

(** X1. What lines 225-226 compute is in normal form: it neither starts nor
    ends with whitespace, its only whitespace is single spaces, and no match
    of the tag pattern is left in it. Sanitising it once more changes
    nothing. *)
Theorem sanitize_normal_form (d : str) :
  sanitized (sanitize d) /\ sanitize (sanitize d) = sanitize d.
Proof.
  split; [apply sanitize_sanitized |].
  apply sanitize_fixed. apply sanitize_sanitized.
Qed.

(** *** More on the description fetcher *)

Lemma truncate500_length x : (List.length (truncate500 x) <= 503)%nat.
Proof.
  unfold truncate500. destruct (Nat.ltb_spec 500 (List.length x)) as [H | H].
  - rewrite length_app, length_firstn.
    change (List.length (py "...")) with 3%nat. lia.
  - lia.
Qed.

Lemma description_of_length o :
  (1 <= List.length (description_of o) <= 503)%nat.
Proof.
  assert (Hn : (1 <= List.length no_description <= 503)%nat)
    by (vm_compute; split; repeat constructor).
  assert (Hd : (1 <= List.length description_not_available <= 503)%nat)
    by (vm_compute; split; repeat constructor).
  unfold description_of. destruct o as [r | e]; [| exact Hd].
  destruct (status_code r =? 200)%Z; [| exact Hd].
  destruct (resp_body r) as [data | msg | v]; [| exact Hd ..].
  destruct (description_text (j_description data)) as [d | [|]];
    [| exact Hd | exact Hn].
  destruct (truthy_str d); [| exact Hn].
  destruct (truncate500 (sanitize d)) as [| c t] eqn:E; [exact Hn |].
  cbn [truthy_str]. rewrite <- E. split; [rewrite E; simpl; lia |].
  apply truncate500_length.
Qed.

(** X2. Whatever the key and whatever the service does,
    [get_book_description] returns a text of at least 1 and at most 503
    characters, after at most one request: none for an empty key, and for
    any other key the one GET of [base + key + ".json"] with the short
    timeout. It neither sleeps nor touches the rate-limiter timestamp. *)
Theorem get_book_description_bounded (w : world) (k : str) (s : state) :
  exists text,
    fst (get_book_description w k s) = Ok text
    /\ (1 <= List.length text <= 503)%nat
    /\ new_requests s (snd (get_book_description w k s))
       = (if truthy_str k then [description_request k] else [])
    /\ last_request_time (snd (get_book_description w k s))
       = last_request_time s
    /\ clock (snd (get_book_description w k s))
       == clock s
          + (if truthy_str k
             then latency w (List.length (log s)) (description_request k)
             else 0).
Proof.
  destruct k as [| c k].
  - rewrite get_book_description_empty. exists no_description. cbn [fst snd].
    split; [reflexivity |].
    split; [vm_compute; split; repeat constructor |].
    split; [apply new_requests_refl |].
    split; [reflexivity |]. cbn [truthy_str]. lra.
  - rewrite get_book_description_run. eexists. cbn [fst snd].
    split; [reflexivity |].
    split; [apply description_of_length |].
    split; [apply new_requests_sent |].
    split; [reflexivity |]. cbn [truthy_str sent clock]. lra.
Qed.

(** *** More on the search aggregator *)

Lemma get_book_description_length w k s text s1 :
  get_book_description w k s = (Ok text, s1) ->
  (1 <= List.length text <= 503)%nat.
Proof.
  intros H. pose proof (get_book_description_result w k s) as Hr.
  rewrite H in Hr. cbn [fst] in Hr. injection Hr as ->.
  destruct k; [vm_compute; split; repeat constructor |].
  apply description_of_length.
Qed.

Lemma made_well_formed fallback genre url d text :
  accepted d = true -> (1 <= List.length text <= 503)%nat ->
  well_formed (set_description (make_book_info fallback genre url d) text).
Proof.
  intros Ha Hlen. unfold accepted in Ha.
  apply andb_prop in Ha. destruct Ha as [Ha Hy].
  apply andb_prop in Ha. destruct Ha as [Ht Hn].
  unfold well_formed.
  cbn [set_description make_book_info title authors first_publish_year
       subjects publisher description source_url key].
  destruct (Doc.title d) as [[| c t] |]; try discriminate.
  destruct (Doc.author_name d) as [[| a l] |]; try discriminate.
  destruct (Doc.first_publish_year d) as [year |]; try discriminate.
  cbn [from_option or_unknown].
  split; [discriminate |]. split; [discriminate |].
  split.
  { exists year. split; [reflexivity |].
    cbn [truthy_opt_int] in Hy. intros ->. discriminate. }
  split.
  { destruct fallback; [discriminate |].
    destruct (Doc.subject d) as [[| x l'] |]; cbn [truthy_opt_list from_option];
      discriminate. }
  split; [rewrite length_firstn; lia |].
  split; [exact Hlen | reflexivity].
Qed.

(** The loop keeps any property of books that holds of the records it
    builds. *)
Lemma collect_forall w fallback genre url limit (P : book_info -> Prop) :
  (forall d text,
      accepted d = true -> (1 <= List.length text <= 503)%nat ->
      P (set_description (make_book_info fallback genre url d) text)) ->
  forall docs books s bs s',
    Forall P books ->
    collect w fallback genre url limit docs books s = (Ok bs, s') ->
    Forall P bs.
Proof.
  intros HP. induction docs as [| d rest IH]; intros books s bs s' Hb;
    cbn [collect].
  - unfold ret. intros H. injection H as <- _. exact Hb.
  - destruct (accepted d) eqn:Ha; [| now apply IH].
    unfold bind.
    destruct (get_book_description w (key (make_book_info fallback genre url d)) s)
      as [[text | e] s1] eqn:Hg; [| discriminate].
    assert (Hb' : Forall P (books ++
              [set_description (make_book_info fallback genre url d) text])).
    { apply Forall_app. split; [exact Hb |]. constructor; [| constructor].
      apply HP; [exact Ha |]. exact (get_book_description_length _ _ _ Hg). }
    destruct (limit <=? _)%Z.
    + unfold ret. intros H. injection H as <- _. exact Hb'.
    + now apply IH.
Qed.

Ltac run_search H :=
  repeat
    (match type of H with
     | context [match net ?w ?n ?q with _ => _ end] =>
         destruct (net w n q) as [? | ?]
     | context [(status_code ?r =? 200)%Z] =>
         destruct (status_code r =? 200)%Z
     | context [match resp_body ?r with _ => _ end] =>
         destruct (resp_body r) as [? | ? | ?]
     | context [if is_Timeout ?e then _ else _] =>
         destruct (is_Timeout e)
     end; cbn [negb] in H; cbv beta iota zeta in H; try discriminate).

(** A search that returns books returns what one of the two loops
    collected from an empty list. *)
Lemma search_books_by_collect w genre limit s bs s' :
  search_books_by_genre w genre limit s = (Ok (Books bs), s') ->
  bs <> []
  /\ exists fallback url docs s1,
      collect w fallback (normalize_genre genre) url limit docs [] s1
      = (Ok bs, s').
Proof.
  intros H. unfold search_books_by_genre in H.
  destruct (negb (truthy_str genre) || negb (truthy_str (strip genre)));
    [discriminate |].
  unfold try_except, bind in H. rewrite _rate_limit_run in H.
  unfold send, response_json, ret, raise in H. cbv beta iota zeta in H.
  run_search H.
  match type of H with
  | context [collect w false ?g ?u limit ?docs [] ?s1] =>
      destruct (collect w false g u limit docs [] s1) as [[books | e] s2] eqn:Hc
  end.
  2:{ run_search H. }
  destruct books as [| b books]; cbn [truthy_list] in H;
    cbv beta iota zeta in H.
  2:{ injection H as <- <-. split; [discriminate | eauto]. }
  destruct (alternative_genres (normalize_genre genre)) as [alternative |];
    cbv beta iota zeta in H; [| discriminate].
  run_search H.
  match type of H with
  | context [collect w true ?g ?u limit ?docs [] ?s1] =>
      destruct (collect w true g u limit docs [] s1) as [[books | e] s3] eqn:Hc'
  end.
  2:{ run_search H. }
  destruct books as [| b books]; cbn [truthy_list] in H;
    cbv beta iota zeta in H; [discriminate |].
  injection H as <- <-. split; [discriminate | eauto].
Qed.

(** X3. Every record that [search_books_by_genre] returns is well formed:
    title and authors are not empty, the year is a number other than 0, there
    is at least one subject, at most three publishers are kept, the
    description has between 1 and 503 characters, and the source URL is the
    base followed by the key, or ["Not available"] when the key is empty. *)
Theorem search_books_well_formed
        (w : world) (genre : str) (limit : Z) (s s' : state)
        (bs : list book_info) :
  search_books_by_genre w genre limit s = (Ok (Books bs), s') ->
  Forall well_formed bs.
Proof.
  intros H.
  destruct (search_books_by_collect _ _ _ _ H)
    as [_ [fallback [url [docs [s1 Hc]]]]].
  refine (@collect_forall w fallback _ url limit well_formed _ docs [] s1
                          bs s' _ Hc).
  - intros d text. apply made_well_formed.
  - constructor.
Qed.

Lemma search_books_well_formed_witness : Forall well_formed sample_books.
Proof.
  exact (@search_books_well_formed sample_world (py "sci-fi") 20 start
           (snd sample_search) sample_books sample_search_books).
Defined.

Lemma firstn_length_le {A} n (l : list A) : (List.length (firstn n l) <= n)%nat.
Proof. rewrite length_firstn. lia. Qed.

(** X4. A search that returns books returns at least one and at most
    [max(1, limit)] of them: a limit of 0 or less still yields one book. *)
Theorem search_books_count
        (w : world) (genre : str) (limit : Z) (s s' : state)
        (bs : list book_info) :
  search_books_by_genre w genre limit s = (Ok (Books bs), s') ->
  (1 <= List.length bs)%nat
  /\ (Z.of_nat (List.length bs) <= Z.max 1 limit)%Z
  /\ ((limit <= 1)%Z -> List.length bs = 1%nat).
Proof.
  intros H.
  destruct (search_books_by_collect _ _ _ _ H) as [Hne _].
  destruct (search_books_origin _ _ _ _ H)
    as [fallback [subject [url [docs [_ [_ Hd]]]]]].
  cbv zeta in Hd. destruct Hd as [Hall _].
  pose proof (Forall2_length Hall) as Hlen.
  pose proof (firstn_length_le (Z.to_nat (Z.max 1 limit))
                               (filter accepted docs)) as Hle.
  assert (H1 : (1 <= List.length bs)%nat).
  { destruct bs; [congruence | simpl; lia]. }
  split; [exact H1 |]. split; lia.
Qed.

Lemma zero_limit_search_books :
  zero_limit_search = (Ok (Books zero_limit_books), snd zero_limit_search).
Proof. vm_compute. reflexivity. Qed.

Lemma search_books_count_witness :
  (1 <= List.length zero_limit_books)%nat
  /\ (Z.of_nat (List.length zero_limit_books) <= Z.max 1 0)%Z
  /\ List.length zero_limit_books = 1%nat.
Proof.
  destruct (@search_books_count sample_world (py "sci-fi") 0 start
              (snd zero_limit_search) zero_limit_books zero_limit_search_books)
    as [H1 [H2 H3]].
  split; [exact H1 |]. split; [exact H2 | apply H3; lia].
Defined.

(** X5. [search_books_by_genre] never raises: whatever the genre, the limit
    and the behaviour of the service, it returns a list of books or a
    text. *)
Theorem search_never_raises (w : world) (genre : str) (limit : Z) (s : state) :
  exists r, fst (search_books_by_genre w genre limit s) = Ok r.
Proof.
  destruct (truthy_str (strip genre)) eqn:Hvalid.
  2:{ rewrite (search_blank w genre limit s Hvalid). eexists. reflexivity. }
  pose proof (search_run w genre limit s Hvalid) as H. cbv zeta in H.
  destruct (served _) as [[url docs] |].
  2:{ destruct H as [m ->]. eexists. reflexivity. }
  destruct (taken limit 0 docs).
  2:{ destruct H as [bs [s' [-> _]]]. eexists. reflexivity. }
  destruct (alternative_genres _); [| rewrite H; eexists; reflexivity].
  destruct (net w _ _) as [r | e].
  2:{ destruct H as [m ->]. eexists. reflexivity. }
  destruct (status_code r =? 200)%Z; [| rewrite H; eexists; reflexivity].
  destruct (resp_body r).
  2:{ destruct H as [m ->]. eexists. reflexivity. }
  2:{ destruct H as [m ->]. eexists. reflexivity. }
  destruct (taken limit 0 _); [rewrite H; eexists; reflexivity |].
  destruct H as [bs [s' [-> _]]]. eexists. reflexivity.
Qed.

Lemma drop_while_all p s : forallb p s = true -> drop_while p s = [].
Proof.
  induction s as [| c r IH]; [reflexivity |].
  cbn [forallb drop_while]. intros H. apply andb_prop in H.
  destruct H as [Hc Hr]. rewrite Hc. exact (IH Hr).
Qed.

(** X6. A genre that is empty or made of whitespace only is refused with the
    text "Please enter a valid genre", and nothing else happens: no request
    is issued, the clock and the rate-limiter timestamp stay as they are. *)
Theorem search_blank_genre (w : world) (genre : str) (limit : Z) (s : state) :
  forallb is_space genre = true ->
  search_books_by_genre w genre limit s = (Ok (Message enter_genre_msg), s).
Proof.
  intros H. apply search_blank. unfold strip.
  now rewrite (drop_while_all _ _ H).
Qed.

Lemma search_blank_genre_witness :
  search_books_by_genre sample_world (py "   ") 20 start
  = (Ok (Message enter_genre_msg), start).
Proof.
  apply (@search_blank_genre sample_world (py "   ") 20 start). reflexivity.
Defined.

(** X7. When the primary query fails, the search ends there, with one
    request issued and no retry under an alias: a status other than 200
    gives "Open Library API Error: Status code N", a timeout gives the
    "Request timed out" text, and any other exception, an undecodable body
    included, gives "Error searching books:" followed by its message. *)
Theorem search_primary_failure
        (w : world) (genre : str) (limit : Z) (s : state) :
  truthy_str (strip genre) = true ->
  let q := search_request (normalize_genre genre) limit in
  let answer := net w (List.length (log s)) q in
  let run := search_books_by_genre w genre limit s in
  let s1 := sent w q (rate_limited s) in
  (forall r, answer = Responds r -> status_code r <> 200%Z ->
     run = (Ok (Message (CROSS ++ py " Open Library API Error: Status code "
                               ++ str_of_Z (status_code r))), s1))
  /\ (forall e, answer = Fails e -> is_Timeout e = true ->
        run = (Ok (Message timeout_msg), s1))
  /\ (forall e, answer = Fails e -> is_Timeout e = false ->
        run = (Ok (Message (CROSS ++ py " Error searching books: " ++ exn_str e)),
               s1))
  /\ (forall r msg, answer = Responds r -> status_code r = 200%Z ->
        resp_body r = NotJson msg ->
        run = (Ok (Message (CROSS ++ py " Error searching books: " ++ msg)), s1))
  /\ new_requests s s1 = [q].
Proof.
  intros Hvalid q answer run s1.
  assert (Hrun : run =
    try_except
      (_rate_limit ;;
       response <- send w q ;;
       if negb (status_code response =? 200)%Z then
         ret (Message (CROSS ++ py " Open Library API Error: Status code "
                             ++ str_of_Z (status_code response)))
       else
         data <- response_json response ;;
         books <- collect w false (normalize_genre genre) (resp_url response)
                          limit (from_option (j_docs data) []) [] ;;
         if truthy_list books then ret (Books books)
         else
           books <-
             match alternative_genres (normalize_genre genre) with
             | Some alternative =>
                 response <- send w (search_request alternative limit) ;;
                 if (status_code response =? 200)%Z then
                   data <- response_json response ;;
                   collect w true (normalize_genre genre) (resp_url response)
                           limit (from_option (j_docs data) []) books
                 else ret books
             | None => ret books
             end ;;
           ret (if truthy_list books then Books books
                else Message (no_books_msg (normalize_genre genre))))
      (fun e =>
         if is_Timeout e then ret (Message timeout_msg)
         else ret (Message (CROSS ++ py " Error searching books: " ++ exn_str e)))
      s).
  { unfold run, search_books_by_genre.
    rewrite Hvalid, (strip_truthy _ Hvalid). reflexivity. }
  rewrite Hrun. clear Hrun.
  unfold try_except, bind. rewrite _rate_limit_run. unfold send.
  change (List.length (log (rate_limited s))) with (List.length (log s)).
  fold q answer s1.
  split; [| split; [| split; [| split]]].
  - intros r -> Hst. apply Z.eqb_neq in Hst. now rewrite Hst.
  - intros e -> He. now rewrite He.
  - intros e -> He. now rewrite He.
  - intros r msg -> Hst Hb. apply Z.eqb_eq in Hst. rewrite Hst. cbn [negb].
    unfold response_json. rewrite Hb. reflexivity.
  - apply new_requests_search.
Qed.

Lemma search_primary_failure_witness :
  search_books_by_genre offline (py "sci-fi") 20 start
  = (Ok (Message (CROSS ++ py " Error searching books: connection refused")),
     sent offline (search_request (py "sci-fi") 20) (rate_limited start)).
Proof.
  pose proof (@search_primary_failure offline (py "sci-fi") 20 start eq_refl)
    as H.
  cbv zeta in H. destruct H as [_ [_ [H _]]].
  exact (H refused eq_refl eq_refl).
Defined.

(** X8. When the primary answer holds no valid record and the retry under
    the alias fails with an exception, the user is told of that failure, not
    that no books were found: a timeout gives the "Request timed out" text,
    any other exception and an undecodable body give "Error searching books:"
    followed by the message. *)
Theorem search_retry_failure
        (w : world) (genre : str) (limit : Z) (s : state)
        (url alternative : str) (docs : list Doc.t) :
  truthy_str (strip genre) = true ->
  let g := normalize_genre genre in
  let q := search_request g limit in
  let q' := search_request alternative limit in
  let retry := net w (S (List.length (log s))) q' in
  let run := search_books_by_genre w genre limit s in
  served (net w (List.length (log s)) q) = Some (url, docs) ->
  filter accepted docs = [] ->
  alternative_genres g = Some alternative ->
  let s2 := sent w q' (sent w q (rate_limited s)) in
  (forall e, retry = Fails e -> is_Timeout e = true ->
     run = (Ok (Message timeout_msg), s2))
  /\ (forall e, retry = Fails e -> is_Timeout e = false ->
        run = (Ok (Message (CROSS ++ py " Error searching books: "
                                   ++ exn_str e)), s2))
  /\ (forall r msg, retry = Responds r -> status_code r = 200%Z ->
        resp_body r = NotJson msg ->
        run = (Ok (Message (CROSS ++ py " Error searching books: " ++ msg)),
               s2))
  /\ new_requests s s2 = [q; q'].
Proof.
  intros Hvalid g q q' retry run Hserved Hnone Halt s2.
  destruct (@search_retry_raises w genre limit s url alternative docs
              Hvalid Hserved Hnone Halt) as [H1 [H2 [H3 [_ H5]]]].
  split; [exact H1 |]. split; [exact H2 |]. split; [exact H3 | exact H5].
Qed.

Lemma search_retry_failure_witness :
  let w := flaky (reply (py "https://openlibrary.org/search.json")
                        (json_of (Some []) DescAbsent None))
                 connect_timeout in
  search_books_by_genre w (py "sci-fi") 20 start
  = (Ok (Message timeout_msg),
     sent w (search_request (py "science fiction") 20)
          (sent w (search_request (py "sci-fi") 20) (rate_limited start))).
Proof.
  cbv zeta.
  pose proof (@search_retry_failure
                (flaky (reply (py "https://openlibrary.org/search.json")
                              (json_of (Some []) DescAbsent None))
                       connect_timeout)
                (py "sci-fi") 20 start
                (py "https://openlibrary.org/search.json")
                (py "science fiction") [] eq_refl eq_refl eq_refl eq_refl) as H.
  cbv zeta in H. destruct H as [H _].
  exact (H connect_timeout eq_refl eq_refl).
Defined.

Lemma after_first_space_label label rest :
  Forall (fun c => is_space c = false) label ->
  after_first_space (label ++ SP :: rest) = rest
  /\ has_space (label ++ SP :: rest) = true.
Proof.
  induction 1 as [| c l Hc _ IH]; cbn [app after_first_space has_space existsb].
  - now rewrite N.eqb_refl.
  - assert (Hn : (c =? SP)%N = false).
    { destruct (N.eqb_spec c SP) as [-> | ]; [discriminate | reflexivity]. }
    rewrite Hn. cbn [orb]. exact IH.
Qed.

Lemma has_space_false g :
  Forall (fun c => is_space c = false) g -> has_space g = false.
Proof.
  induction 1 as [| c l Hc _ IH]; [reflexivity |].
  cbn [has_space existsb].
  destruct (N.eqb_spec c SP) as [-> | ]; [discriminate | exact IH].
Qed.

(** X9. Normalising the genre. When the text from the caller is a first
    word, a space and a rest that does not end with whitespace, the first
    word is dropped, whatever it is, and the rest is searched in lower case:
    the emoji of a dropdown entry goes, and so does the first word of a
    genre given without emoji. A genre without whitespace is searched in
    lower case as it is. The text that is put in lower case is taken to be
    ASCII, where [lower] is [str.lower]. *)
Theorem normalize_genre_drops_first_word (label rest : str) (last : char) :
  label <> [] ->
  Forall (fun c => is_space c = false) label ->
  is_space last = false ->
  is_ascii (rest ++ [last]) = true ->
  normalize_genre (label ++ SP :: rest ++ [last]) = lower (rest ++ [last])
  /\ (is_ascii label = true -> normalize_genre label = lower label).
Proof.
  intros Hne Hlabel Hlast _.
  assert (Hstrip : forall tail,
             (forall r c, label ++ tail = r ++ [c] -> is_space c = false) ->
             strip (label ++ tail) = label ++ tail).
  { intros tail Hend. apply strip_fixed; [| exact Hend].
    intros c r Heq. destruct label as [| x l]; [congruence |].
    injection Heq as <- _. now inversion Hlabel. }
  split.
  - unfold normalize_genre. rewrite Hstrip.
    + destruct (after_first_space_label (rest ++ [last]) Hlabel) as [-> ->].
      reflexivity.
    + intros r c Heq.
      change (label ++ SP :: rest ++ [last])
        with (label ++ (SP :: rest) ++ [last]) in Heq.
      rewrite app_assoc in Heq. apply app_inj_tail in Heq.
      destruct Heq as [_ <-]. exact Hlast.
  - intros _. unfold normalize_genre.
    assert (Hl : strip label = label).
    { specialize (Hstrip []). rewrite app_nil_r in Hstrip. apply Hstrip.
      intros r c Heq. rewrite Heq in Hlabel. apply Forall_app in Hlabel.
      destruct Hlabel as [_ Hc]. now inversion Hc. }
    rewrite Hl. now rewrite (has_space_false Hlabel).
Qed.

Lemma normalize_genre_drops_first_word_witness :
  normalize_genre (py "science fiction") = py "fiction"
  /\ normalize_genre (py "science") = py "science".
Proof.
  destruct (@normalize_genre_drops_first_word (py "science") (py "fictio")
              110%N ltac:(discriminate) ltac:(repeat constructor)
              eq_refl eq_refl) as [H1 H2].
  split; [exact H1 | exact (H2 eq_refl)].
Defined.

(** X10. [_rate_limit] never raises and leaves the log alone. With no recorded
    instant, or with the recorded instant [0.0], it does not wait. With a
    recorded instant [t] it waits until [t + 1] when less than a second has
    passed, and does not wait otherwise. In every case it records the
    instant at which it returns. *)
Theorem rate_limit_waits (s : state) :
  exists s',
    _rate_limit s = (Ok tt, s')
    /\ log s' = log s
    /\ last_request_time s' = Some (clock s')
    /\ (last_request_time s = None -> clock s' = clock s)
    /\ (forall t, last_request_time s = Some t ->
          (t == 0 -> clock s' = clock s)
          /\ (~ t == 0 -> clock s - t < min_request_interval ->
              clock s' == t + min_request_interval)
          /\ (~ t == 0 -> min_request_interval <= clock s - t ->
              clock s' = clock s)).
Proof.
  exists (rate_limited s). split; [apply _rate_limit_run |].
  unfold rate_limited. cbn [log last_request_time clock].
  split; [reflexivity |]. split; [reflexivity |].
  split; [intros ->; reflexivity |].
  intros t ->. cbn [truthy_time from_option].
  destruct (Qeq_bool t 0) eqn:E; cbn [negb].
  - apply Qeq_bool_iff in E.
    split; [reflexivity |]. split; intros Hn; contradiction.
  - assert (Hn : ~ t == 0).
    { intros Hz. apply Qeq_bool_iff in Hz. congruence. }
    split; [intros Hz; contradiction |].
    destruct (Qlt_le_dec (clock s - t) min_request_interval) as [Hlt | Hge].
    + split; [intros _ _; unfold min_request_interval; lra |].
      intros _ Hle. lra.
    + split; [intros _ Hlt; lra | reflexivity].
Qed.

Lemma rate_limit_waits_witness :
  exists s',
    _rate_limit recent = (Ok tt, s')
    /\ clock s' == 1714559400 + min_request_interval
    /\ last_request_time s' = Some (clock s').
Proof.
  destruct (rate_limit_waits recent) as [s' [Hrun [_ [Hlast [_ H]]]]].
  destruct (H 1714559400 eq_refl) as [_ [Hwait _]].
  exists s'. split; [exact Hrun |]. split; [| exact Hlast].
  apply Hwait; [intros Hz; discriminate | reflexivity].
Defined.

(** The state a search of a genre that is not blank ends in: the primary
    request is in the log at the instant the limiter recorded, and the
    recorded instant is still there. *)
Lemma search_state w genre limit s :
  truthy_str (strip genre) = true ->
  let t := clock (rate_limited s) in
  let s' := snd (search_books_by_genre w genre limit s) in
  (exists l, log s'
             = log s ++ (t, search_request (normalize_genre genre) limit) :: l)
  /\ last_request_time s' = Some t.
Proof.
  intros Hvalid t s'.
  pose proof (search_run w genre limit s Hvalid) as H. cbv zeta in H.
  set (q := search_request (normalize_genre genre) limit) in *.
  set (s1 := sent w q (rate_limited s)) in *.
  assert (H1 : (exists l, log s1 = log s ++ (t, q) :: l)
               /\ last_request_time s1 = Some t).
  { split; [exists []; reflexivity | reflexivity]. }
  assert (Hgrow : forall x y,
             ((exists l, log x = log s ++ (t, q) :: l)
              /\ last_request_time x = Some t) ->
             extends x y -> last_request_time y = last_request_time x ->
             (exists l, log y = log s ++ (t, q) :: l)
             /\ last_request_time y = Some t).
  { intros x y [[l Hl] Hlast] [l' Hext] Hsame. split; [| congruence].
    exists (l ++ l'). rewrite Hext, Hl, <- app_assoc. reflexivity. }
  assert (H2 : forall q',
             (exists l, log (sent w q' s1) = log s ++ (t, q) :: l)
             /\ last_request_time (sent w q' s1) = Some t).
  { intros q'. apply (Hgrow s1); [exact H1 | apply extends_sent | reflexivity]. }
  unfold s'. clear s'.
  destruct (served _) as [[url docs] |].
  2:{ destruct H as [m ->]. exact H1. }
  destruct (taken limit 0 docs).
  2:{ destruct H as [bs [s' [-> [_ [Hext [_ Hlast]]]]]].
      exact (Hgrow _ _ H1 Hext Hlast). }
  destruct (alternative_genres _) as [alternative |]; [| rewrite H; exact H1].
  destruct (net w _ _) as [r | e].
  2:{ destruct H as [m ->]. apply H2. }
  destruct (status_code r =? 200)%Z; [| rewrite H; apply H2].
  destruct (resp_body r).
  2:{ destruct H as [m ->]. apply H2. }
  2:{ destruct H as [m ->]. apply H2. }
  destruct (taken limit 0 _); [rewrite H; apply H2 |].
  destruct H as [bs [s' [-> [_ [Hext [_ Hlast]]]]]].
  exact (Hgrow _ _ (H2 _) Hext Hlast).
Qed.

Lemma nth_error_middle {A} (l : list A) x l' :
  nth_error (l ++ x :: l') (List.length l) = Some x.
Proof.
  induction l as [| a l IH]; [reflexivity | exact IH].
Qed.

(** X11. Two searches in a row, of genres that are not blank: the primary
    request of the second leaves at least [min_request_interval] after the
    primary request of the first, however fast the service answers, provided
    the clock did not read 0 at the first. *)
Theorem consecutive_searches_spaced
        (w : world) (genre1 genre2 : str) (limit1 limit2 : Z) (s : state) :
  truthy_str (strip genre1) = true ->
  truthy_str (strip genre2) = true ->
  let s1 := snd (search_books_by_genre w genre1 limit1 s) in
  let s2 := snd (search_books_by_genre w genre2 limit2 s1) in
  exists t1 t2,
    nth_error (log s1) (List.length (log s))
    = Some (t1, search_request (normalize_genre genre1) limit1)
    /\ nth_error (log s2) (List.length (log s1))
       = Some (t2, search_request (normalize_genre genre2) limit2)
    /\ (~ t1 == 0 -> t1 + min_request_interval <= t2).
Proof.
  intros H1 H2 s1 s2.
  destruct (search_state w genre1 limit1 s H1) as [[l1 Hl1] Hlast1].
  destruct (search_state w genre2 limit2 s1 H2) as [[l2 Hl2] _].
  fold s1 in Hl1, Hlast1, Hl2. fold s2 in Hl2.
  exists (clock (rate_limited s)), (clock (rate_limited s1)).
  split; [rewrite Hl1; apply nth_error_middle |].
  split; [rewrite Hl2; apply nth_error_middle |].
  intros Hz. exact (_rate_limit_gap s1 Hlast1 Hz).
Qed.

Lemma consecutive_searches_spaced_witness :
  let s1 := snd (search_books_by_genre sample_world (py "sci-fi") 20 start) in
  let s2 := snd (search_books_by_genre sample_world (py "fantasy") 5 s1) in
  exists t1 t2,
    nth_error (log s1) 0 = Some (t1, search_request (py "sci-fi") 20)
    /\ nth_error (log s2) (List.length (log s1))
       = Some (t2, search_request (py "fantasy") 5)
    /\ t1 + min_request_interval <= t2.
Proof.
  cbv zeta.
  destruct (@consecutive_searches_spaced sample_world (py "sci-fi")
              (py "fantasy") 20 5 start eq_refl eq_refl)
    as [t1 [t2 [Ha [Hb Hc]]]].
  exists t1, t2. split; [exact Ha |]. split; [exact Hb |].
  apply Hc. vm_compute in Ha. injection Ha as <-. intros Hz. discriminate.
Defined.

(** *** More on the probe and the analysis *)

Lemma build_prompt_run book a rest analysis_type s :
  authors book = a :: rest ->
  build_prompt book analysis_type s = (Ok (prompt_text book a analysis_type), s).
Proof.
  intros Ha. unfold build_prompt, bind, first_author. rewrite Ha. reflexivity.
Qed.

(** A symbolic run of [analyze_book_with_ollama] on a book. *)
Lemma analyze_run w book analysis_type s :
  let n := List.length (log s) in
  let s1 := sent w (probe_request w) s in
  let run := analyze_book_with_ollama w (Some book) analysis_type s in
  match probe_of (net w n (probe_request w)) with
  | (false, status) => run = (Ok (remediation_msg status), s1)
  | (true, _) =>
      match authors book with
      | [] => run = (Raise index_error, s1)
      | a :: _ =>
          let q := generation_request w (prompt_text book a analysis_type) in
          let s2 := sent w q s1 in
          run = (Ok (analysis_of w book (strftime w (clock s2)) (net w (S n) q)),
                 s2)
      end
  end.
Proof.
  intros n s1 run. unfold run, analyze_book_with_ollama, bind.
  rewrite check_ollama_availability_run. fold n s1.
  destruct (probe_of (net w n (probe_request w))) as [[|] status];
    cbn [negb]; [| reflexivity].
  destruct (authors book) as [| a rest] eqn:Ha.
  - unfold build_prompt, bind, first_author. rewrite Ha. reflexivity.
  - rewrite (build_prompt_run book analysis_type s1 Ha). cbv zeta.
    unfold try_except, bind, send.
    assert (Hlen : List.length (log s1) = S n).
    { unfold s1, sent; cbn [log]. rewrite length_app. simpl. lia. }
    rewrite Hlen. unfold analysis_of.
    destruct (net w (S n) _) as [r | e].
    + destruct (status_code r =? 200)%Z; [| reflexivity].
      unfold response_json. destruct (resp_body r) as [result | msg | v];
        [| reflexivity ..].
      unfold ret. cbv zeta.
      destruct (truthy_str _ && _); reflexivity.
    + destruct (is_Timeout e); [reflexivity |].
      destruct (is_ConnectionError e); reflexivity.
Qed.

Lemma starts_with_spec prefix : forall s,
  starts_with prefix s = true <-> exists post, s = prefix ++ post.
Proof.
  induction prefix as [| a prefix IH]; intros s; cbn [starts_with app].
  - split; [intros _; now exists s | reflexivity].
  - destruct s as [| b s].
    + split; [discriminate | intros [post H]; discriminate].
    + rewrite andb_true_iff, N.eqb_eq, IH. split.
      * intros [-> [post ->]]. now exists post.
      * intros [post H]. injection H as -> ->. split; [reflexivity |].
        now exists post.
Qed.

(** The test [contains] decides [substr]. *)
Lemma contains_substr needle hay :
  contains needle hay = true <-> substr needle hay.
Proof.
  unfold substr. induction hay as [| c r IH]; cbn [contains].
  - rewrite orb_false_r, starts_with_spec. split.
    + intros [post H]. now exists [], post.
    + intros [pre [post H]]. destruct pre; [| discriminate].
      now exists post.
  - rewrite orb_true_iff, starts_with_spec, IH. split.
    + intros [[post H] | [pre [post H]]].
      * now exists [], post.
      * exists (c :: pre), post. cbn [app]. now rewrite H.
    + intros [[| x pre] [post H]].
      * left. now exists post.
      * right. injection H as _ H. now exists pre, post.
Qed.

Lemma is_element_In k items :
  is_element k items = true <-> In (Some k) items.
Proof.
  unfold is_element. rewrite existsb_exists. split.
  - intros [[t |] [Hin Ht]]; [| discriminate].
    apply str_eqb_eq in Ht. now subst.
  - intros Hin. exists (Some k). split; [exact Hin |]. now apply str_eqb_eq.
Qed.

(** X12. On a standard output that accepts the address, the model name and
    the report, the probe never raises and issues exactly one request. It
    reports the server available exactly when the answer has status 200 and
    ["response" in result] holds of its decoded body: an object with the key
    [response], an array with the element ["response"], or a text that
    contains it. *)
Theorem probe_available_iff (w : world) (s : state) :
  let answer := net w (List.length (log s)) (probe_request w) in
  printable (ollama_url w) = true ->
  printable (model w) = true ->
  printable (snd (probe_of answer)) = true ->
  exists available status,
    check_ollama_availability w s
    = (Ok (available, status), sent w (probe_request w) s)
    /\ new_requests s (sent w (probe_request w) s) = [probe_request w]
    /\ (available = true <->
        exists r,
          answer = Responds r
          /\ status_code r = 200%Z
          /\ ((exists data text,
                 resp_body r = Json data /\ j_response data = Some text)
              \/ (exists items,
                    resp_body r = JsonValue (JList items)
                    /\ In (Some (py "response")) items)
              \/ (exists t,
                    resp_body r = JsonValue (JStr t)
                    /\ substr (py "response") t))).
Proof.
  intros answer _ _ _. unfold answer. clear answer.
  rewrite check_ollama_availability_run.
  destruct (probe_of _) as [available status] eqn:E.
  exists available, status.
  split; [reflexivity |]. split; [apply new_requests_sent |].
  unfold probe_of in E. cbv zeta in E.
  destruct (net w _ _) as [r | e].
  2:{ assert (Ha : available = false).
      { destruct (is_ConnectionError e); [| destruct (is_Timeout e)];
          now injection E as <- _. }
      rewrite Ha. split; [discriminate |]. intros [r' [Hn _]]. discriminate. }
  destruct (status_code r =? 200)%Z eqn:Hst.
  2:{ injection E as <- _. split; [discriminate |].
      intros [r' [Hn [Hs _]]]. injection Hn as <-.
      apply Z.eqb_neq in Hst. contradiction. }
  apply Z.eqb_eq in Hst.
  assert (Hyes : forall found : bool,
             (if found then (true, py "Ollama is available and responding")
              else (false, py "Ollama responded but format unexpected"))
             = (available, status) -> available = found).
  { intros [|] H; now injection H as <- _. }
  split.
  - intros ->. exists r. split; [reflexivity |]. split; [exact Hst |].
    destruct (resp_body r) as [data | msg | [items | t | | | |]];
      try (injection E as E _; discriminate).
    + left. apply Hyes in E.
      destruct (j_response data) as [text |] eqn:Hr; [| discriminate].
      now exists data, text.
    + right; left. apply Hyes in E. symmetry in E.
      apply is_element_In in E. now exists items.
    + right; right. apply Hyes in E. symmetry in E.
      apply contains_substr in E. now exists t.
  - intros [r' [Hn [_ Hcase]]]. injection Hn as <-.
    destruct Hcase as [[data [text [Hb Hr]]] | [[items [Hb Hin]] | [t [Hb Hsub]]]];
      rewrite Hb in E; apply Hyes in E; rewrite E.
    + now rewrite Hr.
    + now apply is_element_In.
    + now apply contains_substr.
Qed.

Lemma probe_available_iff_witness :
  exists status,
    check_ollama_availability listing_world start
    = (Ok (true, status), sent listing_world (probe_request listing_world) start).
Proof.
  destruct (probe_available_iff listing_world start eq_refl eq_refl eq_refl)
    as [available [status [Hrun [_ Hiff]]]].
  assert (Ha : available = true).
  { apply Hiff. eexists. split; [reflexivity |]. split; [reflexivity |].
    right; left. eexists. split; [reflexivity |]. right. left. reflexivity. }
  subst available. exists status. exact Hrun.
Defined.

(** X13. The same exception is named differently by the two requests: a
    connect timeout makes the probe say that the server is not running
    (connection refused), and makes the generation request say that the
    analysis timed out after 120 seconds. The handlers test the two classes
    in opposite orders. *)
Theorem connect_timeout_two_names
        (w : world) (book : book_info) (analysis_type a : str)
        (rest : list str) (s : state) (e : exn) :
  exn_is e = ConnectTimeout ->
  authors book = a :: rest ->
  let n := List.length (log s) in
  (net w n (probe_request w) = Fails e ->
   fst (check_ollama_availability w s)
   = Ok (false, py "Ollama server not running (connection refused)"))
  /\ (fst (probe_of (net w n (probe_request w))) = true ->
      net w (S n) (generation_request w (prompt_text book a analysis_type))
      = Fails e ->
      fst (analyze_book_with_ollama w (Some book) analysis_type s)
      = Ok (CROSS ++ py " Error: Analysis timed out after 120 seconds. Please try again.")).
Proof.
  intros He Ha n. split.
  - intros Hn. rewrite check_ollama_availability_run. fold n. rewrite Hn.
    unfold probe_of, is_ConnectionError. rewrite He. reflexivity.
  - intros Hp Hn.
    pose proof (analyze_run w book analysis_type s) as H. cbv zeta in H.
    fold n in H. destruct (probe_of _) as [[|] status]; [| discriminate].
    rewrite Ha in H. rewrite Hn in H. rewrite H. cbn [fst].
    unfold analysis_of, is_Timeout. rewrite He. reflexivity.
Qed.

Lemma connect_timeout_two_names_witness :
  fst (check_ollama_availability (flaky (Fails connect_timeout) connect_timeout)
                                 start)
  = Ok (false, py "Ollama server not running (connection refused)")
  /\ fst (analyze_book_with_ollama (flaky (generated "Hi") connect_timeout)
                                   (Some dune) (py "summary") start)
     = Ok (CROSS ++ py " Error: Analysis timed out after 120 seconds. Please try again.").
Proof.
  split.
  - exact (proj1 (@connect_timeout_two_names
                    (flaky (Fails connect_timeout) connect_timeout) dune
                    (py "summary") (py "Frank Herbert") [] start
                    connect_timeout eq_refl eq_refl) eq_refl).
  - exact (proj2 (@connect_timeout_two_names
                    (flaky (generated "Hi") connect_timeout) dune
                    (py "summary") (py "Frank Herbert") [] start
                    connect_timeout eq_refl eq_refl) eq_refl eq_refl).
Defined.

(** X14. The prompts are built outside the [try] block: for a book without
    authors, once the probe has succeeded, [analyze_book_with_ollama] raises
    [IndexError], and [perform_analysis] lets it through. The probe is the
    only request issued. *)
Theorem analyze_without_author_raises
        (w : world) (book : book_info) (analysis_type : str) (s : state) :
  authors book = [] ->
  fst (probe_of (net w (List.length (log s)) (probe_request w))) = true ->
  analyze_book_with_ollama w (Some book) analysis_type s
  = (Raise index_error, sent w (probe_request w) s)
  /\ perform_analysis w (Some book) analysis_type s
     = (Raise index_error, sent w (probe_request w) s).
Proof.
  intros Ha Hp.
  pose proof (analyze_run w book analysis_type s) as H. cbv zeta in H.
  destruct (probe_of _) as [[|] status]; [| discriminate].
  rewrite Ha in H. split; exact H.
Qed.

Lemma analyze_without_author_raises_witness :
  analyze_book_with_ollama sample_world (Some anonymous) (py "summary") start
  = (Raise index_error, sent sample_world (probe_request sample_world) start).
Proof.
  exact (proj1 (@analyze_without_author_raises sample_world anonymous
                  (py "summary") start eq_refl eq_refl)).
Defined.

(** X15. Take a standard output in UTF-8, and a title, an address, a model
    name and a probe report that it accepts: they are what the [print] calls
    of lines 300, 44 and 74 write outside a [try] or inside a handler, and
    [print] raises [UnicodeEncodeError] on a surrogate code point. Then, for
    a book with at least one author, [analyze_book_with_ollama] never
    raises: every failure of the server comes back as a text. It issues the
    probe, and after it at most one request, the generation request, which
    leaves only when the probe has reported the server available. *)
Theorem analyze_never_raises_with_author
        (w : world) (book : book_info) (analysis_type : str) (s : state) :
  authors book <> [] ->
  let probe := probe_of (net w (List.length (log s)) (probe_request w)) in
  printable (title book) = true ->
  printable (ollama_url w) = true ->
  printable (model w) = true ->
  printable (snd probe) = true ->
  exists text s',
    analyze_book_with_ollama w (Some book) analysis_type s = (Ok text, s')
    /\ (fst probe = false -> new_requests s s' = [probe_request w])
    /\ (fst probe = true ->
        exists prompt,
          new_requests s s' = [probe_request w; generation_request w prompt]).
Proof.
  intros Ha probe _ _ _ _.
  pose proof (analyze_run w book analysis_type s) as H. cbv zeta in H.
  fold probe in H.
  pose proof (new_requests_sent w (probe_request w) s) as Hq.
  pose proof (extends_sent w (probe_request w) s) as Hext.
  destruct probe as [[|] status].
  - destruct (authors book) as [| a rest]; [congruence |].
    do 2 eexists. split; [exact H |]. split; [discriminate |].
    intros _. eexists.
    rewrite (new_requests_trans Hext (extends_sent w _ _)), Hq,
      new_requests_sent. reflexivity.
  - do 2 eexists. split; [exact H |]. split; [intros _; exact Hq | discriminate].
Qed.

Lemma analyze_never_raises_with_author_witness :
  exists text s',
    analyze_book_with_ollama sample_world (Some dune) (py "summary") start
    = (Ok text, s')
    /\ exists prompt,
         new_requests start s'
         = [probe_request sample_world; generation_request sample_world prompt].
Proof.
  destruct (@analyze_never_raises_with_author sample_world dune (py "summary")
              start ltac:(discriminate) eq_refl eq_refl eq_refl eq_refl)
    as [text [s' [Hrun [_ Hreq]]]].
  exists text, s'. split; [exact Hrun | exact (Hreq eq_refl)].
Defined.

Lemma str_eqb_neq a b : a <> b -> str_eqb a b = false.
Proof.
  intros H. unfold str_eqb. destruct (list_eq_dec N.eq_dec a b); congruence.
Qed.

(** X16. A kind of analysis that is none of the four known ones gets the
    summary: the run is the run for ["summary"], request for request. *)
Theorem unknown_analysis_is_summary
        (w : world) (book : option book_info) (analysis_type : str) (s : state) :
  analysis_type <> py "summary" ->
  analysis_type <> py "discussion" ->
  analysis_type <> py "reading_guide" ->
  analysis_type <> py "recommendation" ->
  analyze_book_with_ollama w book analysis_type s
  = analyze_book_with_ollama w book (py "summary") s.
Proof.
  intros H1 H2 H3 H4.
  assert (Hp : forall b st,
             build_prompt b analysis_type st = build_prompt b (py "summary") st).
  { intros b st. unfold build_prompt, bind.
    destruct (first_author b st) as [[a | e] st']; [| reflexivity].
    cbv zeta. cbn [lookup].
    rewrite (str_eqb_neq H1), (str_eqb_neq H2), (str_eqb_neq H3),
      (str_eqb_neq H4).
    reflexivity. }
  destruct book as [book |]; [| reflexivity].
  unfold analyze_book_with_ollama, bind.
  destruct (check_ollama_availability w s) as [[[available status] | e] s1];
    [| reflexivity].
  destruct (negb available); [reflexivity |].
  now rewrite Hp.
Qed.

Lemma unknown_analysis_is_summary_witness :
  analyze_book_with_ollama sample_world (Some dune) (py "review") start
  = analyze_book_with_ollama sample_world (Some dune) (py "summary") start.
Proof.
  apply (@unknown_analysis_is_summary sample_world (Some dune) (py "review")
           start); discriminate.
Defined.

(** X17. A generation answer with status 200 whose body has no [response]
    key is not reported as an error: the result is the text "No analysis
    generated" followed by the footer. *)
Theorem analyze_missing_response
        (w : world) (book : book_info) (analysis_type a : str)
        (rest : list str) (s : state) (r : response) (result : json_object) :
  authors book = a :: rest ->
  let n := List.length (log s) in
  let q := generation_request w (prompt_text book a analysis_type) in
  let s2 := sent w q (sent w (probe_request w) s) in
  fst (probe_of (net w n (probe_request w))) = true ->
  net w (S n) q = Responds r ->
  status_code r = 200%Z ->
  resp_body r = Json result ->
  j_response result = None ->
  analyze_book_with_ollama w (Some book) analysis_type s
  = (Ok (py "No analysis generated" ++ footer w (strftime w (clock s2)) book),
     s2).
Proof.
  intros Ha n q s2 Hp Hn Hst Hb Hr.
  pose proof (analyze_run w book analysis_type s) as H. cbv zeta in H.
  fold n in H. destruct (probe_of _) as [[|] status]; [| discriminate].
  rewrite Ha in H. fold q s2 in H. rewrite Hn in H. rewrite H.
  unfold analysis_of. apply Z.eqb_eq in Hst. rewrite Hst, Hb, Hr.
  reflexivity.
Qed.

Lemma analyze_missing_response_witness :
  fst (analyze_book_with_ollama silent_world (Some dune) (py "summary") start)
  = Ok (py "No analysis generated"
           ++ footer silent_world (py "2024-05-01 10:30") dune).
Proof.
  rewrite (@analyze_missing_response silent_world dune (py "summary")
             (py "Frank Herbert") [] start _ _
             eq_refl eq_refl eq_refl eq_refl eq_refl eq_refl).
  reflexivity.
Defined.

(** X18. How the failures of the generation request are told apart, for a
    book with an author and after a successful probe: a status other than
    200 names the status code; a timeout names the 120 seconds; a connection
    error that is no timeout says that Ollama cannot be reached; any other
    exception, and an undecodable body, give "Error during analysis:"
    followed by the message. *)
Theorem analyze_failures
        (w : world) (book : book_info) (analysis_type a : str)
        (rest : list str) (s : state) :
  authors book = a :: rest ->
  let n := List.length (log s) in
  let q := generation_request w (prompt_text book a analysis_type) in
  let answer := net w (S n) q in
  let text := fst (analyze_book_with_ollama w (Some book) analysis_type s) in
  fst (probe_of (net w n (probe_request w))) = true ->
  (forall r, answer = Responds r -> status_code r <> 200%Z ->
     text = Ok (CROSS ++ py " Error: Ollama returned status code "
                      ++ str_of_Z (status_code r)))
  /\ (forall e, answer = Fails e -> is_Timeout e = true ->
        text = Ok (CROSS ++ py " Error: Analysis timed out after 120 seconds. Please try again."))
  /\ (forall e, answer = Fails e -> exn_is e = ConnectionError ->
        text = Ok (CROSS ++ py " Error: Cannot connect to Ollama. Please ensure Ollama is running."))
  /\ (forall e, answer = Fails e -> exn_is e = OtherException ->
        text = Ok (CROSS ++ py " Error during analysis: " ++ exn_str e))
  /\ (forall r msg, answer = Responds r -> status_code r = 200%Z ->
        resp_body r = NotJson msg ->
        text = Ok (CROSS ++ py " Error during analysis: " ++ msg)).
Proof.
  intros Ha n q answer text Hp.
  pose proof (analyze_run w book analysis_type s) as H. cbv zeta in H.
  fold n in H. destruct (probe_of _) as [[|] status]; [| discriminate].
  rewrite Ha in H. fold q answer in H.
  unfold text. rewrite H. cbn [fst]. unfold analysis_of.
  split; [| split; [| split; [| split]]].
  - intros r -> Hst. apply Z.eqb_neq in Hst. now rewrite Hst.
  - intros e -> He. now rewrite He.
  - intros e -> He. unfold is_Timeout, is_ConnectionError. now rewrite He.
  - intros e -> He. unfold is_Timeout, is_ConnectionError. now rewrite He.
  - intros r msg -> Hst Hb. apply Z.eqb_eq in Hst. now rewrite Hst, Hb.
Qed.

Lemma analyze_failures_witness :
  fst (analyze_book_with_ollama (flaky (generated "Hi") refused) (Some dune)
                                (py "summary") start)
  = Ok (CROSS ++ py " Error: Cannot connect to Ollama. Please ensure Ollama is running.").
Proof.
  pose proof (@analyze_failures (flaky (generated "Hi") refused) dune
                (py "summary") (py "Frank Herbert") [] start eq_refl eq_refl)
    as H.
  cbv zeta in H. destruct H as [_ [_ [H _]]].
  exact (H refused eq_refl eq_refl).
Defined.

(** *** The functions of the interface *)

Lemma format_book_cases T output i b :
  (publisher b = [] -> format_book T output i b = Raise index_error)
  /\ (publisher b <> [] -> exists text, format_book T output i b = Ok text).
Proof.
  unfold format_book. destruct (publisher b) as [| p0 ps].
  - split; [reflexivity | congruence].
  - split; [discriminate | intros _; eexists; reflexivity].
Qed.

Lemma format_books_cases T bs : forall output i,
  (Exists (fun b => publisher b = []) bs ->
   format_books T output i bs = Raise index_error)
  /\ (Forall (fun b => publisher b <> []) bs ->
      exists text, format_books T output i bs = Ok text).
Proof.
  induction bs as [| b bs IH]; intros output i; cbn [format_books].
  - split; [intros H; inversion H | intros _; eexists; reflexivity].
  - destruct (format_book_cases T output i b) as [Hbad Hgood].
    split.
    + intros H. destruct (publisher b) as [| p0 ps] eqn:Hp.
      * now rewrite (Hbad eq_refl).
      * destruct Hgood as [text ->]; [discriminate |].
        apply IH. inversion H as [? ? H0 | ? ? H0]; subst;
          [congruence | exact H0].
    + intros H. inversion H as [| ? ? Hb Hbs]; subst.
      destruct (Hgood Hb) as [text ->]. now apply IH.
Qed.

(** X19. [format_books_display] hands a text from the search through as it
    is. For a list of books it raises [IndexError] as soon as one book has
    an empty list of publishers (line 263 reads its first element), and
    returns a text otherwise, with whatever title-casing and float
    formatting the library provides. *)
Theorem format_books_display_raises
        (str_title : str -> str) (format_1f : Q -> str) (genre : str) :
  (forall m, format_books_display str_title format_1f (Message m) genre = Ok m)
  /\ (forall bs,
        Exists (fun b => publisher b = []) bs ->
        format_books_display str_title format_1f (Books bs) genre
        = Raise index_error)
  /\ (forall bs,
        Forall (fun b => publisher b <> []) bs ->
        exists text,
          format_books_display str_title format_1f (Books bs) genre = Ok text).
Proof.
  split; [reflexivity |]. split.
  - intros bs H. unfold format_books_display.
    destruct bs as [| b bs]; [inversion H |]. cbn [truthy_list negb].
    now apply format_books_cases.
  - intros bs H. unfold format_books_display.
    destruct bs as [| b bs]; [eexists; reflexivity |]. cbn [truthy_list negb].
    now apply format_books_cases.
Qed.

Lemma format_books_display_raises_witness :
  format_books_display sample_title sample_1f (Books [dune; nightfall])
                       (py "sci-fi")
  = Raise index_error
  /\ exists text,
       format_books_display sample_title sample_1f (Books [dune; anonymous])
                            (py "sci-fi") = Ok text.
Proof.
  destruct (format_books_display_raises sample_title sample_1f (py "sci-fi"))
    as [_ [Hbad Hgood]].
  split.
  - apply Hbad. right. left. reflexivity.
  - apply Hgood. repeat constructor; discriminate.
Defined.

Lemma book_choices_length bs : forall i,
  List.length (book_choices i bs) = List.length bs.
Proof.
  induction bs as [| b bs IH]; intros i; [reflexivity |].
  cbn [book_choices List.length]. now rewrite IH.
Qed.

(** X20. What [search_and_update] hands to the interface. A text from the
    search becomes the display, with no choice, no book and the status
    "Search failed:" followed by the text. A list of books in which every
    book has a publisher entry gives as many choices as books, the books
    themselves as state and no selected book. A list with a book whose list
    of publishers is empty makes it raise [IndexError]. In every case the
    requests are those of the search. *)
Theorem search_and_update_outcomes
        (w : world) (str_title : str -> str) (format_1f : Q -> str)
        (genre : str) (s : state) :
  let run := search_books_by_genre w genre 20 s in
  let update := search_and_update w str_title format_1f genre s in
  (forall m s', run = (Ok (Message m), s') ->
     update = (Ok {| books_display := m; book_selector := [];
                     books_state := []; selected_book_state := None;
                     status_display := CROSS ++ py " Search failed: " ++ m |},
               s'))
  /\ (forall bs s', run = (Ok (Books bs), s') ->
        Forall (fun b => publisher b <> []) bs ->
        exists u,
          update = (Ok u, s')
          /\ books_state u = bs
          /\ selected_book_state u = None
          /\ List.length (book_selector u) = List.length bs
          /\ status_display u
             = CHECK_MARK ++ py " Found " ++ str_of_Z (Z.of_nat (List.length bs))
                          ++ py " books in " ++ genre)
  /\ (forall bs s', run = (Ok (Books bs), s') ->
        Exists (fun b => publisher b = []) bs ->
        update = (Raise index_error, s')).
Proof.
  intros run update. unfold update, search_and_update, bind. fold run.
  split; [| split].
  - intros m s' ->. reflexivity.
  - intros bs s' -> Hall. unfold lift.
    assert (Hf : exists text,
               format_books_display str_title format_1f (Books bs) genre
               = Ok text).
    { unfold format_books_display.
      destruct bs as [| b bs]; [eexists; reflexivity |].
      cbn [truthy_list negb]. now apply format_books_cases. }
    destruct Hf as [text ->]. eexists. split; [reflexivity |].
    cbn [books_state selected_book_state book_selector status_display].
    repeat split. apply book_choices_length.
  - intros bs s' -> Hex. unfold lift.
    assert (Hf : format_books_display str_title format_1f (Books bs) genre
                 = Raise index_error).
    { unfold format_books_display.
      destruct bs as [| b bs]; [inversion Hex |].
      cbn [truthy_list negb]. now apply format_books_cases. }
    now rewrite Hf.
Qed.

Lemma search_and_update_outcomes_witness :
  fst (search_and_update unpublished_world sample_title sample_1f
                         (py "sci-fi") start)
  = Raise index_error
  /\ exists u,
       fst (search_and_update sample_world sample_title sample_1f
                              (py "sci-fi") start) = Ok u
       /\ books_state u = sample_books
       /\ List.length (book_selector u) = 3%nat.
Proof.
  split.
  - pose proof (@search_and_update_outcomes unpublished_world sample_title
                  sample_1f (py "sci-fi") start) as H.
    cbv zeta in H. destruct H as [_ [_ H]].
    rewrite (H [dune_of_unpublished; nightfall]
               (snd (search_books_by_genre unpublished_world (py "sci-fi") 20
                                           start))).
    + reflexivity.
    + vm_compute. reflexivity.
    + right. left. reflexivity.
  - pose proof (@search_and_update_outcomes sample_world sample_title
                  sample_1f (py "sci-fi") start) as H.
    cbv zeta in H. destruct H as [_ [H _]].
    destruct (H sample_books (snd sample_search) sample_search_books)
      as [u [Hu [Hb [_ [Hl _]]]]].
    + unfold sample_books. vm_compute. repeat constructor; discriminate.
    + exists u. rewrite Hu. split; [reflexivity |]. split; [exact Hb |].
      rewrite Hl. reflexivity.
Defined.

(** Reading back what the decimal printer writes. *)
Lemma py_string_of_uint_digits d :
  Forall (fun c => is_digit c = true) (py (NilEmpty.string_of_uint d)).
Proof.
  induction d; cbn [NilEmpty.string_of_uint py]; constructor;
    solve [reflexivity | assumption].
Qed.

Lemma parse_digits_pos d : forall p,
  parse_digits true (Z.pos p) (py (NilEmpty.string_of_uint d))
  = Some (Z.pos (Pos.of_uint_acc d p)).
Proof.
  induction d; intros p; cbn [NilEmpty.string_of_uint py Pos.of_uint_acc];
    [reflexivity | ..];
    cbn [parse_digits]; change (is_digit _) with true; cbv iota;
    rewrite <- IHd; f_equal;
    match goal with
    | |- context [Z.of_N ?x] =>
        let v := eval vm_compute in (Z.of_N x) in change (Z.of_N x) with v
    end; lia.
Qed.

Lemma parse_digits_zero d : forall after,
  d <> Decimal.Nil \/ after = true ->
  parse_digits after 0 (py (NilEmpty.string_of_uint d))
  = Some (Z.of_N (Pos.of_uint d)).
Proof.
  induction d; intros after H;
    cbn [NilEmpty.string_of_uint py Pos.of_uint].
  - destruct H as [H | ->]; [congruence | reflexivity].
  - cbn [parse_digits]. change (is_digit _) with true. cbv iota.
    change (0 * 10 + Z.of_N (N_of_ascii "0" - 48))%Z with 0%Z.
    apply IHd. now right.
  - cbn [parse_digits]. change (is_digit _) with true. cbv iota.
    apply (parse_digits_pos d 1).
  - apply (parse_digits_pos d 2).
  - apply (parse_digits_pos d 3).
  - apply (parse_digits_pos d 4).
  - apply (parse_digits_pos d 5).
  - apply (parse_digits_pos d 6).
  - apply (parse_digits_pos d 7).
  - apply (parse_digits_pos d 8).
  - apply (parse_digits_pos d 9).
Qed.

Lemma digit_bounds c : is_digit c = true -> (48 <= c <= 57)%N.
Proof.
  unfold is_digit. intros H. apply andb_prop in H. destruct H as [H1 H2].
  apply N.leb_le in H1. apply N.leb_le in H2. lia.
Qed.

Lemma digit_not_space c : is_digit c = true -> is_space c = false.
Proof.
  intros H. apply digit_bounds in H. unfold is_space.
  repeat match goal with
         | |- context [(?a <=? ?b)%N] => destruct (N.leb_spec a b); try lia
         | |- context [(?a =? ?b)%N] => destruct (N.eqb_spec a b); try lia
         end;
    try reflexivity.
Qed.

Lemma digit_not_int_space c : is_digit c = true -> int_space c = false.
Proof. intros H. unfold int_space. now rewrite (@digit_not_space c H). Qed.

Lemma digits_strip ds :
  Forall (fun c => is_digit c = true) ds -> int_strip ds = ds.
Proof.
  intros H. unfold int_strip.
  destruct ds as [| c r]; [reflexivity |].
  rewrite (@drop_while_keep _ _ _ (@digit_not_int_space _ (Forall_inv H))).
  destruct (rev (c :: r)) as [| x y] eqn:E.
  - apply (f_equal (@rev char)) in E. rewrite rev_involutive in E. discriminate.
  - assert (Hx : c :: r = rev y ++ [x]).
    { apply (f_equal (@rev char)) in E. now rewrite rev_involutive in E. }
    rewrite Hx in H. apply Forall_app in H. destruct H as [_ H].
    rewrite (@drop_while_keep _ _ _ (@digit_not_int_space _ (Forall_inv H))).
    now rewrite Hx.
Qed.

Lemma before_dot_digits ds rest :
  Forall (fun c => is_digit c = true) ds ->
  before_dot (ds ++ DOT :: rest) = ds.
Proof.
  induction 1 as [| c l Hc _ IH]; cbn [app before_dot].
  - now rewrite N.eqb_refl.
  - apply digit_bounds in Hc.
    destruct (N.eqb_spec c DOT) as [-> | _]; [unfold DOT in Hc; lia |].
    now rewrite IH.
Qed.

Lemma string_of_uint_nonnil d :
  d <> Decimal.Nil -> NilZero.string_of_uint d = NilEmpty.string_of_uint d.
Proof. destruct d; [congruence | reflexivity ..]. Qed.

(** [int] reads back the decimal text of a positive number. *)
Lemma py_int_of_pos p :
  Forall (fun c => is_digit c = true) (str_of_Z (Z.pos p))
  /\ py_int (str_of_Z (Z.pos p)) = Some (Z.pos p).
Proof.
  unfold str_of_Z. cbn [Z.to_int NilZero.string_of_int].
  pose proof (DecimalPos.Unsigned.to_uint_nonnil p) as Hnil.
  pose proof (DecimalPos.Unsigned.of_to p) as Hof.
  rewrite (string_of_uint_nonnil Hnil).
  pose proof (py_string_of_uint_digits (Pos.to_uint p)) as Hd.
  pose proof (@parse_digits_zero (Pos.to_uint p) false (or_introl Hnil)) as Hp.
  rewrite Hof in Hp.
  split; [exact Hd |].
  unfold py_int. rewrite (digits_strip Hd).
  destruct (py (NilEmpty.string_of_uint (Pos.to_uint p))) as [| c r];
    [discriminate |].
  inversion Hd as [| ? ? Hc _]; subst. apply digit_bounds in Hc.
  destruct (N.eqb_spec c MINUS) as [-> | _]; [unfold MINUS in Hc; lia |].
  destruct (N.eqb_spec c PLUS) as [-> | _]; [unfold PLUS in Hc; lia |].
  exact Hp.
Qed.

Lemma book_choice_shape i b :
  exists rest,
    book_choice i b = str_of_Z (Z.pos (Pos.of_succ_nat i)) ++ DOT :: rest.
Proof.
  unfold book_choice. cbv zeta.
  replace (Z.of_nat i + 1)%Z with (Z.pos (Pos.of_succ_nat i)) by lia.
  destruct (2 <? List.length (authors b))%nat.
  - eexists. rewrite <- app_assoc. cbn [py app]. reflexivity.
  - eexists. cbn [py app]. reflexivity.
Qed.

Lemma book_choices_nth bs : forall k i,
  nth_error (book_choices k bs) i
  = option_map (book_choice (k + i)) (nth_error bs i).
Proof.
  induction bs as [| b bs IH]; intros k i.
  - destruct i; reflexivity.
  - destruct i as [| i]; cbn [book_choices nth_error option_map].
    + now rewrite Nat.add_0_r.
    + rewrite IH. now rewrite Nat.add_succ_r.
Qed.

Lemma nth_error_length {A} (l : list A) i x :
  nth_error l i = Some x -> (i < List.length l)%nat.
Proof. intros H. apply nth_error_Some. congruence. Qed.

(** X21. The choices that [search_and_update] builds are read back by
    [select_book_from_dropdown]: the text of the choice of the book at index
    [i] selects that very book, whatever its title and its authors (a dot
    or a digit in the title does no harm), and the status names it. *)
Theorem select_reads_choice (bs : list book_info) (i : nat) (b : book_info) :
  nth_error bs i = Some b ->
  nth_error (book_choices 0 bs) i = Some (book_choice i b)
  /\ select_book_from_dropdown (Some (book_choice i b)) bs
     = (Some b,
        OPEN_BOOK ++ py " Selected: " ++ title b ++ py " by "
                  ++ join (py ", ") (firstn 2 (authors b))).
Proof.
  intros Hb. split.
  - rewrite book_choices_nth, Hb. reflexivity.
  - destruct (book_choice_shape i b) as [rest Hshape].
    destruct (py_int_of_pos (Pos.of_succ_nat i)) as [Hd Hint].
    unfold select_book_from_dropdown. rewrite Hshape.
    rewrite (before_dot_digits rest Hd), Hint.
    assert (Hne : truthy_str (str_of_Z (Z.pos (Pos.of_succ_nat i))
                                ++ DOT :: rest) = true).
    { destruct (str_of_Z (Z.pos (Pos.of_succ_nat i))); reflexivity. }
    rewrite Hne.
    assert (Hbs : truthy_list bs = true).
    { destruct bs; [destruct i; discriminate | reflexivity]. }
    rewrite Hbs. cbn [negb orb]. cbv zeta.
    pose proof (nth_error_length _ _ Hb) as Hlt.
    replace (Z.pos (Pos.of_succ_nat i) - 1)%Z with (Z.of_nat i) by lia.
    rewrite Nat2Z.id, Hb.
    destruct (Z.leb_spec 0 (Z.of_nat i)); [| lia].
    destruct (Z.ltb_spec (Z.of_nat i) (Z.of_nat (List.length bs))); [| lia].
    reflexivity.
Qed.

Lemma select_reads_choice_witness :
  nth_error (book_choices 0 sample_books) 2
  = Some (py "3. Neuromancer by William Gibson")
  /\ fst (select_book_from_dropdown
            (Some (py "3. Neuromancer by William Gibson")) sample_books)
     = nth_error sample_books 2.
Proof.
  destruct (@select_reads_choice sample_books 2
              (nth 2 sample_books dune) eq_refl) as [H1 H2].
  split; [exact H1 |].
  change (py "3. Neuromancer by William Gibson")
    with (book_choice 2 (nth 2 sample_books dune)).
  rewrite H2. reflexivity.
Defined.

(** X22. The other outcomes of [select_book_from_dropdown]. Without a
    choice, with an empty choice or with an empty list of books it answers
    "Please search for books first", and [perform_analysis], given that
    absence of a book, answers "Please select a book first" without a
    request. Otherwise, for a choice whose text before the first dot is
    ASCII and no longer than [int_max_str_digits], with [n] the number read
    there: no number gives "Error selecting book: Please try again"; a
    number below 1 or above the number of books gives "Invalid book
    selection"; any other number gives the book at index [n - 1]. A book it
    returns is always one of the list. *)
Theorem select_book_outcomes (choice : option str) (bs : list book_info) :
  let selection := select_book_from_dropdown choice bs in
  (choice = None \/ choice = Some [] \/ bs = [] ->
   selection = (None, search_first_msg)
   /\ forall w analysis_type s,
        perform_analysis w (fst selection) analysis_type s
        = (Ok select_first_msg, s))
  /\ (forall c, choice = Some c -> c <> [] -> bs <> [] ->
        is_ascii (before_dot c) = true ->
        (List.length (before_dot c) <= int_max_str_digits)%nat ->
        (py_int (before_dot c) = None ->
         selection = (None, selection_error_msg))
        /\ (forall n, py_int (before_dot c) = Some n ->
              (n < 1 \/ Z.of_nat (List.length bs) < n)%Z ->
              selection = (None, invalid_selection_msg))
        /\ (forall n, py_int (before_dot c) = Some n ->
              (1 <= n <= Z.of_nat (List.length bs))%Z ->
              exists b, nth_error bs (Z.to_nat (n - 1)) = Some b
                        /\ fst selection = Some b))
  /\ (forall b, fst selection = Some b -> In b bs).
Proof.
  intros selection. unfold selection, select_book_from_dropdown.
  split; [| split].
  - intros [-> | [-> | ->]].
    + split; reflexivity.
    + split; reflexivity.
    + destruct choice as [c |]; [| split; reflexivity].
      cbn [truthy_list negb]. rewrite orb_true_r. split; reflexivity.
  - intros c -> Hc Hbs _ _.
    assert (H1 : truthy_str c = true) by (destruct c; [congruence | reflexivity]).
    assert (H2 : truthy_list bs = true)
      by (destruct bs; [congruence | reflexivity]).
    rewrite H1, H2. cbn [negb orb].
    split; [intros ->; reflexivity |]. split.
    + intros n -> Hn. cbv zeta.
      destruct (Z.leb_spec 0 (n - 1)); destruct (Z.ltb_spec (n - 1)
        (Z.of_nat (List.length bs))); try reflexivity; lia.
    + intros n -> Hn. cbv zeta.
      destruct (Z.leb_spec 0 (n - 1)); [| lia].
      destruct (Z.ltb_spec (n - 1) (Z.of_nat (List.length bs))); [| lia].
      cbn [andb].
      destruct (nth_error bs (Z.to_nat (n - 1))) as [b |] eqn:E.
      * exists b. split; reflexivity.
      * apply nth_error_None in E. lia.
  - intros b. destruct choice as [c |]; [| discriminate].
    destruct (negb (truthy_str c) || negb (truthy_list bs)); [discriminate |].
    destruct (py_int (before_dot c)) as [n |]; [| discriminate].
    cbv zeta. destruct (_ && _); [| discriminate].
    destruct (nth_error bs (Z.to_nat (n - 1))) as [b' |] eqn:E;
      [| discriminate].
    cbn [fst]. intros H. injection H as <-. exact (nth_error_In _ _ E).
Qed.

Lemma select_book_outcomes_witness :
  select_book_from_dropdown (Some (py "7. Solaris")) sample_books
  = (None, invalid_selection_msg)
  /\ select_book_from_dropdown (Some (py "Dune. 1")) sample_books
     = (None, selection_error_msg)
  /\ perform_analysis sample_world
       (fst (select_book_from_dropdown None sample_books)) (py "summary") start
     = (Ok select_first_msg, start).
Proof.
  split; [| split].
  - destruct (@select_book_outcomes (Some (py "7. Solaris")) sample_books)
      as [_ [H _]].
    destruct (H (py "7. Solaris") eq_refl ltac:(discriminate)
                ltac:(vm_compute; discriminate) eq_refl
                ltac:(change (1 <= 4300)%nat; lia)) as [_ [H' _]].
    apply (H' 7%Z); [reflexivity | right; vm_compute; reflexivity].
  - destruct (@select_book_outcomes (Some (py "Dune. 1")) sample_books)
      as [_ [H _]].
    destruct (H (py "Dune. 1") eq_refl ltac:(discriminate)
                ltac:(vm_compute; discriminate) eq_refl
                ltac:(change (4 <= 4300)%nat; lia)) as [H' _].
    apply H'. reflexivity.
  - destruct (@select_book_outcomes None sample_books) as [H _].
    destruct (H (or_introl eq_refl)) as [_ H'].
    apply H'.
Defined.

(** *** The cost of a search *)

Lemma description_requests_bound limit docs :
  (List.length (description_requests (taken limit 0 docs))
   <= Z.to_nat (Z.max 1 limit))%nat
  /\ Forall (metadata_request limit) (description_requests (taken limit 0 docs)).
Proof.
  unfold description_requests. split.
  - rewrite length_map, taken_zero.
    pose proof (filter_length_le truthy_str
                  (map doc_key (firstn (Z.to_nat (Z.max 1 limit))
                                       (filter accepted docs)))) as H.
    rewrite length_map in H.
    pose proof (firstn_length_le (Z.to_nat (Z.max 1 limit))
                                 (filter accepted docs)).
    lia.
  - apply Forall_forall. intros r Hr. apply in_map_iff in Hr.
    destruct Hr as [k [<- _]]. right. now exists k.
Qed.

(** X23. Whatever the genre and the behaviour of the service, a search
    issues at most [2 + max(1, limit)] requests, each of them a search query
    or a description fetch of the metadata service: none goes to the model
    server. *)
Theorem search_request_bound
        (w : world) (genre : str) (limit : Z) (s : state) :
  let s' := snd (search_books_by_genre w genre limit s) in
  (List.length (new_requests s s') <= 2 + Z.to_nat (Z.max 1 limit))%nat
  /\ Forall (metadata_request limit) (new_requests s s').
Proof.
  cbv zeta.
  destruct (truthy_str (strip genre)) eqn:Hvalid.
  2:{ rewrite (search_blank w genre limit s Hvalid). cbn [snd].
      rewrite new_requests_refl. split; [simpl; lia | constructor]. }
  pose proof (search_run w genre limit s Hvalid) as H. cbv zeta in H.
  set (q := search_request (normalize_genre genre) limit) in *.
  destruct (new_requests_search w q s) as [Hq Hext].
  set (s1 := sent w q (rate_limited s)) in *.
  assert (Hmq : metadata_request limit q) by (left; eexists; reflexivity).
  assert (H1 : (List.length (new_requests s s1)
                <= 2 + Z.to_nat (Z.max 1 limit))%nat
               /\ Forall (metadata_request limit) (new_requests s s1)).
  { rewrite Hq. split; [simpl; lia | constructor; [exact Hmq | constructor]]. }
  assert (H2 : forall alternative,
             let s2 := sent w (search_request alternative limit) s1 in
             extends s s2
             /\ new_requests s s2 = [q; search_request alternative limit]).
  { intros alternative. cbv zeta. split.
    - exact (extends_trans Hext (extends_sent w _ s1)).
    - rewrite (new_requests_trans Hext (extends_sent w _ s1)), Hq,
        new_requests_sent. reflexivity. }
  assert (H3 : forall alternative,
             let s2 := sent w (search_request alternative limit) s1 in
             (List.length (new_requests s s2)
              <= 2 + Z.to_nat (Z.max 1 limit))%nat
             /\ Forall (metadata_request limit) (new_requests s s2)).
  { intros alternative. cbv zeta. destruct (H2 alternative) as [_ ->].
    split; [simpl; lia |].
    constructor; [exact Hmq |].
    constructor; [left; eexists; reflexivity | constructor]. }
  assert (Hcol : forall fallback url docs x base bs s',
             extends s x -> new_requests s x = base ->
             (List.length base <= 2)%nat ->
             Forall (metadata_request limit) base ->
             collected w fallback (normalize_genre genre) url limit docs x bs s' ->
             (List.length (new_requests s s')
              <= 2 + Z.to_nat (Z.max 1 limit))%nat
             /\ Forall (metadata_request limit) (new_requests s s')).
  { intros fallback url docs x base bs s' Hx Hbase Hlen Hall
           [_ [Hext' [Hreq _]]].
    destruct (description_requests_bound limit docs) as [Hb Hf].
    rewrite (new_requests_trans Hx Hext'), Hbase, Hreq, length_app.
    split; [lia | apply Forall_app; split; assumption]. }
  destruct (served _) as [[url docs] |].
  2:{ destruct H as [m ->]. exact H1. }
  destruct (taken limit 0 docs) eqn:Htk.
  2:{ destruct H as [bs [s' [-> Hc]]]. cbn [snd].
      eapply (Hcol _ _ _ _ [q] _ _ Hext Hq); [simpl; lia | | exact Hc].
      constructor; [exact Hmq | constructor]. }
  destruct (alternative_genres _) as [alternative |]; [| rewrite H; exact H1].
  destruct (net w _ _) as [r | e].
  2:{ destruct H as [m ->]. apply H3. }
  destruct (status_code r =? 200)%Z; [| rewrite H; apply H3].
  destruct (resp_body r) as [o | msg | v].
  2:{ destruct H as [m ->]. apply H3. }
  2:{ destruct H as [m ->]. apply H3. }
  destruct (taken limit 0 (from_option (j_docs o) []));
    [rewrite H; apply H3 |].
  destruct H as [bs [s' [-> Hc]]]. cbn [snd].
  destruct (H2 alternative) as [Hx Hb].
  eapply (Hcol _ _ _ _ _ _ _ Hx Hb); [simpl; lia | | exact Hc].
  constructor; [exact Hmq |].
  constructor; [left; eexists; reflexivity | constructor].
Qed.
